(** * Negotiation agent: decision engine, phase machine, tactic selector and
      session manager of [backend/negotiation_engine.py] and
      [backend/session_manager.py], as a shallow embedding.

    Conventions of the embedding.
    - Python [int] is [Z].  Python [float] is IEEE-754 binary64, taken from
      [SpecFloat] with [prec = 53] and [emax = 1024]; decimal literals denote
      the nearest double, products and sums round to nearest-even, and
      [int(x)] truncates toward zero.
    - Python [str] is a byte string holding the UTF-8 encoding of the text
      (the rupee sign is the three bytes E2 82 B9); [Str.decode] gives its
      code points.  The classes [\s] and [\d] of [re], and the digits that
      [int] reads, are those of Unicode 14.0 (CPython 3.11); [int] of a text
      refuses more than 4300 digits.  [lower] is exact on every character
      whose lower case has an ASCII character.
    - A raised exception is a value of [exn]; code that can raise lives in
      the error monad [Res], code that also mutates the manager in [M]. *)

From Stdlib Require Import ZArith Lia List String Ascii Bool DecimalString.
From Stdlib Require Import SpecFloat DecimalPos DecimalN.
From stdpp Require Import base option gmap strings.

Open Scope Z_scope.

(* ===================================================================== *)
(** ** Exceptions and the error monad *)

(** An exception: its class and its text [str(e)], as CPython 3.11 words
    it. *)
Inductive exn : Type :=
  | TypeError (text : string)
  | ValueError (text : string)
  | OverflowError (text : string)
  | KeyError (text : string)
  | AttributeError (text : string)
  | IndexError (text : string)
  | ZeroDivisionError (text : string).

(** [str(e)] *)
Definition exn_text (e : exn) : string :=
  match e with
  | TypeError t | ValueError t | OverflowError t | KeyError t
  | AttributeError t | IndexError t | ZeroDivisionError t => t
  end.

(** [repr(k)] of a string without quote, backslash or control character
    (an identifier, a uuid): the text of [KeyError(k)]. *)
Definition py_repr (k : string) : string := "'" +:+ k +:+ "'".

Inductive Res (A : Type) : Type :=
  | Ok (a : A)
  | Raise (e : exn).
Arguments Ok {A} a.
Arguments Raise {A} e.

Definition rbind {A B} (r : Res A) (k : A -> Res B) : Res B :=
  match r with
  | Ok a => k a
  | Raise e => Raise e
  end.

Notation "'let*' x ':=' r 'in' k" := (rbind r (fun x => k))
  (at level 10, x name, r at level 100, k at level 200).

(** [try: body except Exception: handler] *)
Definition try_except {A} (body : Res A) (handler : exn -> Res A) : Res A :=
  match body with
  | Ok a => Ok a
  | Raise e => handler e
  end.

(* ===================================================================== *)
(** ** Python floats (binary64) *)

Module F64.

Definition prec : Z := 53.
Definition emax : Z := 1024.

Definition float := spec_float.

Definition is_finite (f : float) : bool :=
  match f with
  | S754_zero _ | S754_finite _ _ _ => true
  | _ => false
  end.

(** Nearest double of an integer (round half to even). *)
Definition of_Z (z : Z) : float := binary_normalize prec emax z 0 false.

(** Implicit [int -> float] conversion of mixed arithmetic: raises
    [OverflowError] ("int too large to convert to float"). *)
Definition of_int (z : Z) : Res float :=
  let f := of_Z z in
  if is_finite f then Ok f
  else Raise (OverflowError "int too large to convert to float").

Definition mul : float -> float -> float := SFmul prec emax.
Definition add : float -> float -> float := SFadd prec emax.
Definition sub : float -> float -> float := SFsub prec emax.
Definition div : float -> float -> float := SFdiv prec emax.

Definition ltb : float -> float -> bool := SFltb.
Definition gtb (x y : float) : bool := SFltb y x.

(** A decimal literal [n / 10^d] is read as the nearest double. *)
Definition lit (n d : Z) : float := div (of_Z n) (of_Z (10 ^ d)).

(** [int(x)]: truncation toward zero; [OverflowError] on an infinity,
    [ValueError] on a NaN. *)
Definition to_int (f : float) : Res Z :=
  match f with
  | S754_zero _ => Ok 0
  | S754_finite s m e =>
      let a := if 0 <=? e then Zpos m * 2 ^ e else Zpos m / 2 ^ (- e) in
      Ok (if s then - a else a)
  | S754_infinity _ =>
      Raise (OverflowError "cannot convert float infinity to integer")
  | S754_nan => Raise (ValueError "cannot convert float NaN to integer")
  end.

(** Exact comparison of an [int] with a [float], as Python does it (the
    integer is not rounded first).  [None] when the float is a NaN. *)
Definition Z_compare (z : Z) (f : float) : option comparison :=
  match f with
  | S754_nan => None
  | S754_infinity s => Some (if s then Gt else Lt)
  | S754_zero _ => Some (z ?= 0)
  | S754_finite s m e =>
      let v := if s then Zneg m else Zpos m in
      Some (if 0 <=? e then z ?= v * 2 ^ e else z * 2 ^ (- e) ?= v)
  end.

Definition Z_ltb (z : Z) (f : float) : bool :=
  match Z_compare z f with
  | Some Lt => true
  | _ => false
  end.

Definition lt_Z (f : float) (z : Z) : bool :=
  match Z_compare z f with
  | Some Gt => true
  | _ => false
  end.

Definition gt_Z (f : float) (z : Z) : bool := Z_ltb z f.

(** [a / b] on two integers: the correctly rounded quotient. *)
Definition true_div (a b : Z) : Res float :=
  if b =? 0 then Raise (ZeroDivisionError "division by zero")
  else if a =? 0 then Ok (S754_zero (b <? 0))
  else
    let s := xorb (a <? 0) (b <? 0) in
    let '(mz, ez, lz) :=
      SFdiv_core_binary prec emax (Z.abs a) 0 (Z.abs b) 0 in
    let r := binary_round_aux prec emax s mz ez lz in
    if is_finite r then Ok r
    else Raise (OverflowError "integer division result too large for a float").

(** [int * float] *)
Definition int_mul (z : Z) (f : float) : Res float :=
  let* x := of_int z in Ok (mul x f).

(** [max(0, min(1, x))] on a float [x]; the integers 0 and 1 that Python
    returns at the ends are the doubles 0.0 and 1.0. *)
Definition clamp01 (x : float) : float :=
  let y := if ltb x (of_Z 1) then x else of_Z 1 in
  if gtb y (of_Z 0) then y else of_Z 0.

(** The literals of the source. *)
Definition c0_1 : float := Eval vm_compute in lit 1 1.
Definition c0_2 : float := Eval vm_compute in lit 2 1.
Definition c0_3 : float := Eval vm_compute in lit 3 1.
Definition c0_4 : float := Eval vm_compute in lit 4 1.
Definition c0_5 : float := Eval vm_compute in lit 5 1.
Definition c0_6 : float := Eval vm_compute in lit 6 1.
Definition c0_7 : float := Eval vm_compute in lit 7 1.
Definition c0_8 : float := Eval vm_compute in lit 8 1.
Definition c0_9 : float := Eval vm_compute in lit 9 1.
Definition c0_95 : float := Eval vm_compute in lit 95 2.
Definition c1_1 : float := Eval vm_compute in lit 11 1.
Definition c1_0 : float := Eval vm_compute in of_Z 1.
Definition c0_0 : float := Eval vm_compute in of_Z 0.

End F64.

Abbreviation float := F64.float.

(* ===================================================================== *)
(** ** Data model *)

Inductive NegotiationPhase : Type :=
  | OPENING | EXPLORATION | BARGAINING | CLOSING | DEADLOCK.

Definition phase_value (p : NegotiationPhase) : string :=
  match p with
  | OPENING => "opening"
  | EXPLORATION => "exploration"
  | BARGAINING => "bargaining"
  | CLOSING => "closing"
  | DEADLOCK => "deadlock"
  end.

Inductive SellerPersonality : Type :=
  | FLEXIBLE | FIRM | EAGER | HESITANT | AGGRESSIVE.

Definition personality_value (p : SellerPersonality) : string :=
  match p with
  | FLEXIBLE => "flexible"
  | FIRM => "firm"
  | EAGER => "eager"
  | HESITANT => "hesitant"
  | AGGRESSIVE => "aggressive"
  end.

Inductive NegotiationTactic : Type :=
  | ANCHORING | SCARCITY | BUNDLING | RECIPROCITY
  | AUTHORITY | SOCIAL_PROOF | COMMITMENT | URGENCY.

Definition tactic_eqb (a b : NegotiationTactic) : bool :=
  match a, b with
  | ANCHORING, ANCHORING | SCARCITY, SCARCITY | BUNDLING, BUNDLING
  | RECIPROCITY, RECIPROCITY | AUTHORITY, AUTHORITY
  | SOCIAL_PROOF, SOCIAL_PROOF | COMMITMENT, COMMITMENT
  | URGENCY, URGENCY => true
  | _, _ => false
  end.

(** [models.py] is not among the sources: a message and a product carry the
    fields that the two modules read and write. *)
Record ChatMessage : Type := mkChatMessage {
  msg_id : string;
  msg_session_id : string;
  sender : string;
  content : string;
  timestamp : Z;
  sender_type : string
}.

Record Product : Type := mkProduct {
  product_id : string;
  title : string;
  price : Z;
  category : string
}.

(** The [price_analysis] entry of a seller analysis. *)
Record PriceAnalysis : Type := mkPriceAnalysis {
  current_price : option Z;
  previous_prices : list Z;
  trend : string;
  concession_amount : Z
}.

(** The [response_pattern] entry.  Its [avg_response_time] is a mean of
    timestamp differences that nothing reads; it is left out. *)
Record ResponsePattern : Type := mkResponsePattern {
  avg_message_length : option float;
  consistency : string
}.

(** A seller analysis is a dictionary; every entry the code reads with
    [.get] may be missing, the empty dictionary has none. *)
Record SellerAnalysis : Type := mkSellerAnalysis {
  sentiment : option string;
  flexibility_score : option float;
  urgency_level : option string;
  personality : option string;
  price_analysis : option PriceAnalysis;
  objections : option (list string);
  buying_signals : option (list string);
  response_pattern : option ResponsePattern;
  message_length : option Z;
  politeness_score : option float;
  contains_offer : bool
}.

Definition empty_analysis : SellerAnalysis :=
  mkSellerAnalysis None None None None None None None None None None false.

(** A decision is a dictionary with an ['action'] and, depending on the
    branch, an ['offer'], a ['confidence'] and a ['reasoning'].  No branch
    of the engine writes ['offer_amount']. *)
Record Decision : Type := mkDecision {
  action : string;
  offer : option Z;
  offer_amount : option Z;
  confidence : option float;
  reasoning : option string
}.

(** [strategy['talking_points']]; a missing list is the empty one. *)
Record TalkingPoints : Type := mkTalkingPoints {
  opening_statements : list string;
  price_arguments : list string;
  condition_points : list string;
  market_comparisons : list string;
  closing_arguments : list string
}.

(** The entries of [session_data['strategy']] that the engine reads, each
    with the default of its [.get]; [empty_strategy] is the dictionary
    without them. *)
Record Strategy : Type := mkStrategy {
  market_position : string;
  concerns : list string;
  maximum_budget : Z;
  talking_points : TalkingPoints
}.

Definition empty_strategy : Strategy :=
  mkStrategy "unknown" [] 0 (mkTalkingPoints [] [] [] [] []).

(** [session_data['product']]: missing, a dictionary, or the [Product]
    object that the session manager stores (an object has no [.get]). *)
Inductive ProductEntry : Type :=
  | NoProduct
  | ProductDict (category : option string)
  | ProductObject (p : Product).

(** The entries of [session_data] that the engine reads.  The dictionary
    built by [create_session_from_url] has no ['target_price'] and no
    ['max_budget'] key; a caller of the engine may supply them. *)
Record EngineSession : Type := mkEngineSession {
  sd_target_price : option Z;
  sd_max_budget : option Z;
  sd_strategy : Strategy;
  sd_product : ProductEntry
}.

(* ===================================================================== *)
(** ** DecisionEngine *)

Definition get_flexibility (sa : SellerAnalysis) : float :=
  default F64.c0_5 (flexibility_score sa).

(** [seller_analysis.get('price_analysis', {}).get('current_price')] *)
Definition extracted_price (sa : SellerAnalysis) : option Z :=
  match price_analysis sa with
  | Some pa => current_price pa
  | None => None
  end.

(** [if not current_price: current_price = product.price]: [None] and [0]
    are both falsy. *)
Definition effective_price (sa : SellerAnalysis) (product : Product) : Z :=
  match extracted_price sa with
  | Some p => if p =? 0 then price product else p
  | None => price product
  end.

Definition phase_factor (phase : NegotiationPhase) : float :=
  match phase with
  | OPENING => F64.c0_3
  | BARGAINING => F64.c0_4
  | _ => F64.c0_6
  end.

Definition _calculate_counter_offer
    (current_price target_price : Z) (sa : SellerAnalysis)
    (phase : NegotiationPhase) : Res Z :=
  let flexibility := get_flexibility sa in
  let price_gap := current_price - target_price in
  let* x := F64.int_mul price_gap (phase_factor phase) in
  let* increment := F64.to_int (F64.mul x flexibility) in
  let new_offer := target_price + increment in
  Ok (Z.min new_offer (current_price - 1000)).

Definition make_decision
    (sd : EngineSession) (sa : SellerAnalysis)
    (phase : NegotiationPhase) (product : Product) : Res Decision :=
  let target_price := default 0 (sd_target_price sd) in
  let max_budget := default 0 (sd_max_budget sd) in
  let current_price := effective_price sa product in
  if current_price <=? target_price then
    Ok (mkDecision "accept" None None (Some F64.c0_9)
          (Some "Price within target range"))
  else if current_price <=? max_budget then
    if F64.gtb (get_flexibility sa) F64.c0_6 then
      let* new_offer :=
        _calculate_counter_offer current_price target_price sa phase in
      Ok (mkDecision "counter_offer" (Some new_offer) None (Some F64.c0_7)
            (Some "Seller shows flexibility, room for negotiation"))
    else
      let* limit := F64.int_mul max_budget F64.c0_95 in
      if F64.Z_ltb current_price limit then
        Ok (mkDecision "accept_with_conditions" None None (Some F64.c0_6)
              (Some "Close to budget limit, try to add value"))
      else
        Ok (mkDecision "continue" None None (Some F64.c0_5)
              (Some "Gather more information"))
  else
    if F64.gtb (get_flexibility sa) F64.c0_7 then
      let* x := F64.int_mul target_price F64.c1_1 in
      let* y := F64.to_int x in
      let final_offer := Z.min max_budget y in
      Ok (mkDecision "final_offer" (Some final_offer) None (Some F64.c0_4)
            (Some "Last attempt before walking away"))
    else
      Ok (mkDecision "walk_away" None None (Some F64.c0_8)
            (Some "Price too high, seller inflexible")).

(* ===================================================================== *)
(** ** Python strings *)

Module Str.

Definition byte_is (n : nat) (c : ascii) : bool := (nat_of_ascii c =? n)%nat.

Definition is_upper (c : ascii) : bool :=
  let n := nat_of_ascii c in (65 <=? n)%nat && (n <=? 90)%nat.

Definition lower_char (c : ascii) : ascii :=
  if is_upper c then ascii_of_nat (nat_of_ascii c + 32) else c.

(** [s.lower()], read for its ASCII characters.  Two characters outside
    ASCII have a lower case with an ASCII character: the Kelvin sign U+212A
    (E2 84 AA) gives "k", and U+0130 (C4 B0) gives "i" followed by U+0307
    (CC 87).  The lower case of every other character outside ASCII has no
    ASCII character; such a character is kept as it is, which changes no
    occurrence of an ASCII word. *)
Fixpoint lower (s : string) : string :=
  match s with
  | EmptyString => EmptyString
  | String c r =>
      match r with
      | EmptyString => String (lower_char c) EmptyString
      | String c1 r1 =>
          if byte_is 196 c && byte_is 176 c1
          then String "i"
                 (String (ascii_of_nat 204)
                    (String (ascii_of_nat 135) (lower r1)))
          else
            match r1 with
            | EmptyString => String (lower_char c) (lower r)
            | String c2 r2 =>
                if byte_is 226 c && byte_is 132 c1 && byte_is 170 c2
                then String "k" (lower r2)
                else String (lower_char c) (lower r)
            end
      end
  end.

(** [needle in hay] *)
Fixpoint contains (needle hay : string) : bool :=
  if String.prefix needle hay then true
  else match hay with
       | EmptyString => false
       | String _ r => contains needle r
       end.

(** [sep.join(l)] *)
Fixpoint join (sep : string) (l : list string) : string :=
  match l with
  | [] => EmptyString
  | [x] => x
  | x :: r => x ++ sep ++ join sep r
  end.

(** [len(s)]: the number of code points, that is of bytes that are not
    UTF-8 continuation bytes. *)
Fixpoint len (s : string) : Z :=
  match s with
  | EmptyString => 0
  | String c r =>
      let n := nat_of_ascii c in
      (if (128 <=? n)%nat && (n <=? 191)%nat then 0 else 1) + len r
  end.

(** [any(k in s for k in keywords)] *)
Definition contains_any (keywords : list string) (s : string) : bool :=
  existsb (fun k => contains k s) keywords.

(** [sum(1 for w in words if w in s)] *)
Definition count_in (words : list string) (s : string) : Z :=
  Z.of_nat (length (filter (fun w => contains w s) words)).

Definition rupee : string := "₹".

(** ASCII digits and the comma, as bytes. *)
Definition is_digit (c : ascii) : bool :=
  let n := nat_of_ascii c in (48 <=? n)%nat && (n <=? 57)%nat.

Definition digit_value (c : ascii) : Z := Z.of_nat (nat_of_ascii c) - 48.

Definition is_comma (c : ascii) : bool := (nat_of_ascii c =? 44)%nat.

(** *** Code points

    A streaming UTF-8 decoder.  A byte sequence that encodes no character
    (it cannot come from a Python [str]) gives U+FFFD. *)
Inductive seq_len : Type := L2 | L3 | L4.

Inductive dec_state : Type :=
  | DStart
  | DPend (need : nat) (acc : Z) (len : seq_len).

Definition replacement : Z := 65533.

Definition in_range (len : seq_len) (cp : Z) : bool :=
  match len with
  | L2 => (128 <=? cp) && (cp <? 2048)
  | L3 => (2048 <=? cp) && (cp <? 65536)
          && negb ((55296 <=? cp) && (cp <? 57344))
  | L4 => (65536 <=? cp) && (cp <? 1114112)
  end.

(** Reading the byte [n] at the start of a character. *)
Definition dec_first (n : Z) : list Z * dec_state :=
  if n <? 128 then ([n], DStart)
  else if (194 <=? n) && (n <? 224) then ([], DPend 1 (n - 192) L2)
  else if (224 <=? n) && (n <? 240) then ([], DPend 2 (n - 224) L3)
  else if (240 <=? n) && (n <? 245) then ([], DPend 3 (n - 240) L4)
  else ([replacement], DStart).

Definition dec_step (st : dec_state) (n : Z) : list Z * dec_state :=
  match st with
  | DStart => dec_first n
  | DPend k acc len =>
      if (128 <=? n) && (n <? 192) then
        let acc' := 64 * acc + (n - 128) in
        match k with
        | S (S k') => ([], DPend (S k') acc' len)
        | _ => ([if in_range len acc' then acc' else replacement], DStart)
        end
      else
        let '(o, st') := dec_first n in (replacement :: o, st')
  end.

Fixpoint decode_from (st : dec_state) (s : string) : list Z :=
  match s with
  | EmptyString =>
      match st with
      | DStart => []
      | DPend _ _ _ => [replacement]
      end
  | String c r =>
      let '(o, st') := dec_step st (Z.of_nat (nat_of_ascii c)) in
      o ++ decode_from st' r
  end.

Definition decode (s : string) : list Z := decode_from DStart s.

(** [\s] of a [str] pattern, that is [str.isspace]. *)
Definition space_points : list Z :=
  [9; 10; 11; 12; 13; 28; 29; 30; 31; 32; 133; 160; 5760;
   8192; 8193; 8194; 8195; 8196; 8197; 8198; 8199; 8200; 8201; 8202;
   8232; 8233; 8239; 8287; 12288].

Definition is_space (cp : Z) : bool := existsb (Z.eqb cp) space_points.

(** [\d] of a [str] pattern, that is [str.isdecimal]: the decimal digits
    of Unicode 14.0, in 66 runs of ten; each entry is the digit zero of a
    run. *)
Definition digit_zeros : list Z :=
  [48; 1632; 1776; 1984; 2406; 2534; 2662; 2790; 2918; 3046; 3174; 3302;
   3430; 3558; 3664; 3792; 3872; 4160; 4240; 6112; 6160; 6470; 6608; 6784;
   6800; 6992; 7088; 7232; 7248; 42528; 43216; 43264; 43472; 43504; 43600;
   44016; 65296; 66720; 68912; 69734; 69872; 69942; 70096; 70384; 70736;
   70864; 71248; 71360; 71472; 71904; 72016; 72784; 73040; 73120; 92768;
   92864; 93008; 120782; 120792; 120802; 120812; 120822; 123200; 123632;
   125264; 130032].

(** The value of a decimal digit, as [int] reads it. *)
Definition decimal (cp : Z) : option Z :=
  match find (fun z => (z <=? cp) && (cp <? z + 10)) digit_zeros with
  | Some z => Some (cp - z)
  | None => None
  end.

Definition comma_point : Z := 44.
Definition rupee_point : Z := 8377.

End Str.

(** [l[-n:]] *)
Definition last_n {A : Type} (n : nat) (l : list A) : list A :=
  skipn (length l - n) l.

(* ===================================================================== *)
(** ** AdvancedNegotiationEngine._determine_negotiation_phase *)

Definition closing_keywords : list string :=
  ["deal"; "final"; "accept"; "agree"; "done"; "sold"].

Definition price_mentioned (chat_history : list ChatMessage) : bool :=
  existsb (fun msg => Str.contains "price" (Str.lower (content msg))
                      || Str.contains Str.rupee (content msg))
          (last_n 3 chat_history).

Definition _determine_negotiation_phase
    (chat_history : list ChatMessage) (sa : SellerAnalysis)
    : NegotiationPhase :=
  let message_count := Z.of_nat (length chat_history) in
  if message_count <=? 2 then OPENING
  else
    let recent_messages :=
      map (fun msg => Str.lower (content msg)) (last_n 3 chat_history) in
    if Str.contains_any closing_keywords (Str.join " " recent_messages)
    then CLOSING
    else if F64.ltb (get_flexibility sa) F64.c0_2 && (6 <? message_count)
    then DEADLOCK
    else if price_mentioned chat_history && (3 <? message_count)
    then BARGAINING
    else EXPLORATION.

(* ===================================================================== *)
(** ** StrategySelector *)

(** [self.tactic_effectiveness]: four tactics, three personalities. *)
Definition tactic_effectiveness (t : NegotiationTactic)
    : option (list (string * float)) :=
  match t with
  | ANCHORING =>
      Some [("flexible", F64.c0_8); ("firm", F64.c0_4); ("eager", F64.c0_9)]
  | SCARCITY =>
      Some [("flexible", F64.c0_6); ("firm", F64.c0_3); ("eager", F64.c0_9)]
  | BUNDLING =>
      Some [("flexible", F64.c0_7); ("firm", F64.c0_5); ("eager", F64.c0_6)]
  | URGENCY =>
      Some [("flexible", F64.c0_5); ("firm", F64.c0_2); ("eager", F64.c0_8)]
  | _ => None
  end.

Fixpoint dict_get {V : Type} (k : string) (d : list (string * V)) : option V :=
  match d with
  | [] => None
  | (k', v) :: r => if String.eqb k k' then Some v else dict_get k r
  end.

(** [self.tactic_effectiveness.get(tactic, {}).get(personality, 0.5)] *)
Definition effectiveness (t : NegotiationTactic) (personality : string)
    : float :=
  default F64.c0_5
    (dict_get personality (default [] (tactic_effectiveness t))).

Definition is_high (u : option string) : bool :=
  match u with
  | Some s => String.eqb s "high"
  | None => false
  end.

(** The tactics appended before the effectiveness filter. *)
Definition candidate_tactics (sa : SellerAnalysis) (phase : NegotiationPhase)
    : list NegotiationTactic :=
  match phase with
  | OPENING =>
      [ANCHORING] ++ (if is_high (urgency_level sa) then [URGENCY] else [])
  | BARGAINING =>
      (if F64.gtb (get_flexibility sa) F64.c0_6 then [RECIPROCITY] else [])
      ++ (if existsb (String.eqb "price_too_low") (default [] (objections sa))
          then [SOCIAL_PROOF] else [])
  | CLOSING =>
      [COMMITMENT] ++ (if is_high (urgency_level sa) then [SCARCITY] else [])
  | DEADLOCK => [BUNDLING; AUTHORITY]
  | EXPLORATION => []
  end.

Definition effective (personality : string) (t : NegotiationTactic) : bool :=
  F64.gtb (effectiveness t personality) F64.c0_4.

Definition select_tactics
    (decision : Decision) (sa : SellerAnalysis) (phase : NegotiationPhase)
    (sd : EngineSession) : list NegotiationTactic :=
  let personality := default "flexible" (personality sa) in
  let tactics := candidate_tactics sa phase in
  let effective_tactics := filter (effective personality) tactics in
  firstn 3 effective_tactics.

(* ===================================================================== *)
(** ** ConversationAnalyzer *)

Module Kw.
Definition positive : list string :=
  ["good"; "excellent"; "perfect"; "great"; "wonderful"; "yes"; "sure";
   "okay"].
Definition negative : list string :=
  ["no"; "cannot"; "impossible"; "never"; "refuse"; "reject"].
Definition flex_high : list string :=
  ["negotiate"; "flexible"; "consider"; "discuss"; "maybe"; "perhaps"].
Definition flex_low : list string :=
  ["firm"; "fixed"; "final"; "non-negotiable"; "minimum"; "cannot"].
Definition urgency_high : list string :=
  ["urgent"; "immediately"; "today"; "asap"; "quick"].
Definition urgency_low : list string :=
  ["whenever"; "no rush"; "flexible"; "anytime"].
Definition polite : list string :=
  ["please"; "thank"; "sorry"; "appreciate"; "understand"; "respect"].
Definition rude : list string :=
  ["no way"; "impossible"; "ridiculous"; "waste"].
Definition objection_patterns : list (string * list string) :=
  [("price_too_low", ["too low"; "not enough"; "cannot accept"; "minimum"]);
   ("condition_concerns", ["condition"; "wear"; "damage"; "issue"]);
   ("timing_issues", ["time"; "when"; "schedule"; "availability"]);
   ("trust_concerns", ["trust"; "verify"; "proof"; "guarantee"])].
Definition signal_patterns : list (string * list string) :=
  [("price_acceptance", ["okay"; "fine"; "accept"; "deal"]);
   ("logistics_discussion",
    ["when"; "where"; "pickup"; "delivery"; "meet"]);
   ("payment_discussion", ["payment"; "cash"; "transfer"; "money"]);
   ("urgency_to_sell", ["urgent"; "immediately"; "quick sale"])].
End Kw.

Definition _analyze_sentiment (message : string) : string :=
  let positive_count := Str.count_in Kw.positive message in
  let negative_count := Str.count_in Kw.negative message in
  if negative_count <? positive_count then "positive"
  else if positive_count <? negative_count then "negative"
  else "neutral".

(** A placeholder in the source: always 0. *)
Definition _count_price_concessions (chat_history : list ChatMessage) : Z := 0.

Definition _assess_flexibility
    (message : string) (chat_history : list ChatMessage) : float :=
  let high_flex_count := Str.count_in Kw.flex_high message in
  let low_flex_count := Str.count_in Kw.flex_low message in
  let base_score := F64.c0_5 in
  let base_score :=
    if 0 <? high_flex_count
    then F64.add base_score (F64.mul F64.c0_2 (F64.of_Z high_flex_count))
    else base_score in
  let base_score :=
    if 0 <? low_flex_count
    then F64.sub base_score (F64.mul F64.c0_3 (F64.of_Z low_flex_count))
    else base_score in
  let price_concessions := _count_price_concessions chat_history in
  let base_score :=
    if 0 <? price_concessions
    then F64.add base_score (F64.mul F64.c0_1 (F64.of_Z price_concessions))
    else base_score in
  F64.clamp01 base_score.

Definition _detect_urgency (message : string) : string :=
  let high_urgency := Str.count_in Kw.urgency_high message in
  let low_urgency := Str.count_in Kw.urgency_low message in
  if 0 <? high_urgency then "high"
  else if 0 <? low_urgency then "low"
  else "medium".

Definition seller_messages (chat_history : list ChatMessage)
    : list ChatMessage :=
  filter (fun msg => String.eqb (sender msg) "seller") chat_history.

Definition sum_len (l : list ChatMessage) : Z :=
  fold_right (fun msg acc => Str.len (content msg) + acc) 0 l.

Definition _infer_personality
    (message : string) (chat_history : list ChatMessage)
    : Res SellerPersonality :=
  let sellers := seller_messages chat_history in
  let* avg_response_length :=
    F64.true_div (sum_len sellers) (Z.max 1 (Z.of_nat (length sellers))) in
  if Str.contains "firm" message || Str.contains "final" message
     || Str.contains "non-negotiable" message
  then Ok FIRM
  else if Str.contains "flexible" message || Str.contains "negotiate" message
  then Ok FLEXIBLE
  else if Str.contains "quick" message || Str.contains "urgent" message
          || F64.lt_Z avg_response_length 50
  then Ok EAGER
  else if F64.gt_Z avg_response_length 150
  then Ok HESITANT
  else Ok FLEXIBLE.

(** *** The price pattern

    [re.findall] of the price pattern, as one left-to-right pass over the
    code points.  The pattern is the rupee sign, then any run of white
    space and commas, then the capture: a digit group followed by any
    number of comma-and-digit-group pieces.  The character classes are
    pairwise disjoint, so the matcher never backtracks into a different
    match.  A capture is kept as the integer its digits denote, commas
    removed, and the number of its digits. *)
Record Capture : Type := mkCapture {
  cap_value : Z;
  cap_digits : Z
}.

Inductive scan_state : Type :=
  | Idle                    (* outside a match *)
  | Skip                    (* read the sign, inside the run of white space
                               and commas *)
  | Num (v k : Z)           (* inside a digit group *)
  | NumComma (v k : Z).     (* read a comma after a digit group *)

Definition restart (cp : Z) : scan_state :=
  if cp =? Str.rupee_point then Skip else Idle.

Fixpoint scan (st : scan_state) (l : list Z) : list Capture :=
  match l with
  | [] =>
      match st with
      | Num v k | NumComma v k => [mkCapture v k]
      | _ => []
      end
  | cp :: r =>
      match st with
      | Idle => scan (restart cp) r
      | Skip =>
          if Str.is_space cp || (cp =? Str.comma_point) then scan Skip r
          else match Str.decimal cp with
               | Some d => scan (Num d 1) r
               | None => scan (restart cp) r
               end
      | Num v k =>
          match Str.decimal cp with
          | Some d => scan (Num (10 * v + d) (k + 1)) r
          | None =>
              if cp =? Str.comma_point then scan (NumComma v k) r
              else mkCapture v k :: scan (restart cp) r
          end
      | NumComma v k =>
          match Str.decimal cp with
          | Some d => scan (Num (10 * v + d) (k + 1)) r
          | None => mkCapture v k :: scan (restart cp) r
          end
      end
  end.

Definition price_captures (s : string) : list Capture :=
  scan Idle (Str.decode s).

(** [int(p.replace(',', ''))] on a capture: [int] refuses a text of more
    than 4300 digits. *)
Definition py_int (c : Capture) : Res Z :=
  if 4300 <? cap_digits c
  then Raise
         (ValueError
            ("Exceeds the limit (4300 digits) for integer string conversion: value has "
             +:+ NilEmpty.string_of_uint (N.to_uint (Z.to_N (cap_digits c)))
             +:+ " digits; use sys.set_int_max_str_digits() to increase the limit"))
  else Ok (cap_value c).

(** [[int(p.replace(',', '')) for p in captures]] *)
Fixpoint int_all (l : list Capture) : Res (list Z) :=
  match l with
  | [] => Ok []
  | c :: r =>
      let* v := py_int c in
      let* vs := int_all r in
      Ok (v :: vs)
  end.

(** The prices of one text as [_extract_recent_prices] takes them: a
    capture that [int] refuses is passed over. *)
Definition findall_prices (s : string) : list Z :=
  flat_map (fun c => match py_int c with
                     | Ok v => [v]
                     | Raise _ => []
                     end)
           (price_captures s).

(** The prices of the seller's messages, oldest first. *)
Fixpoint seller_prices (sellers : list ChatMessage) : Res (list Z) :=
  match sellers with
  | [] => Ok []
  | msg :: r =>
      let* here := int_all (price_captures (content msg)) in
      let* rest := seller_prices r in
      Ok (here ++ rest)
  end.

Definition _analyze_price_movement
    (message : string) (chat_history : list ChatMessage)
    : Res PriceAnalysis :=
  match last (price_captures message) with
  | Some c =>
      let* current := py_int c in
      let* previous := seller_prices (seller_messages chat_history) in
      let trend :=
        match last previous with
        | Some last_price =>
            if current <? last_price then "decreasing"
            else if last_price <? current then "increasing"
            else "stable"
        | None => "stable"
        end in
      let concession :=
        match last previous with
        | Some last_price => last_price - current
        | None => 0
        end in
      Ok (mkPriceAnalysis (Some current) previous trend concession)
  | None => Ok (mkPriceAnalysis None [] "stable" 0)
  end.

Definition matching_tags (patterns : list (string * list string))
    (message : string) : list string :=
  map fst (filter (fun kv => Str.contains_any (snd kv) message) patterns).

Definition _identify_objections (message : string) : list string :=
  matching_tags Kw.objection_patterns message.

Definition _detect_buying_signals (message : string) : list string :=
  matching_tags Kw.signal_patterns message.

Definition _assess_politeness (message : string) : float :=
  let polite_count := Str.count_in Kw.polite message in
  let rude_count := Str.count_in Kw.rude message in
  let base_score := F64.c0_6 in
  let base_score :=
    F64.add base_score (F64.mul F64.c0_1 (F64.of_Z polite_count)) in
  let base_score :=
    F64.sub base_score (F64.mul F64.c0_2 (F64.of_Z rude_count)) in
  F64.clamp01 base_score.

Definition _analyze_response_pattern (chat_history : list ChatMessage)
    : Res ResponsePattern :=
  let sellers := seller_messages chat_history in
  if Z.of_nat (length sellers) <? 2 then Ok (mkResponsePattern None "unknown")
  else
    let* avg_length :=
      F64.true_div (sum_len sellers) (Z.of_nat (length sellers)) in
    Ok (mkResponsePattern (Some avg_length)
          (if F64.gt_Z avg_length 30 then "consistent" else "brief")).

Definition analyze_seller_message
    (message : string) (chat_history : list ChatMessage) (sd : EngineSession)
    : Res SellerAnalysis :=
  let message_lower := Str.lower message in
  let sentiment := _analyze_sentiment message_lower in
  let flexibility_score := _assess_flexibility message_lower chat_history in
  let urgency_level := _detect_urgency message_lower in
  let* personality := _infer_personality message_lower chat_history in
  let* price_analysis := _analyze_price_movement message chat_history in
  let objections := _identify_objections message_lower in
  let buying_signals := _detect_buying_signals message_lower in
  let* response_pattern := _analyze_response_pattern chat_history in
  Ok (mkSellerAnalysis
        (Some sentiment) (Some flexibility_score) (Some urgency_level)
        (Some (personality_value personality)) (Some price_analysis)
        (Some objections) (Some buying_signals) (Some response_pattern)
        (Some (Str.len message)) (Some (_assess_politeness message_lower))
        false).

(* ===================================================================== *)
(** ** ResponseGenerator *)

(** The module-level random generator: a tape of draws.  [random.choice]
    takes the next draw modulo the length of the sequence; past the end of
    the tape every draw is 0. *)
Definition Rng : Type := list nat.

Definition G (A : Type) : Type := Rng -> Res A * Rng.

Definition gret {A} (a : A) : G A := fun g => (Ok a, g).

Definition gbind {A B} (c : G A) (k : A -> G B) : G B :=
  fun g =>
    match c g with
    | (Ok a, g') => k a g'
    | (Raise e, g') => (Raise e, g')
    end.

Definition glift {A} (r : Res A) : G A := fun g => (r, g).

Notation "'let!' x ':=' c 'in' k" := (gbind c (fun x => k))
  (at level 10, x name, c at level 100, k at level 200).

Definition choice {A} (l : list A) : G A :=
  fun g =>
    match l with
    | [] => (Raise (IndexError "Cannot choose from an empty sequence"), g)
    | d :: _ =>
        match g with
        | [] => (Ok d, [])
        | k :: g' => (Ok (nth (k mod length l) l d), g')
        end
    end.

(** [f"{n:,}"] *)
Fixpoint group3 (k : nat) (rev_digits : list ascii) : list ascii :=
  match rev_digits with
  | [] => []
  | c :: r =>
      match k with
      | 3%nat => ","%char :: c :: group3 1 r
      | _ => c :: group3 (S k) r
      end
  end.

Definition format_commas (n : Z) : string :=
  let digits :=
    list_ascii_of_string (NilEmpty.string_of_uint (N.to_uint (Z.abs_N n))) in
  let grouped := rev (group3 0 (rev digits)) in
  (if n <? 0 then "-" else "") +:+ string_of_list_ascii grouped.

(** A template is a format string; [.format(offer=n)] fills the [offer]
    field and raises [KeyError] on any other field. *)
Inductive piece : Type :=
  | Lit (s : string)
  | Offer
  | Field (name : string).

Fixpoint format_template (t : list piece) (n : Z) : Res string :=
  match t with
  | [] => Ok EmptyString
  | Lit s :: r => let* rest := format_template r n in Ok (s +:+ rest)
  | Offer :: r =>
      let* rest := format_template r n in Ok (format_commas n +:+ rest)
  | Field name :: _ => Raise (KeyError (py_repr name))
  end.

Definition tactic_templates (t : NegotiationTactic) : list (list piece) :=
  match t with
  | ANCHORING =>
      [[Lit "Based on current market rates for similar items, I was thinking around ₹"; Offer; Lit ". What do you think?"];
       [Lit "I've seen similar products selling for ₹"; Offer; Lit ". Would that work for you?"]]
  | SCARCITY =>
      [[Lit "I'm looking at a few similar listings. If we can agree on ₹"; Offer; Lit ", I can decide right away."];
       [Lit "I have another option, but I prefer yours. Can you consider ₹"; Offer; Lit "?"]]
  | URGENCY =>
      [[Lit "I need to make a decision today. If ₹"; Offer; Lit " works, I can arrange pickup immediately."];
       [Lit "I can transfer the money right now if we agree on ₹"; Offer; Lit "."]]
  | RECIPROCITY =>
      [[Lit "I appreciate your flexibility. Meeting me at ₹"; Offer; Lit " would really help my budget."];
       [Lit "Since you're being reasonable, I can stretch to ₹"; Offer; Lit ". That's really my best offer."]]
  | SOCIAL_PROOF =>
      [[Lit "Similar items in this condition usually sell for around ₹"; Offer; Lit ". Market research shows this is fair."];
       [Lit "Based on what others are paying for similar products, ₹"; Offer; Lit " seems right."]]
  | BUNDLING =>
      [[Lit "For ₹"; Offer; Lit ", could you include "; Field "additional_item"; Lit "? That would make it worthwhile."];
       [Lit "I can do ₹"; Offer; Lit " if you can help with delivery/warranty/accessories."]]
  | AUTHORITY =>
      [[Lit "My budget advisor suggested not going above ₹"; Offer; Lit " for items like this."];
       [Lit "Based on expert recommendations, ₹"; Offer; Lit " is the fair market value."]]
  | COMMITMENT =>
      [[Lit "If you accept ₹"; Offer; Lit ", I'm ready to close the deal right now."];
       [Lit "₹"; Offer; Lit " and we have a deal. I'll bring cash for immediate pickup."]]
  end.

Definition nonempty {A} (l : list A) : bool :=
  match l with [] => false | _ => true end.

Definition _format_offer_with_tactic
    (offer_amount : Z) (tactics : list NegotiationTactic)
    (strategy : Strategy) : G string :=
  let primary_tactic := hd ANCHORING tactics in
  match primary_tactic with
  | ANCHORING =>
      if String.eqb (market_position strategy) "above_market"
      then gret ("Based on market research, I can offer ₹"
                 +:+ format_commas offer_amount
                 +:+ ". This reflects the current market value for similar items.")
      else gret ("Considering all factors, I can offer ₹"
                 +:+ format_commas offer_amount +:+ ".")
  | URGENCY =>
      gret ("I'm ready to proceed immediately with ₹"
            +:+ format_commas offer_amount +:+ " if we can agree today.")
  | AUTHORITY =>
      if nonempty (concerns strategy)
      then gret ("Given the condition factors, my budget allows for ₹"
                 +:+ format_commas offer_amount +:+ ".")
      else gret ("Based on my assessment, ₹"
                 +:+ format_commas offer_amount +:+ " would be fair.")
  | _ =>
      let! template := choice (tactic_templates primary_tactic) in
      glift (format_template template offer_amount)
  end.

Definition _generate_enhanced_tactical_response
    (decision : Decision) (tactics : list NegotiationTactic)
    (sa : SellerAnalysis) (sd : EngineSession) : G string :=
  let strategy := sd_strategy sd in
  let tp := talking_points strategy in
  let offer_amount := default 0 (offer_amount decision) in
  let part1 :=
    if contains_offer sa then "Thank you for your response."
    else "I appreciate you considering my interest." in
  let! part2 :=
    if nonempty (price_arguments tp) && existsb (tactic_eqb SOCIAL_PROOF) tactics
    then let! a := choice (price_arguments tp) in gret [a]
    else gret [] in
  let! part3 :=
    if nonempty (condition_points tp) && nonempty (concerns strategy)
    then let! a := choice (condition_points tp) in gret [a]
    else gret [] in
  let! offer_statement :=
    _format_offer_with_tactic offer_amount tactics strategy in
  let! part5 :=
    if String.eqb (action decision) "final_offer"
    then if nonempty (closing_arguments tp)
         then let! a := choice (closing_arguments tp) in gret [a]
         else gret ["This is my best offer. Please let me know if this works for you."]
    else gret [] in
  gret (Str.join " " ([part1] ++ part2 ++ part3 ++ [offer_statement] ++ part5)).

(** [session_data.get('product', {}).get('category', 'item')] *)
Definition product_category (sd : EngineSession) : Res string :=
  match sd_product sd with
  | NoProduct => Ok "item"
  | ProductDict c => Ok (default "item" c)
  | ProductObject _ =>
      Raise (AttributeError "'Product' object has no attribute 'get'")
  end.

Definition _generate_enhanced_exploratory_response
    (sa : SellerAnalysis) (sd : EngineSession) : G string :=
  let tp := talking_points (sd_strategy sd) in
  let! main_message :=
    if nonempty (opening_statements tp)
    then choice (opening_statements tp)
    else glift (let* c := product_category sd in
                Ok ("I'm interested in your " +:+ c +:+ ".")) in
  if nonempty (market_comparisons tp)
  then let! market_info := choice (market_comparisons tp) in
       gret (main_message +:+ " " +:+ market_info
             +:+ " What are your thoughts on the pricing?")
  else gret (main_message
             +:+ " Could you tell me more about its condition and if there's any flexibility in the price?").

(** The class body defines [_generate_acceptance_response] twice; the
    second definition, with two parameters after [self], is the one bound.
    [generate_strategic_response] calls it with three arguments. *)
Definition acceptance_arity_error : exn :=
  TypeError
    "ResponseGenerator._generate_acceptance_response() takes 3 positional arguments but 4 were given".

Definition _generate_acceptance_response_call : G string :=
  glift (Raise acceptance_arity_error).

Definition _generate_walkaway_response (sd : EngineSession) : string :=
  "I understand your position, but ₹"
  +:+ format_commas (maximum_budget (sd_strategy sd))
  +:+ " is really the maximum I can go. If you change your mind, please let me know. Otherwise, I'll have to consider other options. Thank you for your time.".

Definition generate_strategic_response
    (decision : Decision) (tactics : list NegotiationTactic)
    (sa : SellerAnalysis) (sd : EngineSession) (product : Product)
    : G string :=
  let a := action decision in
  if String.eqb a "accept" then _generate_acceptance_response_call
  else if String.eqb a "walk_away" then gret (_generate_walkaway_response sd)
  else if String.eqb a "counter_offer" || String.eqb a "final_offer"
  then _generate_enhanced_tactical_response decision tactics sa sd
  else _generate_enhanced_exploratory_response sa sd.

(* ===================================================================== *)
(** ** AdvancedNegotiationEngine.process_negotiation_turn *)

Record TurnResult : Type := mkTurnResult {
  tr_response : string;
  tr_decision : Decision;
  tr_tactics_used : list NegotiationTactic;
  tr_seller_analysis : SellerAnalysis;
  tr_phase : string;
  tr_confidence : float
}.

(** Steps 1 to 3 of the turn: analysis, phase, decision. *)
Definition analyze_and_decide
    (sd : EngineSession) (seller_message : string)
    (chat_history : list ChatMessage) (product : Product)
    : Res (SellerAnalysis * NegotiationPhase * Decision) :=
  let* sa := analyze_seller_message seller_message chat_history sd in
  let current_phase := _determine_negotiation_phase chat_history sa in
  let* decision := make_decision sd sa current_phase product in
  Ok (sa, current_phase, decision).

(** The body of the [try]. *)
Definition turn_body
    (sd : EngineSession) (seller_message : string)
    (chat_history : list ChatMessage) (product : Product) : G TurnResult :=
  let! r := glift (analyze_and_decide sd seller_message chat_history product) in
  let '(sa, current_phase, decision) := r in
  let tactics := select_tactics decision sa current_phase sd in
  let! response :=
    generate_strategic_response decision tactics sa sd product in
  gret (mkTurnResult response decision tactics sa (phase_value current_phase)
          (default F64.c0_7 (confidence decision))).

(** The result of the [except] branch. *)
Definition fallback_turn : TurnResult :=
  mkTurnResult
    "I understand. Let me think about your offer and get back to you."
    (mkDecision "pause" None None (Some F64.c0_5) None)
    [] empty_analysis "exploration" F64.c0_5.

Definition process_negotiation_turn
    (sd : EngineSession) (seller_message : string)
    (chat_history : list ChatMessage) (product : Product) : G TurnResult :=
  fun g =>
    match turn_body sd seller_message chat_history product g with
    | (Ok r, g') => (Ok r, g')
    | (Raise e, g') => (Ok fallback_turn, g')
    end.

(* ===================================================================== *)
(** ** Session manager: data *)

Inductive SessionStatus : Type :=
  | INITIALIZING | ACTIVE | PAUSED | COMPLETED | FAILED | CANCELLED
  | HUMAN_HANDOFF.

Definition status_value (s : SessionStatus) : string :=
  match s with
  | INITIALIZING => "initializing"
  | ACTIVE => "active"
  | PAUSED => "paused"
  | COMPLETED => "completed"
  | FAILED => "failed"
  | CANCELLED => "cancelled"
  | HUMAN_HANDOFF => "human_handoff"
  end.

Inductive SessionOutcome : Type :=
  | SUCCESS | FAILED_PRICE | FAILED_TERMS | SELLER_UNRESPONSIVE
  | USER_CANCELLED | TECHNICAL_ERROR.

Definition outcome_value (o : SessionOutcome) : string :=
  match o with
  | SUCCESS => "success"
  | FAILED_PRICE => "failed_price"
  | FAILED_TERMS => "failed_terms"
  | SELLER_UNRESPONSIVE => "seller_unresponsive"
  | USER_CANCELLED => "user_cancelled"
  | TECHNICAL_ERROR => "technical_error"
  end.

Definition outcome_eqb (a b : SessionOutcome) : bool :=
  String.eqb (outcome_value a) (outcome_value b).

Inductive InterventionTrigger : Type :=
  | TRIGGER_DEADLOCK | COMPLEX_TERMS | SELLER_REQUEST | TECHNICAL_ISSUE
  | USER_REQUEST.

Definition trigger_value (t : InterventionTrigger) : string :=
  match t with
  | TRIGGER_DEADLOCK => "deadlock"
  | COMPLEX_TERMS => "complex_terms"
  | SELLER_REQUEST => "seller_request"
  | TECHNICAL_ISSUE => "technical_issue"
  | USER_REQUEST => "user_request"
  end.

Definition tactic_value (t : NegotiationTactic) : string :=
  match t with
  | ANCHORING => "anchoring"
  | SCARCITY => "scarcity"
  | BUNDLING => "bundling"
  | RECIPROCITY => "reciprocity"
  | AUTHORITY => "authority"
  | SOCIAL_PROOF => "social_proof"
  | COMMITMENT => "commitment"
  | URGENCY => "urgency"
  end.

Record NegotiationParams : Type := mkParams {
  target_price : Z;
  max_budget : Z;
  approach : string;
  timeline : string
}.

(** A point in time is an integer count of clock units; the conversions of
    time differences to float seconds are not modelled. *)
Record NegotiationSession : Type := mkSession {
  session_id : string;
  user_params : NegotiationParams;
  status : string;
  created_at : Z;
  messages : list ChatMessage;
  outcome : option string;
  final_price : option Z;
  ended_at : option Z
}.

Record PerformanceMetrics : Type := mkMetrics {
  messages_sent : Z;
  negotiation_effectiveness : float;
  time_to_first_response : option Z;
  confidence_history : option (list float)
}.

Record InterventionRecord : Type := mkIntervention {
  ir_trigger : string;
  ir_timestamp : Z;
  ir_message_count : Z
}.

(** The value under ['phase']: the enum member stored at creation, or the
    string stored after a turn. *)
Inductive PhaseEntry : Type :=
  | PhaseEnum (p : NegotiationPhase)
  | PhaseStr (s : string).

(** The dictionary kept in [active_sessions]. *)
Record SessionData : Type := mkSessionData {
  session : NegotiationSession;
  product : Product;
  strategy : Strategy;
  phase_entry : PhaseEntry;
  intervention_triggers : list InterventionRecord;
  performance_metrics : PerformanceMetrics;
  start_time : option Z
}.

(** What the engine sees of that dictionary: it has no ['target_price'] and
    no ['max_budget'] key, and its ['product'] is a [Product] object. *)
Definition engine_view (sd : SessionData) : EngineSession :=
  mkEngineSession None None (strategy sd) (ProductObject (product sd)).

(** The dictionary a turn hands back to the manager. *)
Record NegotiationResult : Type := mkNegotiationResult {
  nr_response : string;
  nr_decision : option Decision;
  nr_tactics_used : list string;
  nr_phase : option PhaseEntry;
  nr_confidence : option float;
  nr_seller_analysis : SellerAnalysis
}.

Definition of_turn (r : TurnResult) : NegotiationResult :=
  mkNegotiationResult (tr_response r) (Some (tr_decision r))
    (map tactic_value (tr_tactics_used r)) (Some (PhaseStr (tr_phase r)))
    (Some (tr_confidence r)) (tr_seller_analysis r).

(** The reply of the optional enhanced AI service, an external
    collaborator: the entries that [process_seller_response] reads. *)
Record AIResult : Type := mkAIResult {
  ai_response : string;
  ai_confidence : float;
  ai_tactics_used : list string;
  ai_action_type : option string;
  ai_reasoning : option string;
  ai_seller_behavior : SellerAnalysis
}.

Definition AIService : Type :=
  SessionData -> string -> list ChatMessage -> Product -> Res AIResult.

Record LearningRecord : Type := mkLearningRecord {
  lr_outcome : string;
  lr_category : string;
  lr_approach : string;
  lr_price_gap : Z
}.

(** The manager and what it reaches: the registry, the database (the last
    saved copy of each session), the learning log, the optional AI
    service, the clock, the id generator and the random generator.
    [decisions_computed] is a ghost counter of the calls that compute a
    decision (engine turn or AI service). *)
Record Manager : Type := mkManager {
  active_sessions : gmap string SessionData;
  db_sessions : gmap string NegotiationSession;
  learning_data : list LearningRecord;
  enhanced_ai_service : option AIService;
  clock : nat -> Z;
  clock_reads : nat;
  uuid : nat -> string;
  uuid_reads : nat;
  rng : Rng;
  decisions_computed : nat
}.

Definition M (A : Type) : Type := Manager -> Res A * Manager.

Definition mret {A} (a : A) : M A := fun mg => (Ok a, mg).

Definition mbind' {A B} (c : M A) (k : A -> M B) : M B :=
  fun mg =>
    match c mg with
    | (Ok a, mg') => k a mg'
    | (Raise e, mg') => (Raise e, mg')
    end.

Definition mraise {A} (e : exn) : M A := fun mg => (Raise e, mg).

Definition mlift {A} (r : Res A) : M A := fun mg => (r, mg).

Notation "'let+' x ':=' c 'in' k" := (mbind' c (fun x => k))
  (at level 10, x name, c at level 100, k at level 200).

Notation "c ';+' k" := (mbind' c (fun _ => k))
  (at level 100, k at level 200, right associativity).

Definition set_active (f : gmap string SessionData -> gmap string SessionData)
    (mg : Manager) : Manager :=
  mkManager (f (active_sessions mg)) (db_sessions mg) (learning_data mg)
    (enhanced_ai_service mg) (clock mg) (clock_reads mg) (uuid mg)
    (uuid_reads mg) (rng mg) (decisions_computed mg).

(** [datetime.now()] *)
Definition now : M Z :=
  fun mg =>
    (Ok (clock mg (clock_reads mg)),
     mkManager (active_sessions mg) (db_sessions mg) (learning_data mg)
       (enhanced_ai_service mg) (clock mg) (S (clock_reads mg)) (uuid mg)
       (uuid_reads mg) (rng mg) (decisions_computed mg)).

(** [str(uuid.uuid4())] *)
Definition uuid4 : M string :=
  fun mg =>
    (Ok (uuid mg (uuid_reads mg)),
     mkManager (active_sessions mg) (db_sessions mg) (learning_data mg)
       (enhanced_ai_service mg) (clock mg) (clock_reads mg) (uuid mg)
       (S (uuid_reads mg)) (rng mg) (decisions_computed mg)).

(** [self.active_sessions[session_id]] *)
Definition get_session_data (sid : string) : M SessionData :=
  fun mg =>
    match active_sessions mg !! sid with
    | Some sd => (Ok sd, mg)
    | None => (Raise (KeyError (py_repr sid)), mg)
    end.

(** Mutation of the dictionary registered under [sid]. *)
Definition update_session_data (sid : string)
    (f : SessionData -> SessionData) : M unit :=
  fun mg => (Ok tt, set_active (fun a => alter f sid a) mg).

(** [await self.db.save_session(session)]: the database keeps a copy of
    the session as it is now. *)
Definition save_session (sid : string) : M unit :=
  fun mg =>
    match active_sessions mg !! sid with
    | Some sd =>
        (Ok tt,
         mkManager (active_sessions mg)
           (<[session_id (session sd) := session sd]> (db_sessions mg))
           (learning_data mg) (enhanced_ai_service mg) (clock mg)
           (clock_reads mg) (uuid mg) (uuid_reads mg) (rng mg)
           (decisions_computed mg))
    | None => (Raise (KeyError (py_repr sid)), mg)
    end.

Definition with_session (f : NegotiationSession -> NegotiationSession)
    (sd : SessionData) : SessionData :=
  mkSessionData (f (session sd)) (product sd) (strategy sd) (phase_entry sd)
    (intervention_triggers sd) (performance_metrics sd) (start_time sd).

Definition append_message (m : ChatMessage) (s : NegotiationSession)
    : NegotiationSession :=
  mkSession (session_id s) (user_params s) (status s) (created_at s)
    (messages s ++ [m]) (outcome s) (final_price s) (ended_at s).

Definition set_status (st : string) (s : NegotiationSession)
    : NegotiationSession :=
  mkSession (session_id s) (user_params s) st (created_at s)
    (messages s) (outcome s) (final_price s) (ended_at s).

Definition set_outcome (o : string) (s : NegotiationSession)
    : NegotiationSession :=
  mkSession (session_id s) (user_params s) (status s) (created_at s)
    (messages s) (Some o) (final_price s) (ended_at s).

Definition set_ended_at (t : Z) (s : NegotiationSession)
    : NegotiationSession :=
  mkSession (session_id s) (user_params s) (status s) (created_at s)
    (messages s) (outcome s) (final_price s) (Some t).

Definition set_final_price (p : option Z) (s : NegotiationSession)
    : NegotiationSession :=
  mkSession (session_id s) (user_params s) (status s) (created_at s)
    (messages s) (outcome s) p (ended_at s).

Definition with_metrics (f : PerformanceMetrics -> PerformanceMetrics)
    (sd : SessionData) : SessionData :=
  mkSessionData (session sd) (product sd) (strategy sd) (phase_entry sd)
    (intervention_triggers sd) (f (performance_metrics sd)) (start_time sd).

(* ===================================================================== *)
(** ** Session manager: operations *)

Definition direct_contact_phrases : list string :=
  ["speak to you directly"; "call you"; "talk to owner"; "real person"].

Definition complex_terms_phrases : list string :=
  ["warranty"; "return policy"; "legal"; "contract"; "documentation"].

Definition technical_phrases : list string :=
  ["not working"; "error"; "problem with"; "technical issue"].

Definition _extract_recent_prices (msgs : list ChatMessage) : list Z :=
  flat_map (fun msg => findall_prices (content msg)) msgs.

(** [recent_prices and len(set(recent_prices)) == 1] *)
Definition one_distinct (l : list Z) : bool :=
  match l with
  | [] => false
  | x :: r => forallb (Z.eqb x) r
  end.

Definition _check_intervention_triggers
    (sd : SessionData) (seller_message : string)
    : option InterventionTrigger :=
  let message_lower := Str.lower seller_message in
  let s := session sd in
  if Str.contains_any direct_contact_phrases message_lower
  then Some SELLER_REQUEST
  else if Str.contains_any complex_terms_phrases message_lower
  then Some COMPLEX_TERMS
  else if (12 <? Z.of_nat (length (messages s)))
          && one_distinct (_extract_recent_prices (last_n 6 (messages s)))
  then Some TRIGGER_DEADLOCK
  else if Str.contains_any technical_phrases message_lower
  then Some TECHNICAL_ISSUE
  else None.

Definition decision_action (nr : NegotiationResult) : option string :=
  match nr_decision nr with
  | Some d => Some (action d)
  | None => None
  end.

Definition decision_confidence (nr : NegotiationResult) : float :=
  match nr_decision nr with
  | Some d => default F64.c0_0 (confidence d)
  | None => F64.c0_0
  end.

Definition action_is (a : option string) (s : string) : bool :=
  match a with
  | Some x => String.eqb x s
  | None => false
  end.

Definition _check_completion_conditions
    (sd : SessionData) (nr : NegotiationResult) : option SessionOutcome :=
  let a := decision_action nr in
  if action_is a "accept" then Some SUCCESS
  else if action_is a "walk_away" then Some FAILED_PRICE
  else if action_is a "final_offer"
          && F64.ltb (decision_confidence nr) F64.c0_3
  then Some FAILED_PRICE
  else if 20 <? Z.of_nat (length (messages (session sd)))
  then Some SELLER_UNRESPONSIVE
  else None.

Definition accept_words : list string := ["accept"; "deal"; "agree"].

(** The loop over [reversed(messages)], written on the reversed list. *)
Fixpoint final_price_scan (rev_messages : list ChatMessage) : option Z :=
  match rev_messages with
  | [] => None
  | msg :: r =>
      if String.eqb (sender msg) "ai"
         && Str.contains_any accept_words (Str.lower (content msg))
      then match last (_extract_recent_prices [msg]) with
           | Some p => Some p
           | None => final_price_scan r
           end
      else final_price_scan r
  end.

Definition _extract_final_agreed_price (msgs : list ChatMessage) : option Z :=
  final_price_scan (rev msgs).

(** The entries of the final metrics that do not come from clock
    arithmetic. *)
Record FinalMetrics : Type := mkFinalMetrics {
  fm_message_count : Z;
  fm_ai_message_count : Z;
  fm_seller_message_count : Z;
  fm_price_savings : option Z;
  fm_savings_percentage : option float;
  fm_target_achievement_percentage : option float;
  fm_negotiation_effectiveness : float
}.

Definition count_sender (who : string) (msgs : list ChatMessage) : Z :=
  Z.of_nat (length (filter (fun m => String.eqb (sender m) who) msgs)).

Definition truthy_price (p : option Z) : option Z :=
  match p with
  | Some v => if v =? 0 then None else Some v
  | None => None
  end.

Definition calculate_final_metrics (sd : SessionData) : Res FinalMetrics :=
  let s := session sd in
  let p := product sd in
  let base := mkFinalMetrics
    (Z.of_nat (length (messages s)))
    (count_sender "ai" (messages s))
    (count_sender "seller" (messages s))
    None None None
    (negotiation_effectiveness (performance_metrics sd)) in
  match truthy_price (final_price s) with
  | Some fp =>
      let savings := price p - fp in
      let* q := F64.true_div savings (price p) in
      let savings_percentage := F64.mul q (F64.of_Z 100) in
      let* q' := F64.true_div (price p - fp)
                   (price p - target_price (user_params s)) in
      let target_achievement := F64.mul q' (F64.of_Z 100) in
      let lo := if F64.gtb target_achievement (F64.of_Z 0)
                then target_achievement else F64.of_Z 0 in
      let capped := if F64.ltb lo (F64.of_Z 100) then lo else F64.of_Z 100 in
      Ok (mkFinalMetrics
            (fm_message_count base) (fm_ai_message_count base)
            (fm_seller_message_count base)
            (Some savings) (Some savings_percentage) (Some capped)
            (fm_negotiation_effectiveness base))
  | None => Ok base
  end.

(** [LearningEngine.update_from_session]: the record is appended to the
    log, which keeps its last 1000 entries; the method swallows its own
    exceptions. *)
Definition update_from_session (sd : SessionData) (o : SessionOutcome)
    : M unit :=
  fun mg =>
    let r := mkLearningRecord (outcome_value o) (category (product sd))
               (approach (user_params (session sd)))
               (price (product sd) - target_price (user_params (session sd))) in
    (Ok tt,
     mkManager (active_sessions mg) (db_sessions mg)
       (last_n 1000 (learning_data mg ++ [r]))
       (enhanced_ai_service mg) (clock mg) (clock_reads mg) (uuid mg)
       (uuid_reads mg) (rng mg) (decisions_computed mg)).

Record SessionSummary : Type := mkSummary {
  sum_session_id : string;
  sum_product_title : string;
  sum_original_price : Z;
  sum_target_price : Z;
  sum_final_price : option Z;
  sum_message_count : Z;
  sum_outcome : option string
}.

Definition _generate_session_summary (sd : SessionData) : SessionSummary :=
  let s := session sd in
  mkSummary (session_id s) (title (product sd)) (price (product sd))
    (target_price (user_params s)) (final_price s)
    (Z.of_nat (length (messages s))) (outcome s).

Record CompletionResult : Type := mkCompletion {
  cr_outcome : string;
  cr_final_price : option Z;
  cr_metrics : FinalMetrics;
  cr_session_summary : SessionSummary
}.

Definition _complete_session (sid : string) (o : SessionOutcome)
    : M CompletionResult :=
  let+ _ := get_session_data sid in
  let+ _ := update_session_data sid
              (with_session (set_status (status_value COMPLETED))) in
  let+ _ := update_session_data sid
              (with_session (set_outcome (outcome_value o))) in
  let+ t := now in
  let+ _ := update_session_data sid (with_session (set_ended_at t)) in
  let+ sd := get_session_data sid in
  let+ final_metrics := mlift (calculate_final_metrics sd) in
  let+ _ :=
    if outcome_eqb o SUCCESS
    then update_session_data sid
           (with_session
              (set_final_price
                 (_extract_final_agreed_price (messages (session sd)))))
    else mret tt in
  let+ sd := get_session_data sid in
  let+ _ := update_from_session sd o in
  let+ _ := save_session sid in
  let+ _ := (fun mg => (Ok tt, set_active (delete sid) mg)) in
  mret (mkCompletion (outcome_value o) (final_price (session sd))
          final_metrics (_generate_session_summary sd)).

Definition handoff_message (t : InterventionTrigger) : string :=
  match t with
  | SELLER_REQUEST =>
      "I understand you'd like to speak directly. Let me connect you with my colleague who can assist you better."
  | COMPLEX_TERMS =>
      "These are important details that need careful consideration. Let me have someone with more expertise help us."
  | TRIGGER_DEADLOCK =>
      "Let me bring in a colleague who might have a fresh perspective on this negotiation."
  | TECHNICAL_ISSUE =>
      "I want to make sure we address your concerns properly. Let me connect you with someone who can help."
  | USER_REQUEST =>
      "Let me connect you with a human colleague for better assistance."
  end.

Record HandoffResult : Type := mkHandoff {
  hr_trigger : string;
  hr_handoff_message : string;
  hr_session_status : string
}.

Definition add_intervention (r : InterventionRecord) (sd : SessionData)
    : SessionData :=
  mkSessionData (session sd) (product sd) (strategy sd) (phase_entry sd)
    (intervention_triggers sd ++ [r]) (performance_metrics sd)
    (start_time sd).

Definition _trigger_human_handoff (sid : string) (t : InterventionTrigger)
    : M HandoffResult :=
  let+ _ := get_session_data sid in
  let+ _ := update_session_data sid
              (with_session (set_status (status_value HUMAN_HANDOFF))) in
  let+ ts := now in
  let+ sd := get_session_data sid in
  let+ _ := update_session_data sid
              (add_intervention
                 (mkIntervention (trigger_value t) ts
                    (Z.of_nat (length (messages (session sd)))))) in
  let text := handoff_message t in
  let+ id := uuid4 in
  let+ ts' := now in
  let+ _ := update_session_data sid
              (with_session
                 (append_message (mkChatMessage id sid "ai" text ts' "handoff"))) in
  let+ _ := save_session sid in
  let+ sd := get_session_data sid in
  mret (mkHandoff (trigger_value t) text (status (session sd))).

Definition set_effectiveness (x : float) (m : PerformanceMetrics)
    : PerformanceMetrics :=
  mkMetrics (messages_sent m) x (time_to_first_response m)
    (confidence_history m).

Definition push_confidence (c : float) (m : PerformanceMetrics)
    : PerformanceMetrics :=
  mkMetrics (messages_sent m) (negotiation_effectiveness m)
    (time_to_first_response m)
    (Some (default [] (confidence_history m) ++ [c])).

Definition bump_messages_sent (m : PerformanceMetrics) : PerformanceMetrics :=
  mkMetrics (messages_sent m + 1) (negotiation_effectiveness m)
    (time_to_first_response m) (confidence_history m).

Definition set_first_response (d : Z) (m : PerformanceMetrics)
    : PerformanceMetrics :=
  mkMetrics (messages_sent m) (negotiation_effectiveness m) (Some d)
    (confidence_history m).

Definition set_phase (p : PhaseEntry) (sd : SessionData) : SessionData :=
  mkSessionData (session sd) (product sd) (strategy sd) p
    (intervention_triggers sd) (performance_metrics sd) (start_time sd).

(** [min(1.0, max(0.0, progress))] *)
Definition unit_interval (x : float) : float :=
  let y := if F64.gtb x F64.c0_0 then x else F64.c0_0 in
  if F64.ltb y F64.c1_0 then y else F64.c1_0.

Definition _update_performance_metrics (sid : string)
    (nr : NegotiationResult) : M unit :=
  let+ sd := get_session_data sid in
  let+ _ :=
    match nr_decision nr with
    | Some d =>
        match offer d with
        | Some current_offer =>
            let target := target_price (user_params (session sd)) in
            let original_price := price (product sd) in
            let total_gap := original_price - target in
            let current_gap := original_price - current_offer in
            if 0 <? total_gap
            then let+ progress := mlift (F64.true_div current_gap total_gap) in
                 update_session_data sid
                   (with_metrics (set_effectiveness (unit_interval progress)))
            else mret tt
        | None => mret tt
        end
    | None => mret tt
    end in
  let c := default F64.c0_5 (nr_confidence nr) in
  update_session_data sid (with_metrics (push_confidence c)).

Definition _handle_session_error (sid : string) (error_message : string)
    : M unit :=
  fun mg =>
    match active_sessions mg !! sid with
    | Some _ =>
        (let+ _ := update_session_data sid
                     (with_session (set_status (status_value FAILED))) in
         let+ _ := update_session_data sid
                     (with_session
                        (set_outcome (outcome_value TECHNICAL_ERROR))) in
         let+ t := now in
         let+ _ := update_session_data sid (with_session (set_ended_at t)) in
         let+ id := uuid4 in
         let+ ts := now in
         let+ _ := update_session_data sid
                     (with_session
                        (append_message
                           (mkChatMessage id sid "system"
                              ("Session error: " +:+ error_message) ts "error"))) in
         save_session sid) mg
    | None => (Ok tt, mg)
    end.

(** The two ways a turn gets its result. *)
Definition engine_turn (sd : SessionData) (seller_message : string)
    : M NegotiationResult :=
  fun mg =>
    let '(r, g') :=
      process_negotiation_turn (engine_view sd) seller_message
        (messages (session sd)) (product sd) (rng mg) in
    let mg' :=
      mkManager (active_sessions mg) (db_sessions mg) (learning_data mg)
        (enhanced_ai_service mg) (clock mg) (clock_reads mg) (uuid mg)
        (uuid_reads mg) g' (S (decisions_computed mg)) in
    match r with
    | Ok t => (Ok (of_turn t), mg')
    | Raise e => (Raise e, mg')
    end.

Definition ai_turn (svc : AIService) (sd : SessionData)
    (seller_message : string) : M NegotiationResult :=
  fun mg =>
    let mg' :=
      mkManager (active_sessions mg) (db_sessions mg) (learning_data mg)
        (enhanced_ai_service mg) (clock mg) (clock_reads mg) (uuid mg)
        (uuid_reads mg) (rng mg) (S (decisions_computed mg)) in
    match svc sd seller_message (messages (session sd)) (product sd) with
    | Ok a =>
        (Ok (mkNegotiationResult (ai_response a)
               (Some (mkDecision (default "respond" (ai_action_type a))
                        None None None (Some (default "" (ai_reasoning a)))))
               (ai_tactics_used a) (Some (phase_entry sd))
               (Some (ai_confidence a)) (ai_seller_behavior a)),
         mg')
    | Raise e => (Raise e, mg')
    end.

Record Reply : Type := mkReply {
  rp_ai_response : string;
  rp_decision : option Decision;
  rp_tactics_used : list string;
  rp_phase : option PhaseEntry;
  rp_confidence : option float;
  rp_seller_analysis : SellerAnalysis;
  rp_session_status : string
}.

Inductive TurnOutput : Type :=
  | HandoffTriggered (r : HandoffResult)
  | SessionCompleted (r : CompletionResult)
  | Replied (r : Reply).

(** The body of the [try] of [process_seller_response]. *)
Definition seller_response_body (sid : string) (seller_message : string)
    : M TurnOutput :=
  fun mg =>
    match active_sessions mg !! sid with
    | None => (Raise (ValueError ("Session " +:+ sid +:+ " not found")), mg)
    | Some sd0 =>
      (let+ _ :=
         match time_to_first_response (performance_metrics sd0) with
         | None =>
             let+ t := now in
             match start_time sd0 with
             | Some st =>
                 update_session_data sid
                   (with_metrics (set_first_response (t - st)))
             | None => mraise (KeyError (py_repr "start_time"))
             end
         | Some _ => mret tt
         end in
       let+ id := uuid4 in
       let+ ts := now in
       let+ _ := update_session_data sid
                   (with_session
                      (append_message
                         (mkChatMessage id sid "seller" seller_message ts
                            "human"))) in
       let+ sd := get_session_data sid in
       match _check_intervention_triggers sd seller_message with
       | Some t =>
           let+ r := _trigger_human_handoff sid t in
           mret (HandoffTriggered r)
       | None =>
           let+ nr :=
             (fun mg1 =>
                match enhanced_ai_service mg1 with
                | Some svc => ai_turn svc sd seller_message mg1
                | None => engine_turn sd seller_message mg1
                end) in
           let+ id' := uuid4 in
           let+ ts' := now in
           let+ _ := update_session_data sid
                       (with_session
                          (append_message
                             (mkChatMessage id' sid "ai" (nr_response nr) ts'
                                "ai"))) in
           let+ _ := update_session_data sid
                       (with_metrics bump_messages_sent) in
           let+ _ := update_session_data sid
                       (set_phase
                          (default (PhaseStr "exploration") (nr_phase nr))) in
           let+ _ := _update_performance_metrics sid nr in
           let+ sd' := get_session_data sid in
           match _check_completion_conditions sd' nr with
           | Some o =>
               let+ r := _complete_session sid o in
               mret (SessionCompleted r)
           | None =>
               let+ _ := save_session sid in
               mret (Replied
                       (mkReply (nr_response nr) (nr_decision nr)
                          (nr_tactics_used nr) (nr_phase nr)
                          (nr_confidence nr) (nr_seller_analysis nr)
                          (status (session sd'))))
           end
       end) mg
    end.

Definition process_seller_response (sid : string) (seller_message : string)
    : M TurnOutput :=
  fun mg =>
    match seller_response_body sid seller_message mg with
    | (Ok r, mg') => (Ok r, mg')
    | (Raise e, mg') =>
        match _handle_session_error sid (exn_text e) mg' with
        | (Ok _, mg'') => (Raise e, mg'')
        | (Raise e', mg'') => (Raise e', mg'')
        end
    end.

(* ===================================================================== *)
(** ** Definitions used in the statements *)

Definition accept_decision : Decision :=
  mkDecision "accept" None None (Some F64.c0_9)
    (Some "Price within target range").

Definition analysis_with (flex : option float) (p : option Z)
    : SellerAnalysis :=
  mkSellerAnalysis None flex None None
    (Some (mkPriceAnalysis p [] "stable" 0)) None None None None None false.

Definition demo_product : Product := mkProduct "p1" "Phone" 12000 "mobiles".

Definition demo_session (t b : Z) : EngineSession :=
  mkEngineSession (Some t) (Some b) empty_strategy NoProduct.

(** What one rounding to nearest-even does to the exact value [m * 2^e]:
    nothing when [m] fits the 53-bit mantissa, else the mantissa is cut to
    53 bits and possibly incremented. *)
Definition rounded (s : bool) (m : positive) (e : Z) (f : spec_float) : Prop :=
  let d := Zpos (digits2_pos m) in
  if d <=? 53
  then f = (if e <=? 971 then S754_finite s m e else S754_infinity s)
  else exists (m' : positive) (k : Z),
      (k = 0 \/ k = 1)
      /\ Zpos m / 2 ^ (d - 53) <= Zpos m' * 2 ^ k <= Zpos m / 2 ^ (d - 53) + 1
      /\ 2 ^ 52 <= Zpos m' < 2 ^ 53
      /\ f = (if e + (d - 53) + k <=? 971
              then S754_finite s m' (e + (d - 53) + k)
              else S754_infinity s).


(** Floats whose sign bit, if they have a magnitude, is clear. *)
Definition nonneg (f : float) : Prop :=
  match f with
  | S754_finite s _ _ | S754_infinity s => s = false
  | _ => True
  end.


Definition final_offer_decision (o : Z) : Decision :=
  mkDecision "final_offer" (Some o) None (Some F64.c0_4)
    (Some "Last attempt before walking away").

Definition walk_away_decision : Decision :=
  mkDecision "walk_away" None None (Some F64.c0_8)
    (Some "Price too high, seller inflexible").

(** Python's [round(x)] on a float: the nearest integer, ties to even. *)
Definition py_round (f : float) : Res Z :=
  match f with
  | S754_zero _ => Ok 0
  | S754_finite s m e =>
      let a :=
        if 0 <=? e then Zpos m * 2 ^ e
        else
          let k := 2 ^ (- e) in
          let q := Zpos m / k in
          let r := Zpos m mod k in
          if 2 * r <? k then q
          else if k <? 2 * r then q + 1
          else if Z.even q then q else q + 1 in
      Ok (if s then - a else a)
  | S754_infinity _ =>
      Raise (OverflowError "cannot convert float infinity to integer")
  | S754_nan => Raise (ValueError "cannot convert float NaN to integer")
  end.

(** The final offer in the words of the specification:
    [min(max_budget, round(target_price * 1.1))]. *)
Definition spec_final_offer (target_price max_budget : Z) : Res Z :=
  let* x := F64.int_mul target_price F64.c1_1 in
  let* y := py_round x in
  Ok (Z.min max_budget y).

(** A keyword without a space character. *)
Fixpoint no_space (k : string) : bool :=
  match k with
  | EmptyString => true
  | String c r => negb (Ascii.eqb c " "%char) && no_space r
  end.

Definition plain_keyword (k : string) : bool :=
  no_space k && negb (String.eqb k "").

(** A closing keyword occurs in one of the last three messages. *)
Definition closing_signal (chat_history : list ChatMessage) : bool :=
  existsb (fun msg => Str.contains_any closing_keywords
                        (Str.lower (content msg)))
          (last_n 3 chat_history).

(** The rules of the phase machine, read message by message. *)
Definition phase_rules (chat_history : list ChatMessage)
    (sa : SellerAnalysis) : NegotiationPhase :=
  let n := Z.of_nat (length chat_history) in
  if n <=? 2 then OPENING
  else if closing_signal chat_history then CLOSING
  else if F64.ltb (get_flexibility sa) F64.c0_2 && (6 <? n) then DEADLOCK
  else if price_mentioned chat_history && (3 <? n) then BARGAINING
  else EXPLORATION.

(** The rules in the words of the specification: OPENING needs at most two
    messages and no closing or price keyword, and the closing keywords are
    "final" and "last". *)
Definition spec_closing_signal (chat_history : list ChatMessage) : bool :=
  existsb (fun msg => Str.contains_any ["final"; "last"]
                        (Str.lower (content msg)))
          (last_n 3 chat_history).

Definition spec_phase (chat_history : list ChatMessage)
    (sa : SellerAnalysis) : NegotiationPhase :=
  let n := Z.of_nat (length chat_history) in
  if (n <=? 2) && negb (spec_closing_signal chat_history)
     && negb (price_mentioned chat_history)
  then OPENING
  else if spec_closing_signal chat_history then CLOSING
  else if F64.ltb (get_flexibility sa) F64.c0_2 && (6 <? n) then DEADLOCK
  else if price_mentioned chat_history && (3 <? n) then BARGAINING
  else EXPLORATION.

Definition seller_says (text : string) : ChatMessage :=
  mkChatMessage "m" "s1" "seller" text 0 "human".

Definition agent_says (text : string) : ChatMessage :=
  mkChatMessage "m" "s1" "ai" text 0 "ai".

(** The actions of the specification's decision vocabulary. *)
Definition decision_vocabulary : list string :=
  ["accept"; "counter_offer"; "final_offer"; "walk_away"; "continue";
   "accept_with_conditions"].

(** The result a run hands over, whatever the tape. *)
Definition result_of (x : Res TurnResult * Rng) : TurnResult :=
  match fst x with
  | Ok r => r
  | Raise _ => fallback_turn
  end.

(** A history that ends in a closing keyword, and a flexible seller at 9000
    against a target of 8000 and a budget of 10000. *)
Definition closing_history : list ChatMessage :=
  [agent_says "hello"; seller_says "hi there";
   agent_says "can we make a deal"].

Definition closing_run (g : Rng) : Res TurnResult * Rng :=
  turn_body (demo_session 8000 10000) "maybe ₹9000" closing_history
    demo_product g.

(** A decision that the completion scan resolves by itself. *)
Definition resolved (nr : NegotiationResult) : bool :=
  action_is (decision_action nr) "accept"
  || action_is (decision_action nr) "walk_away"
  || (action_is (decision_action nr) "final_offer"
      && F64.ltb (decision_confidence nr) F64.c0_3).

(** The session as [_complete_session] leaves it. *)
Definition closed_session (o : SessionOutcome) (t : Z)
    (s : NegotiationSession) : NegotiationSession :=
  set_ended_at t
    (set_outcome (outcome_value o) (set_status (status_value COMPLETED) s)).

Definition priced_session (o : SessionOutcome) (s : NegotiationSession)
    : NegotiationSession :=
  if outcome_eqb o SUCCESS
  then set_final_price (_extract_final_agreed_price (messages s)) s
  else s.

(** The price an agent message agrees on, if it is an acceptance message
    that names one. *)
Definition agreed_price (msg : ChatMessage) : option Z :=
  if String.eqb (sender msg) "ai"
     && Str.contains_any accept_words (Str.lower (content msg))
  then last (findall_prices (content msg))
  else None.

(** A registered, started session with one offer on record. *)
Definition demo_params : NegotiationParams :=
  mkParams 8000 10000 "diplomatic" "week".

Definition demo_negotiation (msgs : list ChatMessage) : SessionData :=
  mkSessionData
    (mkSession "s1" demo_params (status_value ACTIVE) 0 msgs None None None)
    demo_product empty_strategy (PhaseEnum OPENING) []
    (mkMetrics 1 F64.c0_0 None None) (Some 1).

Definition demo_manager (ai : option AIService) (msgs : list ChatMessage)
    : Manager :=
  mkManager (<["s1" := demo_negotiation msgs]> ∅) ∅ [] ai
    (fun n => Z.of_nat n + 2) 0 (fun n => "m") 0 [] 0.

(** An AI service that accepts without naming a price. *)
Definition accepting_service : AIService :=
  fun _ _ _ _ =>
    Ok (mkAIResult "Perfect! I accept your offer." F64.c0_9 []
          (Some "accept") None empty_analysis).

Definition offer_on_record : list ChatMessage :=
  [agent_says "I can offer ₹8,500. What do you think?"].

Definition completion_of (x : Res TurnOutput * Manager)
    : option CompletionResult :=
  match fst x with
  | Ok (SessionCompleted r) => Some r
  | _ => None
  end.


Definition result_with_action (a : string) (c : option float)
    : NegotiationResult :=
  mkNegotiationResult "" (Some (mkDecision a None None c None)) [] None None
    empty_analysis.

(* ===================================================================== *)
(** ** Further definitions used in the statements *)

(** The actions a turn of the engine can report. *)
Definition turn_actions : list string :=
  ["counter_offer"; "final_offer"; "walk_away"; "continue";
   "accept_with_conditions"; "pause"].

(** The flexibility score as a function of the two keyword counts. *)
Definition flex_of (h l : Z) : float :=
  let b := F64.c0_5 in
  let b := if 0 <? h then F64.add b (F64.mul F64.c0_2 (F64.of_Z h)) else b in
  let b := if 0 <? l then F64.sub b (F64.mul F64.c0_3 (F64.of_Z l)) else b in
  F64.clamp01 b.

(** The value of a decimal numeral given by its digits, least significant
    first. *)
Definition digits_value (rev_digits : list ascii) : Z :=
  fold_right (fun c v => Str.digit_value c + 10 * v) 0 rev_digits.

Definition starts_with_digit (t : list ascii) : bool :=
  match t with
  | [] => false
  | c :: _ => Str.is_digit c
  end.

Definition ascii_byte (c : ascii) : bool := (nat_of_ascii c <? 128)%nat.

(** A text after which a number ends: empty, or starting with an ASCII
    character that is no digit and, if it is a comma, is not followed by a
    digit. *)
Definition clean_break (t : string) : bool :=
  match t with
  | EmptyString => true
  | String c r =>
      ascii_byte c && negb (Str.is_digit c)
      && (negb (Str.is_comma c)
          || match r with
             | EmptyString => true
             | String c' _ => ascii_byte c' && negb (Str.is_digit c')
             end)
  end.

(** The code point of a byte. *)
Definition code (c : ascii) : Z := Z.of_nat (nat_of_ascii c).

(** A continuation byte of UTF-8. *)
Definition continuation (n : Z) : bool := (128 <=? n) && (n <? 192).

(** The bytes of the rupee sign (E2 82 B9) that a decoder state has
    already read. *)
Definition pending (st : Str.dec_state) : string :=
  match st with
  | Str.DPend k acc Str.L3 =>
      if (k =? 2)%nat && (acc =? 2)
      then String (ascii_of_nat 226) EmptyString
      else if (k =? 1)%nat && (acc =? 130)
      then String (ascii_of_nat 226) (String (ascii_of_nat 130) EmptyString)
      else EmptyString
  | _ => EmptyString
  end.

(** The states of the decoder inside a three-byte character: one or two
    bytes are still to come. *)
Definition framed (st : Str.dec_state) : Prop :=
  match st with
  | Str.DPend k _ Str.L3 => k = 1%nat \/ k = 2%nat
  | _ => True
  end.

Definition state_nonneg (st : scan_state) : Prop :=
  match st with
  | Num v _ | NumComma v _ => 0 <= v
  | _ => True
  end.

(** The number of decimal digits of an amount, as [f"{n:,}"] writes it. *)
Definition digit_count (n : Z) : Z :=
  Z.of_nat
    (length
       (list_ascii_of_string
          (NilEmpty.string_of_uint (N.to_uint (Z.abs_N n))))).

(** All the prices of a text are within the reach of [int]. *)
Definition short_capture (c : Capture) : bool := cap_digits c <=? 4300.

Definition short_prices (s : string) : bool :=
  forallb short_capture (price_captures s).

Definition all_short (l : list ChatMessage) : bool :=
  forallb (fun msg => short_prices (content msg)) l.

(* ===================================================================== *)
(** ** AdvancedSessionManager.start_negotiation *)

Definition set_start_time (t : Z) (sd : SessionData) : SessionData :=
  mkSessionData (session sd) (product sd) (strategy sd) (phase_entry sd)
    (intervention_triggers sd) (performance_metrics sd) (Some t).

Record OpeningResult : Type := mkOpening {
  op_opening_message : string;
  op_strategy_used : list string;
  op_confidence : float;
  op_phase : PhaseEntry
}.

(** The engine runs on the empty message and the empty history. *)
Definition opening_turn (sd : SessionData) : M NegotiationResult :=
  fun mg =>
    let '(r, g') :=
      process_negotiation_turn (engine_view sd) "" [] (product sd) (rng mg) in
    let mg' :=
      mkManager (active_sessions mg) (db_sessions mg) (learning_data mg)
        (enhanced_ai_service mg) (clock mg) (clock_reads mg) (uuid mg)
        (uuid_reads mg) g' (S (decisions_computed mg)) in
    match r with
    | Ok t => (Ok (of_turn t), mg')
    | Raise e => (Raise e, mg')
    end.

Definition start_negotiation (sid : string) : M OpeningResult :=
  fun mg =>
    match active_sessions mg !! sid with
    | None => (Raise (ValueError ("Session " +:+ sid +:+ " not found")), mg)
    | Some _ =>
      (let+ _ := update_session_data sid
                   (with_session (set_status (status_value ACTIVE))) in
       let+ t := now in
       let+ _ := update_session_data sid (set_start_time t) in
       let+ sd := get_session_data sid in
       let+ nr := opening_turn sd in
       let+ id := uuid4 in
       let+ ts := now in
       let+ _ := update_session_data sid
                   (with_session
                      (append_message
                         (mkChatMessage id sid "ai" (nr_response nr) ts
                            "ai"))) in
       let+ _ := update_session_data sid (with_metrics bump_messages_sent) in
       let+ _ := save_session sid in
       mret (mkOpening (nr_response nr) (nr_tactics_used nr)
               (default F64.c0_7 (nr_confidence nr))
               (default (PhaseStr "opening") (nr_phase nr)))) mg
    end.

(* ===================================================================== *)
(** ** Definitions used in the further statements *)

Definition pause_decision : Decision :=
  mkDecision "pause" None None (Some F64.c0_5) None.

(** The session registered under [sid] carries the identifier [id] and a
    history that extends [base]. *)
Definition registered (sid id : string) (base : list ChatMessage)
    (mg : Manager) : Prop :=
  exists sd,
    active_sessions mg !! sid = Some sd
    /\ session_id (session sd) = id
    /\ base `prefix_of` messages (session sd).

(** The database holds, under [id], a session whose history extends
    [base]. *)
Definition saved (id : string) (base : list ChatMessage) (mg : Manager)
    : Prop :=
  exists s,
    db_sessions mg !! id = Some s /\ base `prefix_of` messages s.

(** A triple of the manager monad: from a state in [P], a normal return
    satisfies [Q] and a raise leaves a state in [E]. *)
Definition triple {A} (P : Manager -> Prop) (c : M A)
    (Q : A -> Manager -> Prop) (E : Manager -> Prop) : Prop :=
  forall mg, P mg ->
    match c mg with
    | (Ok a, mg') => Q a mg'
    | (Raise _, mg') => E mg'
    end.

(** The session as [_handle_session_error] leaves it. *)
Definition failed_session (e : exn) (sid : string) (sd : SessionData)
    : Prop :=
  status (session sd) = status_value FAILED
  /\ outcome (session sd) = Some (outcome_value TECHNICAL_ERROR)
  /\ ended_at (session sd) <> None
  /\ exists m,
       last (messages (session sd)) = Some m
       /\ sender m = "system"
       /\ content m = ("Session error: " +:+ exn_text e)%string
       /\ sender_type m = "error".

(** What the analyzer makes of the empty message on the empty history. *)
Definition silence_analysis : SellerAnalysis :=
  mkSellerAnalysis (Some "neutral") (Some F64.c0_5) (Some "medium")
    (Some "eager") (Some (mkPriceAnalysis None [] "stable" 0))
    (Some []) (Some []) (Some (mkResponsePattern None "unknown"))
    (Some 0) (Some F64.c0_6) false.

(** A session as [create_session_from_url] registers it, on which
    [start_negotiation] has not run: no start time, no message, and the
    session saved. *)
Definition unstarted_session : NegotiationSession :=
  mkSession "s1" demo_params (status_value INITIALIZING) 0 [] None None None.

Definition unstarted_manager : Manager :=
  mkManager
    (<["s1" :=
        mkSessionData unstarted_session demo_product empty_strategy
          (PhaseEnum OPENING) [] (mkMetrics 0 F64.c0_0 None None) None]> ∅)
    (<["s1" := unstarted_session]> ∅)
    [] None (fun n => Z.of_nat n + 2) 0 (fun n => "m") 0 [] 0.

(** The decisions an engine turn can hand to the manager. *)
Definition manager_decision (nr : NegotiationResult) : Prop :=
  nr_decision nr = Some (final_offer_decision 0)
  \/ nr_decision nr = Some walk_away_decision
  \/ nr_decision nr = Some pause_decision.

(** What a seller turn answers when the engine decides. *)
Definition engine_answer (out : TurnOutput) : Prop :=
  match out with
  | HandoffTriggered _ => True
  | SessionCompleted r =>
      cr_outcome r = outcome_value FAILED_PRICE
      \/ cr_outcome r = outcome_value SELLER_UNRESPONSIVE
  | Replied r =>
      rp_decision r = Some (final_offer_decision 0)
      \/ rp_decision r = Some pause_decision
  end.

(** The tactics that the effectiveness table leaves to a firm seller. *)
Definition spared (t : NegotiationTactic) : bool :=
  negb (tactic_eqb t ANCHORING || tactic_eqb t SCARCITY
        || tactic_eqb t URGENCY).

(* ===================================================================== *)
(** * Properties *)

(** ** Rounding of binary64 arithmetic *)

Lemma digits2_log2 p : Zpos (digits2_pos p) = Z.log2 (Zpos p) + 1.
Proof.
  induction p as [p IH | p IH |]; simpl digits2_pos.
  - rewrite Pos2Z.inj_succ, IH. destruct p; simpl; try reflexivity; lia.
  - rewrite Pos2Z.inj_succ, IH. destruct p; simpl; try reflexivity; lia.
  - reflexivity.
Qed.

Lemma digits2_bounds p :
  2 ^ (Zpos (digits2_pos p) - 1) <= Zpos p < 2 ^ Zpos (digits2_pos p).
Proof.
  rewrite digits2_log2.
  pose proof (Z.log2_spec (Zpos p) ltac:(lia)) as H.
  replace (Z.log2 (Zpos p) + 1 - 1) with (Z.log2 (Zpos p)) by lia.
  replace (Z.log2 (Zpos p) + 1) with (Z.succ (Z.log2 (Zpos p))) by lia.
  exact H.
Qed.

Lemma digits2_unique p d :
  2 ^ (d - 1) <= Zpos p < 2 ^ d -> Zpos (digits2_pos p) = d.
Proof.
  intros H. rewrite digits2_log2.
  assert (0 < d).
  { destruct (Z.lt_trichotomy d 0) as [Hd | [Hd | Hd]]; try lia.
    - rewrite (Z.pow_neg_r 2 d) in H by lia. lia.
    - subst d. simpl in H. lia. }
  rewrite (Z.log2_unique (Zpos p) (d - 1)); try lia.
  replace (Z.succ (d - 1)) with d by lia. exact H.
Qed.

Lemma shr_1_m r : 0 <= shr_m r -> shr_m (shr_1 r) = shr_m r / 2.
Proof.
  destruct r as [m r s]. simpl. intros Hm.
  destruct m as [| [p | p |] |]; cbn [shr_m]; try lia; try reflexivity.
  - apply Z.div_unique with 1; lia.
  - apply Z.div_unique with 0; lia.
Qed.

Lemma iter_pos_shr_m p : forall r,
  0 <= shr_m r -> shr_m (SpecFloat.iter_pos shr_1 p r) = shr_m r / 2 ^ Zpos p.
Proof.
  induction p as [p IH | p IH |]; intros r Hr; simpl SpecFloat.iter_pos.
  - assert (H1 : 0 <= shr_m (shr_1 r)).
    { rewrite shr_1_m by assumption. apply Z.div_pos; lia. }
    assert (H2 : 0 <= shr_m (SpecFloat.iter_pos shr_1 p (shr_1 r))).
    { rewrite IH by assumption. apply Z.div_pos; [assumption | ].
      apply Z.pow_pos_nonneg; lia. }
    rewrite IH, IH, shr_1_m by assumption.
    replace (Zpos p~1) with (1 + Zpos p + Zpos p) by lia.
    rewrite !Z.pow_add_r by lia. rewrite Z.pow_1_r.
    rewrite !Z.div_div; try lia; try (apply Z.pow_pos_nonneg; lia).
    all: try (apply Z.mul_pos_pos; try lia; apply Z.pow_pos_nonneg; lia).
    f_equal. ring.
  - assert (H2 : 0 <= shr_m (SpecFloat.iter_pos shr_1 p r)).
    { rewrite IH by assumption. apply Z.div_pos; [assumption | ].
      apply Z.pow_pos_nonneg; lia. }
    rewrite IH, IH by assumption.
    replace (Zpos p~0) with (Zpos p + Zpos p) by lia.
    rewrite Z.pow_add_r by lia.
    rewrite Z.div_div; try lia; try (apply Z.pow_pos_nonneg; lia).
  - rewrite shr_1_m by assumption. reflexivity.
Qed.

Lemma shr_nonpos r e n : n <= 0 -> shr r e n = (r, e).
Proof. destruct n; simpl; intros; try reflexivity; lia. Qed.

Lemma shr_pos r e n :
  0 < n -> 0 <= shr_m r ->
  exists r', shr r e n = (r', e + n) /\ shr_m r' = shr_m r / 2 ^ n.
Proof.
  intros Hn Hr. destruct n as [| p | p]; try lia.
  exists (SpecFloat.iter_pos shr_1 p r). split; [reflexivity | ].
  apply iter_pos_shr_m; assumption.
Qed.

Lemma round_nearest_even_range m l :
  m <= round_nearest_even m l <= m + 1.
Proof.
  destruct l as [| [ | | ]]; simpl; try lia.
  destruct (Z.even m); lia.
Qed.

Lemma shr_fexp_small m e :
  -1074 <= e -> Zpos (digits2_pos m) <= 53 ->
  shr_fexp 53 1024 (Zpos m) e loc_Exact
  = (Build_shr_record (Zpos m) false false, e).
Proof.
  intros He Hd. unfold shr_fexp, fexp, emin. cbn [Zdigits2 shr_record_of_loc].
  apply shr_nonpos. lia.
Qed.

Lemma shr_fexp_large m e :
  -1074 <= e -> 53 < Zpos (digits2_pos m) ->
  exists r1,
    shr_fexp 53 1024 (Zpos m) e loc_Exact
    = (r1, e + (Zpos (digits2_pos m) - 53))
    /\ shr_m r1 = Zpos m / 2 ^ (Zpos (digits2_pos m) - 53).
Proof.
  intros He Hd. unfold shr_fexp, fexp, emin. cbn [Zdigits2 shr_record_of_loc].
  assert (Z.max (Zpos (digits2_pos m) + e - 53) (3 - 1024 - 53) - e
          = Zpos (digits2_pos m) - 53) as -> by lia.
  apply (shr_pos (Build_shr_record (Zpos m) false false)); cbn [shr_m]; lia.
Qed.

Lemma binary_round_aux_rounded s m e :
  -1074 <= e ->
  rounded s m e (binary_round_aux 53 1024 s (Zpos m) e loc_Exact).
Proof.
  intros He. unfold rounded.
  destruct (Z.leb_spec (Zpos (digits2_pos m)) 53) as [Hd | Hd].
  - unfold binary_round_aux.
    rewrite shr_fexp_small by assumption.
    cbn [shr_m loc_of_shr_record round_nearest_even].
    rewrite shr_fexp_small by assumption.
    cbn [shr_m]. reflexivity.
  - destruct (shr_fexp_large m e He Hd) as [r1 [Hs1 Hm1]].
    pose proof (digits2_bounds m) as Hb.
    set (d := Zpos (digits2_pos m)) in *.
    set (n := d - 53) in *.
    assert (Hn : 0 < n) by lia.
    assert (H2n : 0 < 2 ^ n) by (apply Z.pow_pos_nonneg; lia).
    unfold binary_round_aux. rewrite Hs1.
    set (m1 := Zpos m / 2 ^ n) in *.
    assert (Hm1b : 2 ^ 52 <= m1 < 2 ^ 53).
    { unfold m1. split.
      - apply Z.div_le_lower_bound; [lia | ].
        rewrite <- Z.pow_add_r by lia.
        replace (n + 52) with (d - 1) by lia. lia.
      - apply Z.div_lt_upper_bound; [lia | ].
        rewrite <- Z.pow_add_r by lia.
        replace (n + 53) with d by lia. lia. }
    pose proof (round_nearest_even_range (shr_m r1) (loc_of_shr_record r1))
      as Hr.
    remember (round_nearest_even (shr_m r1) (loc_of_shr_record r1)) as m2
      eqn:Em2.
    rewrite Hm1 in Hr.
    destruct m2 as [| p2 | p2]; try lia.
    destruct (Z.eq_dec (Zpos p2) (2 ^ 53)) as [Heq | Hne].
    + (* the mantissa carried into a 54th bit *)
      assert (Hd2 : Zpos (digits2_pos p2) = 54).
      { apply digits2_unique. rewrite Heq. simpl. lia. }
      destruct (shr_fexp_large p2 (e + n)) as [r2 [Hs2 Hm2]]; try lia.
      rewrite Hd2 in Hs2, Hm2. rewrite Hs2, Hm2, Heq.
      change (2 ^ 53 / 2 ^ (54 - 53)) with (Zpos (Z.to_pos (2 ^ 52))).
      exists (Z.to_pos (2 ^ 52)), 1.
      change (Zpos (Z.to_pos (2 ^ 52)) * 2 ^ 1) with (2 ^ 53).
      change (Zpos (Z.to_pos (2 ^ 52))) with (2 ^ 52).
      replace (e + n + (54 - 53)) with (e + n + 1) by lia.
      split; [right; reflexivity | ].
      split; [lia | ].
      split; [lia | reflexivity].
    + assert (Hd2 : Zpos (digits2_pos p2) = 53).
      { apply digits2_unique. lia. }
      rewrite shr_fexp_small by lia. cbn [shr_m].
      exists p2, 0.
      replace (e + n + 0) with (e + n) by lia.
      split; [left; reflexivity | ].
      split; [lia | ].
      split; [lia | reflexivity].
Qed.

Lemma binary_round_aux_sign s mx ex lx :
  match binary_round_aux 53 1024 s mx ex lx with
  | S754_finite s' _ _ | S754_infinity s' => s' = s
  | _ => True
  end.
Proof.
  unfold binary_round_aux.
  destruct (shr_fexp 53 1024 mx ex lx) as [r1 e1].
  destruct (shr_fexp 53 1024 _ e1 loc_Exact) as [r2 e2].
  destruct (shr_m r2); [exact I | | exact I].
  destruct (e2 <=? 1024 - 53); reflexivity.
Qed.

Lemma round_cases s m e :
  -1074 <= e ->
  (binary_round_aux 53 1024 s (Zpos m) e loc_Exact = S754_infinity s
   /\ 971 < e + Z.max 0 (Zpos (digits2_pos m) - 53) + 1)
  \/ exists m' e',
       binary_round_aux 53 1024 s (Zpos m) e loc_Exact = S754_finite s m' e'
       /\ e <= e' <= e + Z.max 0 (Zpos (digits2_pos m) - 53) + 1
       /\ Zpos m' < 2 ^ 53
       /\ forall K, 0 <= e + K ->
            (2 ^ 52 - 1) * (Zpos m * 2 ^ (e + K))
            <= 2 ^ 52 * (Zpos m' * 2 ^ (e' + K)).
Proof.
  intros He. pose proof (binary_round_aux_rounded s m e He) as H.
  unfold rounded in H. pose proof (digits2_bounds m) as Hb.
  set (d := Zpos (digits2_pos m)) in *.
  destruct (Z.leb_spec d 53) as [Hd | Hd].
  - destruct (Z.leb_spec e 971) as [He' | He'].
    + right. exists m, e. split; [exact H | ].
      split; [lia | ]. split.
      * apply Z.lt_le_trans with (2 ^ d); [lia | ].
        apply Z.pow_le_mono_r; lia.
      * intros K HK.
        assert (0 < 2 ^ (e + K)) by (apply Z.pow_pos_nonneg; lia).
        nia.
    + left. split; [exact H | lia].
  - destruct H as [m' [k [Hk [Hm' [Hr H]]]]].
    set (n := d - 53) in *.
    assert (Hn : 0 < n) by lia.
    destruct (Z.leb_spec (e + n + k) 971) as [He' | He'].
    + right. exists m', (e + n + k). split; [exact H | ].
      split; [lia | ]. split; [lia | ].
      intros K HK.
      replace (e + n + k + K) with (k + n + (e + K)) by lia.
      rewrite (Z.pow_add_r 2 (k + n) (e + K)) by lia.
      rewrite (Z.pow_add_r 2 k n) by lia.
      set (Y := 2 ^ (e + K)). set (X := 2 ^ n) in *.
      assert (HY : 0 < Y) by (apply Z.pow_pos_nonneg; lia).
      assert (HX : 0 < X) by (apply Z.pow_pos_nonneg; lia).
      assert (Hm : 2 ^ 52 * X <= Zpos m).
      { unfold X. rewrite <- Z.pow_add_r by lia.
        replace (52 + n) with (d - 1) by lia. lia. }
      pose proof (Z.div_mod (Zpos m) X ltac:(lia)) as Hdm.
      pose proof (Z.mod_pos_bound (Zpos m) X HX) as Hmod.
      set (q := Zpos m / X) in *.
      set (P := Zpos m' * 2 ^ k) in *.
      assert (HA : (2 ^ 52 - 1) * Zpos m <= 2 ^ 52 * (P * X)).
      { assert (q * X <= P * X) by (apply Z.mul_le_mono_nonneg_r; lia).
        lia. }
      replace ((2 ^ 52 - 1) * (Zpos m * Y)) with ((2 ^ 52 - 1) * Zpos m * Y)
        by ring.
      replace (2 ^ 52 * (Zpos m' * (2 ^ k * X * Y)))
        with (2 ^ 52 * (P * X) * Y) by (unfold P; ring).
      apply Z.mul_le_mono_nonneg_r; lia.
    + left. split; [exact H | lia].
Qed.

Lemma pos_iter_xO m q : Zpos (Pos.iter xO m q) = Zpos m * 2 ^ Zpos q.
Proof.
  induction q as [| q IH] using Pos.peano_ind.
  - simpl. lia.
  - rewrite Pos.iter_succ, Pos2Z.inj_xO, IH, Pos2Z.inj_succ.
    rewrite Z.pow_succ_r by lia. ring.
Qed.

(** The double nearest to a positive integer. *)
Lemma of_Z_pos_cases t :
  0 < t ->
  (F64.of_Z t = S754_infinity false /\ 2 ^ 1023 <= t)
  \/ exists mF eF,
       F64.of_Z t = S754_finite false mF eF
       /\ -52 <= eF
       /\ (t < 2 ^ 1000 -> eF <= 950)
       /\ Zpos mF < 2 ^ 53
       /\ forall K, 52 <= K ->
            (2 ^ 52 - 1) * (t * 2 ^ K) <= 2 ^ 52 * (Zpos mF * 2 ^ (eF + K)).
Proof.
  intros Ht. destruct t as [| p | p]; try lia.
  unfold F64.of_Z, F64.prec, F64.emax, binary_normalize, binary_round.
  pose proof (digits2_bounds p) as Hb.
  set (d := Zpos (digits2_pos p)) in *.
  assert (Hd0 : 0 < d) by (unfold d; lia).
  unfold shl_align, fexp, emin.
  assert (Hfe : Z.max (d + 0 - 53) (3 - 1024 - 53) - 0 = d - 53) by lia.
  rewrite Hfe.
  destruct (d - 53) as [| q | q] eqn:Eq.
  - (* exactly 53 digits *)
    assert (Hfe' : Z.max (d + 0 - 53) (3 - 1024 - 53) = 0) by lia.
    destruct (round_cases false p 0 ltac:(lia)) as [[Hinf Hbig] | Hfin].
    + fold d in Hbig. lia.
    + right. destruct Hfin as [m' [e' [Hf [He' [Hm' Hrel]]]]].
      fold d in He'. exists m', e'. split; [exact Hf | ].
      split; [lia | ]. split; [lia | ]. split; [exact Hm' | ].
      intros K HK. specialize (Hrel K ltac:(lia)).
      replace (0 + K) with K in Hrel by lia. exact Hrel.
  - (* more than 53 digits: the conversion rounds *)
    destruct (round_cases false p 0 ltac:(lia)) as [[Hinf Hbig] | Hfin].
    + left. split; [exact Hinf | ]. fold d in Hbig.
      apply Z.le_trans with (2 ^ (d - 1)); [ | lia].
      apply Z.pow_le_mono_r; lia.
    + right. destruct Hfin as [m' [e' [Hf [He' [Hm' Hrel]]]]].
      fold d in He'. exists m', e'. split; [exact Hf | ].
      split; [lia | ]. split.
      * intros Hsmall.
        assert (d <= 1000).
        { destruct (Z.le_gt_cases d 1000) as [? | Hgt]; [assumption | ].
          assert (2 ^ 1000 <= 2 ^ (d - 1)) by (apply Z.pow_le_mono_r; lia).
          lia. }
        lia.
      * split; [exact Hm' | ].
        intros K HK. specialize (Hrel K ltac:(lia)).
        replace (0 + K) with K in Hrel by lia. exact Hrel.
  - (* fewer than 53 digits: the mantissa is shifted left, exactly *)
    assert (Hfe' : Z.max (d + 0 - 53) (3 - 1024 - 53) = Zneg q) by lia.
    rewrite Hfe'.
    assert (Hq : Zpos q = 53 - d) by lia.
    pose proof (pos_iter_xO p q) as Hmz.
    set (mz := Pos.iter xO p q) in *.
    assert (Hdz : Zpos (digits2_pos mz) = 53).
    { apply digits2_unique. rewrite Hmz, Hq.
      assert (0 < 2 ^ (53 - d)) by (apply Z.pow_pos_nonneg; lia).
      assert (E1 : 2 ^ (53 - 1) = 2 ^ (d - 1) * 2 ^ (53 - d)).
      { rewrite <- Z.pow_add_r by lia. f_equal. lia. }
      assert (E2 : 2 ^ 53 = 2 ^ d * 2 ^ (53 - d)).
      { rewrite <- Z.pow_add_r by lia. f_equal. lia. }
      rewrite E1, E2. split.
      - apply Z.mul_le_mono_nonneg_r; lia.
      - apply Z.mul_lt_mono_pos_r; lia. }
    destruct (round_cases false mz (Zneg q) ltac:(lia))
      as [[Hinf Hbig] | Hfin].
    + rewrite Hdz in Hbig. lia.
    + right. destruct Hfin as [m' [e' [Hf [He' [Hm' Hrel]]]]].
      rewrite Hdz in He'. exists m', e'. split; [exact Hf | ].
      split; [lia | ]. split; [lia | ]. split; [exact Hm' | ].
      intros K HK. specialize (Hrel K ltac:(lia)).
      rewrite Hmz, Hq in Hrel.
      replace (Zpos p * 2 ^ (53 - d) * 2 ^ (Zneg q + K))
        with (Zpos p * 2 ^ K) in Hrel; [exact Hrel | ].
      rewrite <- Z.mul_assoc, <- Z.pow_add_r by lia.
      f_equal. f_equal. lia.
Qed.

Lemma mul_pos_cases mF eF mc ec :
  -1074 <= eF + ec ->
  (F64.mul (S754_finite false mF eF) (S754_finite false mc ec)
     = S754_infinity false
   /\ 971 < eF + ec + Z.max 0 (Zpos (digits2_pos (mF * mc)) - 53) + 1)
  \/ exists mP eP,
       F64.mul (S754_finite false mF eF) (S754_finite false mc ec)
         = S754_finite false mP eP
       /\ eF + ec <= eP
       /\ forall K, 0 <= eF + ec + K ->
            (2 ^ 52 - 1) * (Zpos (mF * mc) * 2 ^ (eF + ec + K))
            <= 2 ^ 52 * (Zpos mP * 2 ^ (eP + K)).
Proof.
  intros He.
  change (F64.mul (S754_finite false mF eF) (S754_finite false mc ec))
    with (binary_round_aux 53 1024 false (Zpos (mF * mc)) (eF + ec) loc_Exact).
  destruct (round_cases false (mF * mc) (eF + ec) He) as [H | H].
  - left. exact H.
  - right. destruct H as [m' [e' [Hf [He' [_ Hrel]]]]].
    exists m', e'. split; [exact Hf | ]. split; [lia | exact Hrel].
Qed.

Lemma digits2_mul_le mF mc :
  Zpos mF < 2 ^ 53 -> Zpos mc < 2 ^ 53 ->
  Zpos (digits2_pos (mF * mc)) <= 106.
Proof.
  intros HF Hc. pose proof (digits2_bounds (mF * mc)) as Hb.
  set (D := Zpos (digits2_pos (mF * mc))) in *.
  destruct (Z.le_gt_cases D 106) as [? | Hgt]; [assumption | exfalso].
  assert (2 ^ 106 <= 2 ^ (D - 1)) by (apply Z.pow_le_mono_r; lia).
  rewrite Pos2Z.inj_mul in Hb.
  assert (Zpos mF * Zpos mc < 2 ^ 53 * 2 ^ 53) by nia.
  change (2 ^ 53 * 2 ^ 53) with (2 ^ 106) in *. lia.
Qed.

Lemma to_int_ge t m e K y :
  0 <= K -> 0 <= e + K ->
  t * 2 ^ K <= Zpos m * 2 ^ (e + K) ->
  F64.to_int (S754_finite false m e) = Ok y ->
  t <= y.
Proof.
  intros HK HeK Hle Hy. unfold F64.to_int in Hy.
  injection Hy as <-.
  destruct (Z.leb_spec 0 e) as [He | He].
  - rewrite Z.pow_add_r in Hle by lia.
    assert (0 < 2 ^ K) by (apply Z.pow_pos_nonneg; lia).
    apply Z.mul_le_mono_pos_r with (2 ^ K); [assumption | ].
    rewrite <- Z.mul_assoc. exact Hle.
  - assert (0 < 2 ^ (- e)) by (apply Z.pow_pos_nonneg; lia).
    assert (0 < 2 ^ (e + K)) by (apply Z.pow_pos_nonneg; lia).
    apply Z.div_le_lower_bound; [assumption | ].
    apply Z.mul_le_mono_pos_r with (2 ^ (e + K)); [assumption | ].
    replace (2 ^ (- e) * t * 2 ^ (e + K)) with (t * 2 ^ K); [exact Hle | ].
    replace K with ((- e) + (e + K)) at 1 by lia.
    rewrite Z.pow_add_r by lia. ring.
Qed.

(** [int(t * 1.1)] is at least [t]. *)
Lemma int_mul_1_1_ge t x y :
  0 < t ->
  F64.int_mul t F64.c1_1 = Ok x ->
  F64.to_int x = Ok y ->
  t <= y.
Proof.
  intros Ht Hx Hy. unfold F64.int_mul, F64.of_int in Hx.
  destruct (of_Z_pos_cases t Ht) as [[Hinf _] | Hfin].
  - rewrite Hinf in Hx. discriminate Hx.
  - destruct Hfin as [mF [eF [HF [HeF [_ [HmF HrelF]]]]]].
    rewrite HF in Hx.
    assert (Hx' : x = F64.mul (S754_finite false mF eF)
                        (S754_finite false 4953959590107546 (-52)))
      by (injection Hx as <-; reflexivity).
    clear Hx. subst x.
    destruct (mul_pos_cases mF eF 4953959590107546 (-52) ltac:(lia))
      as [[Hinf _] | Hfin].
    + rewrite Hinf in Hy. discriminate Hy.
    + destruct Hfin as [mP [eP [HP [HeP HrelP]]]].
      rewrite HP in Hy.
      apply (to_int_ge t mP eP 104 y); try lia; [ | exact Hy].
      specialize (HrelF 52 ltac:(lia)).
      specialize (HrelP 104 ltac:(lia)).
      replace (eF + -52 + 104) with (eF + 52) in HrelP by lia.
      rewrite Pos2Z.inj_mul in HrelP.
      set (A := 2 ^ (eF + 52)) in *.
      set (W := Zpos mP * 2 ^ (eP + 104)) in *.
      set (U := Zpos mF * A) in *.
      replace (Zpos mF * 4953959590107546 * A) with (4953959590107546 * U)
        in HrelP by (unfold U; ring).
      change (2 ^ 52) with 4503599627370496 in *.
      change (2 ^ 104) with 20282409603651670423947251286016.
      lia.
Qed.

(** Within the range of prices, [int(t * 1.1)] does not raise. *)
Lemma int_mul_1_1_total t :
  0 <= t < 2 ^ 1000 ->
  exists x y, F64.int_mul t F64.c1_1 = Ok x /\ F64.to_int x = Ok y.
Proof.
  intros [Ht0 Ht]. destruct (Z.eq_dec t 0) as [-> | Hnz].
  - eexists. eexists. split; reflexivity.
  - unfold F64.int_mul, F64.of_int.
    destruct (of_Z_pos_cases t ltac:(lia)) as [[_ Hbig] | Hfin].
    + assert (2 ^ 1000 <= 2 ^ 1023) by (apply Z.pow_le_mono_r; lia). lia.
    + destruct Hfin as [mF [eF [HF [HeF [HeF' [HmF _]]]]]].
      rewrite HF.
      change (exists x y,
                Ok (F64.mul (S754_finite false mF eF) F64.c1_1) = Ok x
                /\ F64.to_int x = Ok y).
      unfold F64.c1_1.
      destruct (mul_pos_cases mF eF 4953959590107546 (-52) ltac:(lia))
        as [[_ Hbig] | Hfin].
      * pose proof (digits2_mul_le mF 4953959590107546 HmF ltac:(simpl; lia)).
        specialize (HeF' Ht). lia.
      * destruct Hfin as [mP [eP [HP _]]].
        eexists. eexists. split; [reflexivity | ]. rewrite HP. reflexivity.
Qed.

Lemma mul_nonneg x y : nonneg x -> nonneg y -> nonneg (F64.mul x y).
Proof.
  destruct x as [sx | sx | | sx mx ex], y as [sy | sy | | sy my ey];
    simpl; intros Hx Hy; subst; try exact I; try reflexivity.
  change (nonneg (binary_round_aux 53 1024 false (Zpos (mx * my))
                    (ex + ey) loc_Exact)).
  pose proof (binary_round_aux_sign false (Zpos (mx * my)) (ex + ey)
                loc_Exact) as H.
  destruct (binary_round_aux 53 1024 false (Zpos (mx * my)) (ex + ey)
              loc_Exact); simpl; try exact I; exact H.
Qed.

Lemma of_Z_nonneg z : 0 <= z -> nonneg (F64.of_Z z).
Proof.
  intros Hz. destruct z as [| p | p]; try lia; [exact I | ].
  unfold F64.of_Z, binary_normalize, binary_round.
  destruct (shl_align p 0 _) as [mz ez].
  change F64.prec with 53. change F64.emax with 1024.
  pose proof (binary_round_aux_sign false (Zpos mz) ez loc_Exact) as H.
  destruct (binary_round_aux 53 1024 false (Zpos mz) ez loc_Exact);
    simpl; try exact I; exact H.
Qed.

Lemma to_int_nonneg f y : nonneg f -> F64.to_int f = Ok y -> 0 <= y.
Proof.
  destruct f as [s | s | | s m e]; unfold nonneg, F64.to_int;
    intros Hf Hy; try discriminate.
  - injection Hy as <-. lia.
  - subst s. injection Hy as <-.
    destruct (Z.leb_spec 0 e).
    + apply Z.mul_nonneg_nonneg; [lia | apply Z.pow_nonneg; lia].
    + apply Z.div_pos; [lia | apply Z.pow_pos_nonneg; lia].
Qed.

Lemma gtb_nonneg f m e :
  F64.gtb f (S754_finite false m e) = true -> nonneg f.
Proof.
  unfold F64.gtb, SFltb.
  destruct f as [s | s | | s m' e']; simpl; try exact (fun _ => I).
  - destruct s; [discriminate | reflexivity].
  - destruct s; [discriminate | reflexivity].
Qed.

(* ===================================================================== *)
(** ** Decision engine: the bounds of an offer *)

Lemma phase_factor_nonneg ph : nonneg (phase_factor ph).
Proof. destruct ph; reflexivity. Qed.

Lemma int_mul_nonneg z c x :
  0 <= z -> nonneg c -> F64.int_mul z c = Ok x -> nonneg x.
Proof.
  intros Hz Hc Hx. unfold F64.int_mul, F64.of_int in Hx.
  destruct (F64.is_finite (F64.of_Z z)); [ | discriminate Hx].
  injection Hx as <-. apply mul_nonneg; [apply of_Z_nonneg; exact Hz | exact Hc].
Qed.

(** A counter offer stays 1000 under the seller's price, and is not under
    the target when the seller's price is at least 1000 over it. *)
Lemma counter_offer_bounds cp t sa ph o :
  t < cp ->
  F64.gtb (get_flexibility sa) F64.c0_6 = true ->
  _calculate_counter_offer cp t sa ph = Ok o ->
  o <= cp - 1000 /\ (t + 1000 <= cp -> t <= o).
Proof.
  intros Hgap Hflex Ho. unfold _calculate_counter_offer in Ho.
  destruct (F64.int_mul (cp - t) (phase_factor ph)) as [x | ] eqn:Ex;
    [ | discriminate Ho].
  cbn [rbind] in Ho.
  destruct (F64.to_int (F64.mul x (get_flexibility sa))) as [inc | ] eqn:Ei;
    [ | discriminate Ho].
  cbn [rbind] in Ho. injection Ho as <-.
  assert (Hinc : 0 <= inc).
  { assert (Hx : nonneg x).
    { apply (int_mul_nonneg (cp - t) (phase_factor ph));
        [lia | apply phase_factor_nonneg | exact Ex]. }
    assert (Hf : nonneg (get_flexibility sa))
      by exact (gtb_nonneg _ _ _ Hflex).
    exact (to_int_nonneg _ _ (mul_nonneg _ _ Hx Hf) Ei). }
  lia.
Qed.

(** C1, as amended: an offer never exceeds the budget; a final offer is at
    least the target; a counter offer is at most the seller's price less
    1000, and at least the target whenever that price is at least 1000
    over the target. *)
Theorem offer_within_bounds sd sa ph product t b d :
  sd_target_price sd = Some t ->
  sd_max_budget sd = Some b ->
  0 < t ->
  t <= b ->
  make_decision sd sa ph product = Ok d ->
  action d = "counter_offer" \/ action d = "final_offer" ->
  exists o,
    offer d = Some o
    /\ o <= b
    /\ (action d = "final_offer" -> t <= o)
    /\ (action d = "counter_offer" ->
        o <= effective_price sa product - 1000
        /\ (t + 1000 <= effective_price sa product -> t <= o)).
Proof.
  intros Ht Hb Hpos Htb Hd Hact. unfold make_decision in Hd.
  rewrite Ht, Hb in Hd. cbn [default from_option id] in Hd. cbv zeta in Hd.
  set (cp := effective_price sa product) in *.
  destruct (Z.leb_spec cp t) as [Hle | Hgt].
  { injection Hd as <-. destruct Hact as [H | H]; discriminate H. }
  destruct (Z.leb_spec cp b) as [Hleb | Hgtb].
  - destruct (F64.gtb (get_flexibility sa) F64.c0_6) eqn:Hflex.
    + destruct (_calculate_counter_offer cp t sa ph) as [o | ] eqn:Eo;
        [ | discriminate Hd].
      cbn [rbind] in Hd. injection Hd as <-.
      destruct (counter_offer_bounds cp t sa ph o Hgt Hflex Eo) as [Hup Hlo].
      exists o. cbn [offer action]. split; [reflexivity | ].
      split; [lia | ]. split; [intros H; discriminate H | ].
      intros _. split; assumption.
    + destruct (F64.int_mul b F64.c0_95) as [limit | ]; [ | discriminate Hd].
      cbn [rbind] in Hd.
      destruct (F64.Z_ltb cp limit); injection Hd as <-;
        destruct Hact as [H | H]; discriminate H.
  - destruct (F64.gtb (get_flexibility sa) F64.c0_7).
    + destruct (F64.int_mul t F64.c1_1) as [x | ] eqn:Ex; [ | discriminate Hd].
      cbn [rbind] in Hd.
      destruct (F64.to_int x) as [y | ] eqn:Ey; [ | discriminate Hd].
      cbn [rbind] in Hd. injection Hd as <-.
      pose proof (int_mul_1_1_ge t x y Hpos Ex Ey) as Hy.
      exists (Z.min b y). cbn [offer action]. split; [reflexivity | ].
      split; [lia | ]. split; [intros _; lia | intros H; discriminate H].
    + injection Hd as <-. destruct Hact as [H | H]; discriminate H.
Qed.

Lemma offer_within_bounds_witness :
  exists o,
    offer (mkDecision "counter_offer" (Some 8000) None (Some F64.c0_7)
             (Some "Seller shows flexibility, room for negotiation"))
    = Some o
    /\ o <= 10000.
Proof.
  destruct (offer_within_bounds (demo_session 8000 10000)
              (analysis_with (Some F64.c0_7) (Some 9000)) EXPLORATION
              demo_product 8000 10000
              (mkDecision "counter_offer" (Some 8000) None (Some F64.c0_7)
                 (Some "Seller shows flexibility, room for negotiation"))
              eq_refl eq_refl ltac:(lia) ltac:(lia)
              ltac:(vm_compute; reflexivity) (or_introl eq_refl))
    as [o [Ho [Hb _]]].
  exists o. split; assumption.
Defined.

(** C1 as stated fails: with target 8000, budget 10000, a seller at 8500
    and flexibility 0.7, the counter offer is 7500, under the target. *)
Lemma offer_below_target :
  sd_target_price (demo_session 8000 10000) = Some 8000
  /\ sd_max_budget (demo_session 8000 10000) = Some 10000
  /\ 0 < 8000 <= 10000
  /\ make_decision (demo_session 8000 10000)
       (analysis_with (Some F64.c0_7) (Some 8500)) EXPLORATION demo_product
     = Ok (mkDecision "counter_offer" (Some 7500) None (Some F64.c0_7)
             (Some "Seller shows flexibility, room for negotiation"))
  /\ 7500 < 8000.
Proof.
  split; [reflexivity | ]. split; [reflexivity | ]. split; [lia | ].
  split; [vm_compute; reflexivity | lia].
Qed.

(* ===================================================================== *)
(** ** Decision engine: the accept branch *)

Lemma effective_price_extracted sa product p :
  extracted_price sa = Some p -> p <> 0 -> effective_price sa product = p.
Proof.
  intros H Hp. unfold effective_price. rewrite H.
  destruct (Z.eqb_spec p 0); [contradiction | reflexivity].
Qed.

Lemma effective_price_fallback sa product :
  extracted_price sa = None \/ extracted_price sa = Some 0 ->
  effective_price sa product = price product.
Proof.
  intros [H | H]; unfold effective_price; rewrite H; reflexivity.
Qed.

Lemma make_decision_accept sd sa ph product :
  effective_price sa product <= default 0 (sd_target_price sd) ->
  make_decision sd sa ph product = Ok accept_decision.
Proof.
  intros H. unfold make_decision.
  destruct (Z.leb_spec (effective_price sa product)
              (default 0 (sd_target_price sd))); [reflexivity | lia].
Qed.

(** C2, as amended: a non-zero extracted price at or below the target, or
    the listed price at or below the target when no price or the price 0
    was extracted, gives ACCEPT with confidence 0.9. *)
Theorem accept_at_or_below_target sd sa ph product t :
  sd_target_price sd = Some t ->
  (forall p, extracted_price sa = Some p -> p <> 0 -> p <= t ->
     make_decision sd sa ph product = Ok accept_decision)
  /\ (extracted_price sa = None \/ extracted_price sa = Some 0 ->
      price product <= t ->
      make_decision sd sa ph product = Ok accept_decision)
  /\ action accept_decision = "accept"
  /\ confidence accept_decision = Some F64.c0_9.
Proof.
  intros Ht. repeat split.
  - intros p Hp Hnz Hle. apply make_decision_accept.
    rewrite (effective_price_extracted _ _ _ Hp Hnz), Ht. exact Hle.
  - intros Hx Hle. apply make_decision_accept.
    rewrite (effective_price_fallback _ _ Hx), Ht. exact Hle.
Qed.

Lemma accept_at_or_below_target_witness :
  make_decision (demo_session 8000 10000)
    (analysis_with None (Some 7500)) EXPLORATION demo_product
  = Ok accept_decision.
Proof.
  refine (proj1 (accept_at_or_below_target (demo_session 8000 10000)
                   (analysis_with None (Some 7500)) EXPLORATION demo_product
                   8000 eq_refl) 7500 eq_refl _ _); lia.
Defined.

(** C2 as stated fails: the extracted price 0 is at or below the target
    8000, yet the engine falls back to the listed price 12000 and walks
    away. *)
Lemma accept_at_zero_price_fails :
  extracted_price (analysis_with None (Some 0)) = Some 0
  /\ 0 <= 8000
  /\ make_decision (demo_session 8000 10000) (analysis_with None (Some 0))
       EXPLORATION demo_product
     = Ok walk_away_decision
  /\ action walk_away_decision <> "accept".
Proof.
  split; [reflexivity | ]. split; [lia | ].
  split; [vm_compute; reflexivity | discriminate].
Qed.

(* ===================================================================== *)
(** ** Decision engine: a price over the budget *)

(** C3, as amended: over the budget, flexibility above 0.7 gives
    FINAL_OFFER with confidence 0.4 and offer
    [min(max_budget, int(target_price * 1.1))], the product truncated
    toward zero (and the exception of the float conversion when the target
    is beyond the range of a double, which it is not below 2^1000);
    otherwise WALK_AWAY with confidence 0.8. *)
Theorem over_budget_decision sd sa ph product t b :
  sd_target_price sd = Some t ->
  sd_max_budget sd = Some b ->
  t <= b ->
  b < effective_price sa product ->
  (F64.gtb (get_flexibility sa) F64.c0_7 = true ->
     make_decision sd sa ph product
     = (let* x := F64.int_mul t F64.c1_1 in
        let* y := F64.to_int x in
        Ok (final_offer_decision (Z.min b y)))
     /\ (0 <= t < 2 ^ 1000 ->
         exists x y,
           F64.int_mul t F64.c1_1 = Ok x /\ F64.to_int x = Ok y
           /\ make_decision sd sa ph product
              = Ok (final_offer_decision (Z.min b y))))
  /\ (F64.gtb (get_flexibility sa) F64.c0_7 = false ->
      make_decision sd sa ph product = Ok walk_away_decision)
  /\ confidence (final_offer_decision 0) = Some F64.c0_4
  /\ confidence walk_away_decision = Some F64.c0_8.
Proof.
  intros Ht Hb Htb Hover.
  assert (Heq : make_decision sd sa ph product
                = if F64.gtb (get_flexibility sa) F64.c0_7
                  then (let* x := F64.int_mul t F64.c1_1 in
                        let* y := F64.to_int x in
                        Ok (final_offer_decision (Z.min b y)))
                  else Ok walk_away_decision).
  { unfold make_decision. rewrite Ht, Hb. cbn [default from_option id]. cbv zeta.
    destruct (Z.leb_spec (effective_price sa product) t); [lia | ].
    destruct (Z.leb_spec (effective_price sa product) b); [lia | ].
    reflexivity. }
  split; [ | split; [ | split; reflexivity]].
  - intros Hflex. rewrite Heq, Hflex. split; [reflexivity | ].
    intros Hrange.
    destruct (int_mul_1_1_total t Hrange) as [x [y [Hx Hy]]].
    exists x, y. rewrite Hx. cbn [rbind]. rewrite Hy. cbn [rbind].
    repeat split; reflexivity.
  - intros Hflex. rewrite Heq, Hflex. reflexivity.
Qed.

Lemma over_budget_decision_witness :
  make_decision (demo_session 8000 10000)
    (analysis_with (Some F64.c0_5) (Some 11000)) CLOSING demo_product
  = Ok walk_away_decision.
Proof.
  refine (proj1 (proj2 (over_budget_decision (demo_session 8000 10000)
                          (analysis_with (Some F64.c0_5) (Some 11000))
                          CLOSING demo_product 8000 10000
                          eq_refl eq_refl _ _)) eq_refl).
  - lia.
  - vm_compute. reflexivity.
Defined.

(** C3 as stated fails: with target 8 the product is 8.8, which [int]
    truncates to 8 and [round] takes to 9. *)
Lemma final_offer_not_rounded :
  100 < effective_price (analysis_with (Some F64.c0_9) (Some 200))
          demo_product
  /\ F64.gtb (get_flexibility (analysis_with (Some F64.c0_9) (Some 200)))
       F64.c0_7 = true
  /\ make_decision (demo_session 8 100)
       (analysis_with (Some F64.c0_9) (Some 200)) EXPLORATION demo_product
     = Ok (final_offer_decision 8)
  /\ spec_final_offer 8 100 = Ok 9
  /\ 8 <> 9.
Proof.
  split; [vm_compute; reflexivity | ].
  split; [vm_compute; reflexivity | ].
  split; [vm_compute; reflexivity | ].
  split; [vm_compute; reflexivity | lia].
Qed.

(* ===================================================================== *)
(** ** Phase machine *)

Section Keywords.

Variable k : string.
Hypothesis k_no_space : no_space k = true.

Lemma prefix_app_space : forall (k' a b : string),
  no_space k' = true ->
  String.prefix k' (a ++ String " " b) = String.prefix k' a.
Proof.
  intros k' a. revert k'.
  induction a as [| x a IH]; intros k' b Hk.
  - change (EmptyString ++ String " " b)%string with (String " " b).
    destruct k' as [| c k'']; [reflexivity | ].
    cbn in Hk. apply andb_true_iff in Hk as [Hc _].
    cbn [String.prefix].
    destruct (ascii_dec c " ") as [-> | ]; [discriminate Hc | ].
    reflexivity.
  - change ((String x a) ++ String " " b)%string
      with (String x (a ++ String " " b)).
    destruct k' as [| c k'']; [reflexivity | ].
    cbn in Hk. apply andb_true_iff in Hk as [_ Hk].
    cbn [String.prefix].
    destruct (ascii_dec c x); [apply IH; exact Hk | reflexivity].
Qed.

Hypothesis k_nonempty : k <> EmptyString.

Lemma contains_empty : Str.contains k EmptyString = false.
Proof. destruct k; [contradiction | reflexivity]. Qed.

Lemma contains_app_space (a b : string) :
  Str.contains k (a ++ String " " b)
  = Str.contains k a || Str.contains k b.
Proof.
  induction a as [| x a IH].
  - pose proof (prefix_app_space k EmptyString b k_no_space) as H.
    change (EmptyString ++ String " " b)%string with (String " " b) in *.
    cbn [Str.contains]. rewrite H.
    destruct k as [| c k'']; [contradiction | ]. reflexivity.
  - change ((String x a) ++ String " " b)%string
      with (String x (a ++ String " " b)).
    cbn [Str.contains].
    pose proof (prefix_app_space k (String x a) b k_no_space) as H.
    change ((String x a) ++ String " " b)%string
      with (String x (a ++ String " " b)) in H.
    rewrite H, IH.
    destruct (String.prefix k (String x a)); reflexivity.
Qed.

Lemma contains_join (l : list string) :
  Str.contains k (Str.join " " l) = existsb (Str.contains k) l.
Proof.
  induction l as [| x l IH].
  - apply contains_empty.
  - destruct l as [| y l].
    + cbn. rewrite orb_false_r. reflexivity.
    + change (Str.join " " (x :: y :: l))
        with (x ++ String " " (Str.join " " (y :: l)))%string.
      rewrite contains_app_space, IH. reflexivity.
Qed.

End Keywords.

Lemma plain_keyword_spec k :
  plain_keyword k = true -> no_space k = true /\ k <> EmptyString.
Proof.
  unfold plain_keyword. intros H. apply andb_true_iff in H as [H1 H2].
  split; [exact H1 | ]. intros ->. discriminate H2.
Qed.

Lemma contains_any_join kws l :
  forallb plain_keyword kws = true ->
  Str.contains_any kws (Str.join " " l)
  = existsb (Str.contains_any kws) l.
Proof.
  unfold Str.contains_any. induction kws as [| k kws IH]; intros Hk.
  - cbn. induction l; [reflexivity | cbn; assumption].
  - cbn in Hk. apply andb_true_iff in Hk as [Hk Hks].
    destruct (plain_keyword_spec k Hk) as [H1 H2].
    cbn [existsb]. rewrite (contains_join k H1 H2), (IH Hks).
    clear. induction l as [| x l IHl]; [reflexivity | ].
    cbn [existsb]. rewrite <- IHl.
    destruct (Str.contains k x), (existsb (Str.contains k) l),
      (existsb (fun k0 => Str.contains k0 x) kws); reflexivity.
Qed.

Lemma existsb_over_map {A B} (f : B -> bool) (g : A -> B) (l : list A) :
  existsb f (map g l) = existsb (fun x => f (g x)) l.
Proof.
  induction l as [| x l IH]; [reflexivity | ].
  cbn. rewrite IH. reflexivity.
Qed.

(** C4, as amended: the phase is recomputed from the history by the first
    rule that matches: at most two messages, OPENING; else one of "deal",
    "final", "accept", "agree", "done", "sold" in one of the last three
    messages (lower-cased), CLOSING; else flexibility below 0.2 and more
    than six messages, DEADLOCK; else "price" or the rupee sign in one of
    the last three messages and more than three messages, BARGAINING; else
    EXPLORATION. *)
Theorem phase_by_first_matching_rule chat_history sa :
  _determine_negotiation_phase chat_history sa = phase_rules chat_history sa.
Proof.
  unfold _determine_negotiation_phase, phase_rules, closing_signal.
  destruct (Z.of_nat (length chat_history) <=? 2); [reflexivity | ].
  rewrite contains_any_join by reflexivity.
  rewrite existsb_over_map. reflexivity.
Qed.

(** C4 as stated fails: in a history of three messages the word "last"
    does not make the phase CLOSING. *)
Lemma last_is_not_a_closing_keyword :
  spec_phase [agent_says "hello"; seller_says "hi"; seller_says "my last word"]
    empty_analysis = CLOSING
  /\ _determine_negotiation_phase
       [agent_says "hello"; seller_says "hi"; seller_says "my last word"]
       empty_analysis = EXPLORATION.
Proof. split; vm_compute; reflexivity. Qed.

(* ===================================================================== *)
(** ** Tactic selector *)

Lemma filter_effective_Forall p (l : list NegotiationTactic) :
  Forall (fun t => F64.gtb (effectiveness t p) F64.c0_4 = true)
         (filter (effective p) l).
Proof.
  apply Forall_forall. intros t Ht.
  apply list_elem_of_filter in Ht as [Ht _].
  apply Is_true_true_1 in Ht. exact Ht.
Qed.

Lemma format_offer_primary amount (l : list NegotiationTactic) strategy :
  _format_offer_with_tactic amount l strategy
  = _format_offer_with_tactic amount
      (match head l with Some t => [t] | None => [] end) strategy.
Proof. destruct l; reflexivity. Qed.

(** C9: the selector returns at most three tactics, a subsequence of the
    candidates of the phase in their order, each with effectiveness above
    0.4 for the personality (0.5 where the table has no entry); its first
    element is the first effective candidate and is the primary tactic of
    the offer text. *)
Theorem select_tactics_capped_ordered_effective d sa ph sd :
  let l := select_tactics d sa ph sd in
  let p := default "flexible" (personality sa) in
  (length l <= 3)%nat
  /\ l `sublist_of` candidate_tactics sa ph
  /\ Forall (fun t => F64.gtb (effectiveness t p) F64.c0_4 = true) l
  /\ head l = head (filter (effective p) (candidate_tactics sa ph))
  /\ forall amount strategy,
       _format_offer_with_tactic amount l strategy
       = _format_offer_with_tactic amount
           (match head l with Some t => [t] | None => [] end) strategy.
Proof.
  cbv zeta. unfold select_tactics.
  set (p := default "flexible" (personality sa)).
  set (c := candidate_tactics sa ph).
  repeat split.
  - rewrite length_take. lia.
  - transitivity (filter (effective p) c);
      [apply sublist_take | apply sublist_filter].
  - apply Forall_take, filter_effective_Forall.
  - destruct (filter (effective p) c); reflexivity.
  - intros amount strategy. apply format_offer_primary.
Qed.

(* ===================================================================== *)
(** ** The negotiation turn *)

(** C10: a turn never raises; it returns the result of its body, or, when
    the body raises, the fallback result, whose action is "pause" (not an
    action of the decision vocabulary), with confidence 0.5, no tactics
    and phase "exploration". *)
Theorem turn_absorbs_errors sd seller_message chat_history product g :
  (exists r g',
     process_negotiation_turn sd seller_message chat_history product g
     = (Ok r, g')
     /\ (fst (turn_body sd seller_message chat_history product g) = Ok r
         \/ (exists e,
               fst (turn_body sd seller_message chat_history product g)
               = Raise e)
            /\ r = fallback_turn))
  /\ action (tr_decision fallback_turn) = "pause"
  /\ ~ In "pause" decision_vocabulary
  /\ confidence (tr_decision fallback_turn) = Some F64.c0_5
  /\ tr_confidence fallback_turn = F64.c0_5
  /\ tr_tactics_used fallback_turn = []
  /\ tr_phase fallback_turn = "exploration".
Proof.
  split.
  - unfold process_negotiation_turn.
    destruct (turn_body sd seller_message chat_history product g)
      as [[r | e] g'].
    + exists r, g'. split; [reflexivity | left; reflexivity].
    + exists fallback_turn, g'. split; [reflexivity | ].
      right. split; [exists e; reflexivity | reflexivity].
  - repeat split; try reflexivity.
    cbn. intros H. repeat destruct H as [H | H]; try discriminate H.
    exact H.
Qed.

(** The fallback is reached: at or below the target the decision is
    "accept", the acceptance text cannot be composed, and the turn reports
    "pause". *)
Lemma accept_turn_falls_back :
  fst (turn_body (demo_session 8000 10000) "ok ₹7000" [] demo_product [])
  = Raise acceptance_arity_error
  /\ process_negotiation_turn (demo_session 8000 10000) "ok ₹7000" []
       demo_product []
     = (Ok fallback_turn, []).
Proof. split; vm_compute; reflexivity. Qed.

Lemma turn_body_pipeline sd seller_message chat_history product g r g' :
  turn_body sd seller_message chat_history product g = (Ok r, g') ->
  exists ph,
    analyze_and_decide sd seller_message chat_history product
    = Ok (tr_seller_analysis r, ph, tr_decision r).
Proof.
  unfold turn_body, gbind, glift.
  destruct (analyze_and_decide sd seller_message chat_history product)
    as [[[sa ph] d] | e]; [ | discriminate].
  destruct (generate_strategic_response d (select_tactics d sa ph sd) sa sd
              product g) as [[resp | e] g'']; [ | discriminate].
  unfold gret. intros H. injection H as <- _. exists ph. reflexivity.
Qed.

(** C8: the analysis and the decision of a turn do not depend on the
    random tape that the text composer draws from: two runs on the same
    input agree on the analysis, the action and the offer. *)
Theorem analysis_and_decision_deterministic
    sd seller_message chat_history product g1 g2 r1 r2 g1' g2' :
  turn_body sd seller_message chat_history product g1 = (Ok r1, g1') ->
  turn_body sd seller_message chat_history product g2 = (Ok r2, g2') ->
  tr_seller_analysis r1 = tr_seller_analysis r2
  /\ action (tr_decision r1) = action (tr_decision r2)
  /\ offer (tr_decision r1) = offer (tr_decision r2)
  /\ analyze_seller_message seller_message chat_history sd
     = Ok (tr_seller_analysis r1).
Proof.
  intros H1 H2.
  destruct (turn_body_pipeline _ _ _ _ _ _ _ H1) as [ph1 E1].
  destruct (turn_body_pipeline _ _ _ _ _ _ _ H2) as [ph2 E2].
  rewrite E1 in E2. injection E2 as Hsa _ Hd.
  rewrite Hsa, Hd. repeat split; try reflexivity.
  unfold analyze_and_decide in E1.
  destruct (analyze_seller_message seller_message chat_history sd)
    as [sa | e]; [ | discriminate E1].
  cbn [rbind] in E1.
  destruct (make_decision sd sa _ product); [ | discriminate E1].
  cbn [rbind] in E1. injection E1 as -> _ _. rewrite Hsa. reflexivity.
Qed.

Lemma analysis_and_decision_deterministic_witness :
  action (tr_decision (result_of (closing_run [0%nat])))
  = action (tr_decision (result_of (closing_run [1%nat])))
  /\ tr_response (result_of (closing_run [0%nat]))
     <> tr_response (result_of (closing_run [1%nat])).
Proof.
  split.
  - refine (proj1 (proj2 (analysis_and_decision_deterministic
                            (demo_session 8000 10000) "maybe ₹9000"
                            closing_history demo_product
                            [0%nat] [1%nat]
                            (result_of (closing_run [0%nat]))
                            (result_of (closing_run [1%nat]))
                            (snd (closing_run [0%nat]))
                            (snd (closing_run [1%nat])) _ _)));
      vm_compute; reflexivity.
  - vm_compute. intros H. discriminate H.
Defined.

(* ===================================================================== *)
(** ** Session manager *)

Ltac munfold :=
  unfold mbind', get_session_data, update_session_data, now, uuid4,
    save_session, update_from_session, mret, mlift, mraise, set_active.

Ltac msimpl H :=
  repeat (rewrite ?lookup_alter_eq, ?H;
          cbn [fmap option_fmap option_map
               active_sessions db_sessions learning_data enhanced_ai_service
               clock clock_reads uuid uuid_reads rng decisions_computed]).

Lemma final_metrics_unpriced sd :
  truthy_price (final_price (session sd)) = None ->
  exists fm, calculate_final_metrics sd = Ok fm.
Proof.
  intros H. unfold calculate_final_metrics. rewrite H. eexists. reflexivity.
Qed.

(** What [_complete_session] does to a registered session that carries no
    price yet. *)
Lemma complete_session_effect mg sid sd o :
  active_sessions mg !! sid = Some sd ->
  truthy_price (final_price (session sd)) = None ->
  exists r mg',
    _complete_session sid o mg = (Ok r, mg')
    /\ active_sessions mg' !! sid = None
    /\ db_sessions mg'
       = <[session_id (session sd) :=
             priced_session o
               (closed_session o (clock mg (clock_reads mg)) (session sd))]>
           (db_sessions mg)
    /\ cr_outcome r = outcome_value o
    /\ cr_final_price r
       = final_price
           (priced_session o
              (closed_session o (clock mg (clock_reads mg)) (session sd)))
    /\ decisions_computed mg' = decisions_computed mg.
Proof.
  intros H Hp. destruct mg as [act db ld ai clk cr uu ur rg dc].
  cbn [active_sessions db_sessions clock clock_reads decisions_computed] in *.
  unfold _complete_session. munfold. msimpl H.
  destruct (final_metrics_unpriced
              (with_session (set_ended_at (clk cr))
                 (with_session (set_outcome (outcome_value o))
                    (with_session (set_status (status_value COMPLETED)) sd))))
    as [fm ->]; [exact Hp | ].
  unfold priced_session.
  destruct (outcome_eqb o SUCCESS); msimpl H.
  - eexists. eexists. split; [reflexivity | ].
    cbn [active_sessions db_sessions decisions_computed cr_outcome
         cr_final_price].
    split; [apply lookup_delete_eq | ].
    repeat split; reflexivity.
  - eexists. eexists. split; [reflexivity | ].
    cbn [active_sessions db_sessions decisions_computed cr_outcome
         cr_final_price].
    split; [apply lookup_delete_eq | ].
    repeat split; reflexivity.
Qed.

Lemma action_is_eq a s : a = Some s -> action_is a s = true.
Proof. intros ->. cbn. apply String.eqb_refl. Qed.

(** C5, as amended: the completion scan gives SUCCESS for the action
    "accept", FAILED_PRICE for "walk_away" and for "final_offer" with
    confidence below 0.3, and otherwise SELLER_UNRESPONSIVE exactly when the
    session holds more than 20 messages; "accept_with_conditions" is among
    the otherwise.  A session for which the scan gives an outcome is
    completed with that outcome and leaves the registry. *)
Theorem completion_scan_outcomes sd nr :
  let a := decision_action nr in
  let n := Z.of_nat (length (messages (session sd))) in
  (a = Some "accept" ->
     _check_completion_conditions sd nr = Some SUCCESS)
  /\ (a = Some "walk_away" ->
      _check_completion_conditions sd nr = Some FAILED_PRICE)
  /\ (a = Some "final_offer" ->
      F64.ltb (decision_confidence nr) F64.c0_3 = true ->
      _check_completion_conditions sd nr = Some FAILED_PRICE)
  /\ (resolved nr = false -> 20 < n ->
      _check_completion_conditions sd nr = Some SELLER_UNRESPONSIVE)
  /\ (resolved nr = false -> n <= 20 ->
      _check_completion_conditions sd nr = None)
  /\ (a = Some "accept_with_conditions" -> resolved nr = false)
  /\ (forall mg sid o,
        active_sessions mg !! sid = Some sd ->
        truthy_price (final_price (session sd)) = None ->
        _check_completion_conditions sd nr = Some o ->
        exists r mg' s',
          _complete_session sid o mg = (Ok r, mg')
          /\ active_sessions mg' !! sid = None
          /\ cr_outcome r = outcome_value o
          /\ db_sessions mg' !! session_id (session sd) = Some s'
          /\ status s' = status_value COMPLETED
          /\ outcome s' = Some (outcome_value o)).
Proof.
  cbv zeta. unfold _check_completion_conditions, resolved.
  repeat split.
  - intros Ha. rewrite (action_is_eq _ _ Ha). reflexivity.
  - intros Ha. rewrite Ha. reflexivity.
  - intros Ha Hc. rewrite Ha, Hc. reflexivity.
  - intros Hr Hn.
    destruct (action_is (decision_action nr) "accept"); [discriminate Hr | ].
    destruct (action_is (decision_action nr) "walk_away");
      [discriminate Hr | ].
    cbn [orb] in Hr. rewrite Hr.
    destruct (Z.ltb_spec 20 (Z.of_nat (length (messages (session sd)))));
      [reflexivity | lia].
  - intros Hr Hn.
    destruct (action_is (decision_action nr) "accept"); [discriminate Hr | ].
    destruct (action_is (decision_action nr) "walk_away");
      [discriminate Hr | ].
    cbn [orb] in Hr. rewrite Hr.
    destruct (Z.ltb_spec 20 (Z.of_nat (length (messages (session sd)))));
      [lia | reflexivity].
  - intros Ha. rewrite Ha. reflexivity.
  - intros mg sid o Hl Hp _.
    destruct (complete_session_effect mg sid sd o Hl Hp)
      as [r [mg' [Hc [Ha [Hdb [Ho _]]]]]].
    exists r, mg',
      (priced_session o
         (closed_session o (clock mg (clock_reads mg)) (session sd))).
    split; [exact Hc | ]. split; [exact Ha | ]. split; [exact Ho | ].
    split; [rewrite Hdb; apply lookup_insert_eq | ].
    unfold priced_session. destruct (outcome_eqb o SUCCESS);
      split; reflexivity.
Qed.

Lemma completion_scan_outcomes_witness :
  _check_completion_conditions (demo_negotiation offer_on_record)
    (result_with_action "walk_away" (Some F64.c0_8))
  = Some FAILED_PRICE
  /\ exists r mg' s',
       _complete_session "s1" FAILED_PRICE (demo_manager None offer_on_record)
       = (Ok r, mg')
       /\ active_sessions mg' !! "s1" = None
       /\ cr_outcome r = outcome_value FAILED_PRICE
       /\ db_sessions mg' !! "s1" = Some s'
       /\ status s' = status_value COMPLETED
       /\ outcome s' = Some (outcome_value FAILED_PRICE).
Proof.
  pose proof (completion_scan_outcomes (demo_negotiation offer_on_record)
                (result_with_action "walk_away" (Some F64.c0_8))) as H.
  cbv zeta in H.
  destruct H as [_ [Hw [_ [_ [_ [_ Hc]]]]]].
  split; [exact (Hw eq_refl) | ].
  exact (Hc (demo_manager None offer_on_record) "s1" FAILED_PRICE
            eq_refl eq_refl (Hw eq_refl)).
Defined.

(** C5 as stated fails: the scan does not end the session on the action
    "accept_with_conditions". *)
Lemma accept_with_conditions_continues :
  decision_action (result_with_action "accept_with_conditions"
                     (Some F64.c0_6))
  = Some "accept_with_conditions"
  /\ _check_completion_conditions (demo_negotiation offer_on_record)
       (result_with_action "accept_with_conditions" (Some F64.c0_6))
     = None.
Proof. split; reflexivity. Qed.

(* ===================================================================== *)
(** ** The final price *)

Lemma outcome_eqb_success o : outcome_eqb o SUCCESS = true <-> o = SUCCESS.
Proof. destruct o; cbn; split; intros H; try reflexivity; discriminate H. Qed.

Lemma final_price_scan_head m rest :
  final_price_scan (m :: rest)
  = match agreed_price m with
    | Some p => Some p
    | None => final_price_scan rest
    end.
Proof.
  cbn [final_price_scan]. unfold agreed_price, _extract_recent_prices.
  cbn [flat_map]. rewrite app_nil_r.
  destruct (String.eqb (sender m) "ai"
            && Str.contains_any accept_words (Str.lower (content m)));
    reflexivity.
Qed.

Lemma extract_final_agreed_price_last msgs m :
  _extract_final_agreed_price (msgs ++ [m])
  = match agreed_price m with
    | Some p => Some p
    | None => _extract_final_agreed_price msgs
    end.
Proof.
  unfold _extract_final_agreed_price. rewrite rev_app_distr.
  cbn [rev app]. apply final_price_scan_head.
Qed.

(** C7, as amended: completing a session that carries no price yet with
    outcome SUCCESS stores as final price the result of the scan of its
    messages, newest first, for an agent message that contains "accept",
    "deal" or "agree" and names a rupee price (the last price of that
    message; nothing when there is none); with any other outcome the
    final price stays unset. *)
Theorem final_price_on_completion mg sid sd o :
  active_sessions mg !! sid = Some sd ->
  final_price (session sd) = None ->
  (exists r mg' s',
     _complete_session sid o mg = (Ok r, mg')
     /\ db_sessions mg' !! session_id (session sd) = Some s'
     /\ cr_final_price r = final_price s'
     /\ (o = SUCCESS ->
         final_price s'
         = _extract_final_agreed_price (messages (session sd)))
     /\ (o <> SUCCESS -> final_price s' = None))
  /\ _extract_final_agreed_price [] = None
  /\ forall msgs m,
       _extract_final_agreed_price (msgs ++ [m])
       = match agreed_price m with
         | Some p => Some p
         | None => _extract_final_agreed_price msgs
         end.
Proof.
  intros Hl Hp. split; [ | split; [reflexivity | ]].
  - destruct (complete_session_effect mg sid sd o Hl) as
      [r [mg' [Hc [_ [Hdb [_ [Hf _]]]]]]].
    { rewrite Hp. reflexivity. }
    exists r, mg',
      (priced_session o
         (closed_session o (clock mg (clock_reads mg)) (session sd))).
    split; [exact Hc | ].
    split; [rewrite Hdb; apply lookup_insert_eq | ].
    split; [exact Hf | ].
    unfold priced_session.
    destruct (outcome_eqb o SUCCESS) eqn:Eo.
    + split; [intros _; reflexivity | ].
      intros Hne. apply outcome_eqb_success in Eo. contradiction.
    + split.
      * intros Ho. apply outcome_eqb_success in Ho. congruence.
      * intros _. exact Hp.
  - intros msgs m. apply extract_final_agreed_price_last.
Qed.

Lemma final_price_on_completion_witness :
  exists r mg' s',
    _complete_session "s1" SUCCESS
      (demo_manager None
         [agent_says "₹8,500 and we have a deal. I'll bring cash."])
    = (Ok r, mg')
    /\ db_sessions mg' !! "s1" = Some s'
    /\ cr_final_price r = final_price s'
    /\ final_price s' = Some 8500.
Proof.
  destruct (final_price_on_completion
              (demo_manager None
                 [agent_says "₹8,500 and we have a deal. I'll bring cash."])
              "s1"
              (demo_negotiation
                 [agent_says "₹8,500 and we have a deal. I'll bring cash."])
              SUCCESS eq_refl eq_refl)
    as [[r [mg' [s' [Hc [Hdb [Hr [Hs _]]]]]]] _].
  exists r, mg', s'. split; [exact Hc | ]. split; [exact Hdb | ].
  split; [exact Hr | ]. rewrite (Hs eq_refl). vm_compute. reflexivity.
Defined.

(** C7 as stated fails: the agent offers 8500, the seller replies "okay
    deal", the AI service accepts in a message that names no price: the
    session completes with outcome SUCCESS and no final price. *)
Lemma success_without_final_price :
  _extract_recent_prices offer_on_record = [8500]
  /\ cr_outcome
       <$> completion_of
             (process_seller_response "s1" "okay deal"
                (demo_manager (Some accepting_service) offer_on_record))
     = Some "success"
  /\ cr_final_price
       <$> completion_of
             (process_seller_response "s1" "okay deal"
                (demo_manager (Some accepting_service) offer_on_record))
     = Some None.
Proof. repeat split; vm_compute; reflexivity. Qed.

(* ===================================================================== *)
(** ** Human handoff *)





(** Without the handoff the same session computes a decision. *)
Lemma ordinary_turn_computes_a_decision :
  decisions_computed
    (snd (process_seller_response "s1" "maybe ₹9000"
            (demo_manager None offer_on_record)))
  = 1%nat.
Proof. vm_compute. reflexivity. Qed.


(* ===================================================================== *)
(** * Further properties *)

(** ** What the engine decides *)

Lemma make_decision_vocabulary sd sa ph product d :
  make_decision sd sa ph product = Ok d ->
  In (action d) decision_vocabulary.
Proof.
  unfold make_decision. cbv zeta.
  destruct (_ <=? default 0 (sd_target_price sd)).
  { intros H. injection H as <-. cbn. tauto. }
  destruct (_ <=? default 0 (sd_max_budget sd)).
  - destruct (F64.gtb (get_flexibility sa) F64.c0_6).
    + destruct (_calculate_counter_offer _ _ sa ph); [ | discriminate].
      cbn [rbind]. intros H. injection H as <-. cbn. tauto.
    + destruct (F64.int_mul _ F64.c0_95); [ | discriminate].
      cbn [rbind]. destruct (F64.Z_ltb _ _);
        intros H; injection H as <-; cbn; tauto.
  - destruct (F64.gtb (get_flexibility sa) F64.c0_7).
    + destruct (F64.int_mul _ F64.c1_1) as [x | ]; [ | discriminate].
      cbn [rbind]. destruct (F64.to_int x); [ | discriminate].
      cbn [rbind]. intros H. injection H as <-. cbn. tauto.
    + intros H. injection H as <-. cbn. tauto.
Qed.

Lemma accept_text_raises d tactics sa sd product g :
  action d = "accept" ->
  fst (generate_strategic_response d tactics sa sd product g)
  = Raise acceptance_arity_error.
Proof.
  intros H. unfold generate_strategic_response. rewrite H. reflexivity.
Qed.

(** X1: a turn of the engine never reports the action "accept": the
    acceptance text cannot be composed, so an accept decision surfaces as
    the fallback "pause".  The completion scan therefore never gives
    SUCCESS on the result of an engine turn. *)
Theorem engine_turn_never_accepts sd seller_message chat_history product g sdm :
  In (action (tr_decision
                (result_of (process_negotiation_turn sd seller_message
                              chat_history product g))))
     turn_actions
  /\ (let scan :=
        _check_completion_conditions sdm
          (of_turn (result_of (process_negotiation_turn sd seller_message
                                 chat_history product g))) in
      scan = None \/ scan = Some FAILED_PRICE
      \/ scan = Some SELLER_UNRESPONSIVE).
Proof.
  assert (Hact : In (action (tr_decision
                    (result_of (process_negotiation_turn sd seller_message
                                  chat_history product g)))) turn_actions).
  { unfold process_negotiation_turn, turn_body, gbind, glift.
    destruct (analyze_and_decide sd seller_message chat_history product)
      as [[[sa ph] d] | e] eqn:Ead; [ | cbn; tauto].
    pose proof (accept_text_raises d (select_tactics d sa ph sd) sa sd
                  product g) as Hraise.
    destruct (generate_strategic_response d (select_tactics d sa ph sd) sa sd
                product g) as [[resp | e] g']; [ | cbn; tauto].
    unfold result_of. cbn [fst gret tr_decision].
    unfold analyze_and_decide in Ead.
    destruct (analyze_seller_message seller_message chat_history sd)
      as [sa' | ]; [ | discriminate Ead].
    cbn [rbind] in Ead.
    destruct (make_decision sd sa' _ product) as [d' | ] eqn:Ed;
      [ | discriminate Ead].
    cbn [rbind] in Ead. injection Ead as -> _ ->.
    pose proof (make_decision_vocabulary _ _ _ _ _ Ed) as Hv.
    cbn in Hv. cbn.
    destruct Hv as [Hv | Hv]; [ | tauto].
    symmetry in Hv. specialize (Hraise Hv). discriminate Hraise. }
  split; [exact Hact | ].
  cbv zeta. unfold _check_completion_conditions, decision_action, of_turn.
  cbn [nr_decision].
  set (a := action (tr_decision _)) in *. clearbody a.
  unfold decision_confidence. cbn [nr_decision].
  cbn in Hact.
  destruct (20 <? _);
    repeat (destruct Hact as [<- | Hact];
            [cbn; try tauto; destruct (F64.ltb _ _); tauto | ]);
    destruct Hact.
Qed.

(** X2: the dictionary that the session manager hands to the engine has no
    ['target_price'] and no ['max_budget'] entry, so the engine decides
    with both read as 0: against any positive price it walks away, or,
    above flexibility 0.7, makes a final offer of 0. *)
Theorem manager_flow_decides_against_zero sdm sa ph product :
  0 < effective_price sa product ->
  make_decision (engine_view sdm) sa ph product
  = Ok (if F64.gtb (get_flexibility sa) F64.c0_7
        then final_offer_decision 0
        else walk_away_decision).
Proof.
  intros Hp. unfold make_decision, engine_view.
  cbn [sd_target_price sd_max_budget default from_option id]. cbv zeta.
  destruct (Z.leb_spec (effective_price sa product) 0); [lia | ].
  destruct (F64.gtb (get_flexibility sa) F64.c0_7); reflexivity.
Qed.

Lemma manager_flow_decides_against_zero_witness :
  make_decision (engine_view (demo_negotiation offer_on_record))
    (analysis_with (Some F64.c0_9) (Some 9000)) BARGAINING demo_product
  = Ok (final_offer_decision 0).
Proof.
  refine (manager_flow_decides_against_zero
            (demo_negotiation offer_on_record)
            (analysis_with (Some F64.c0_9) (Some 9000)) BARGAINING
            demo_product _).
  vm_compute. reflexivity.
Defined.

(* ===================================================================== *)
(** ** The flexibility score *)

Lemma count_in_bounds words s :
  0 <= Str.count_in words s <= Z.of_nat (length words).
Proof.
  unfold Str.count_in.
  pose proof (length_filter (fun w => Is_true (Str.contains w s)) words).
  lia.
Qed.

Lemma assess_flexibility_counts message chat_history :
  _assess_flexibility message chat_history
  = flex_of (Str.count_in Kw.flex_high message)
      (Str.count_in Kw.flex_low message).
Proof. reflexivity. Qed.

Ltac split_0_6 h H :=
  assert (h = 0 \/ h = 1 \/ h = 2 \/ h = 3 \/ h = 4 \/ h = 5 \/ h = 6)
    as [-> | [-> | [-> | [-> | [-> | [-> | ->]]]]]] by lia; clear H.

Lemma flex_of_thresholds h l :
  0 <= h <= 6 -> 0 <= l <= 6 ->
  F64.gtb (flex_of h l) F64.c0_6 = (3 * l + 1 <=? 2 * h)
  /\ F64.gtb (flex_of h l) F64.c0_7
     = ((3 * l + 2 <? 2 * h) || ((h =? 4) && (l =? 2)))
  /\ F64.ltb (flex_of h l) F64.c0_2 = (2 * h + 3 <? 3 * l)
  /\ F64.ltb (flex_of h l) F64.c0_0 = false
  /\ F64.gtb (flex_of h l) F64.c1_0 = false.
Proof.
  intros Hh Hl. split_0_6 h Hh; split_0_6 l Hl; vm_compute; tauto.
Qed.

(** X3: with h the number of high-flexibility keywords and l the number of
    low-flexibility keywords in the message, the score is between 0 and 1,
    exceeds 0.6 exactly when 2h >= 3l + 1, is below 0.2 exactly when
    3l > 2h + 3, and exceeds 0.7 exactly when 2h > 3l + 2 or (h, l) is
    (4, 2): in binary64 the ties of the first threshold, and the tie (4, 2)
    of the second, land above it. *)
Theorem flexibility_thresholds message chat_history :
  let h := Str.count_in Kw.flex_high message in
  let l := Str.count_in Kw.flex_low message in
  let f := _assess_flexibility message chat_history in
  F64.gtb f F64.c0_6 = (3 * l + 1 <=? 2 * h)
  /\ F64.gtb f F64.c0_7 = ((3 * l + 2 <? 2 * h) || ((h =? 4) && (l =? 2)))
  /\ F64.ltb f F64.c0_2 = (2 * h + 3 <? 3 * l)
  /\ F64.ltb f F64.c0_0 = false
  /\ F64.gtb f F64.c1_0 = false.
Proof.
  cbv zeta. rewrite assess_flexibility_counts.
  apply flex_of_thresholds; apply count_in_bounds.
Qed.

(* ===================================================================== *)
(** ** Prices in text: the price pattern and the thousands format *)

(** *** Decimal numerals *)

Lemma chars_revapp d acc :
  list_ascii_of_string (NilEmpty.string_of_uint (Decimal.revapp d acc))
  = rev (list_ascii_of_string (NilEmpty.string_of_uint d))
    ++ list_ascii_of_string (NilEmpty.string_of_uint acc).
Proof.
  revert acc. induction d; intros acc; cbn [Decimal.revapp];
    [reflexivity | rewrite IHd; cbn; rewrite <- app_assoc; reflexivity ..].
Qed.

Lemma uint_chars_digits d :
  Forall (fun c => Str.is_digit c = true)
    (list_ascii_of_string (NilEmpty.string_of_uint d)).
Proof. induction d; cbn; constructor; auto. Qed.

Lemma digits_value_of_lu d :
  digits_value (list_ascii_of_string (NilEmpty.string_of_uint d))
  = Z.of_N (DecimalPos.Unsigned.of_lu d).
Proof.
  induction d;
    cbn [NilEmpty.string_of_uint list_ascii_of_string digits_value fold_right];
    [reflexivity
    | fold (digits_value (list_ascii_of_string (NilEmpty.string_of_uint d)));
      rewrite DecimalPos.Unsigned.of_lu_eqn;
      cbn [DecimalPos.Unsigned.hd DecimalPos.Unsigned.tl];
      rewrite N2Z.inj_add, N2Z.inj_mul, IHd; reflexivity ..].
Qed.

Lemma decimal_digits_value (m : N) :
  digits_value
    (rev (list_ascii_of_string (NilEmpty.string_of_uint (N.to_uint m))))
  = Z.of_N m.
Proof.
  pose proof (chars_revapp (N.to_uint m) Decimal.Nil) as H.
  cbn [NilEmpty.string_of_uint list_ascii_of_string] in H.
  rewrite app_nil_r in H. rewrite <- H.
  rewrite digits_value_of_lu.
  change (Decimal.revapp (N.to_uint m) Decimal.Nil)
    with (Decimal.rev (N.to_uint m)).
  rewrite <- DecimalPos.Unsigned.of_uint_alt.
  change (Pos.of_uint (N.to_uint m)) with (N.of_uint (N.to_uint m)).
  now rewrite DecimalN.Unsigned.of_to.
Qed.

Lemma decimal_digits_nonempty (m : N) :
  list_ascii_of_string (NilEmpty.string_of_uint (N.to_uint m)) <> [].
Proof.
  destruct m as [|p]; [discriminate|].
  cbn [N.to_uint]. pose proof (DecimalPos.Unsigned.to_uint_nonnil p).
  destruct (Pos.to_uint p); [congruence | discriminate ..].
Qed.

(** *** Code points of ASCII bytes *)

Lemma decimal_range cp d :
  Str.decimal cp = Some d -> 0 <= d <= 9.
Proof.
  unfold Str.decimal.
  destruct (find _ Str.digit_zeros) as [z | ] eqn:E; [ | discriminate].
  intros H. injection H as <-.
  apply find_some in E as [_ E].
  apply andb_true_iff in E as [E1 E2].
  apply Z.leb_le in E1. apply Z.ltb_lt in E2. lia.
Qed.

Lemma find_run_above n (l : list Z) :
  forallb (fun z => n <? z) l = true ->
  find (fun z => (z <=? n) && (n <? z + 10)) l = None.
Proof.
  induction l as [|z l IH]; [reflexivity | ].
  cbn [forallb find]. intros H. apply andb_true_iff in H as [H1 H2].
  apply Z.ltb_lt in H1.
  replace (z <=? n) with false by (symmetry; apply Z.leb_gt; lia).
  cbn [andb]. apply IH. exact H2.
Qed.

Lemma forallb_above n m (l : list Z) :
  n <= m -> forallb (fun z => m <? z) l = true ->
  forallb (fun z => n <? z) l = true.
Proof.
  intros Hn H. apply forallb_forall. intros z Hz.
  rewrite forallb_forall in H. specialize (H z Hz).
  apply Z.ltb_lt in H. apply Z.ltb_lt. lia.
Qed.

Lemma decimal_below n :
  n < 1632 ->
  Str.decimal n = if (48 <=? n) && (n <? 58) then Some (n - 48) else None.
Proof.
  intros Hn. unfold Str.decimal.
  change Str.digit_zeros with (48 :: tl Str.digit_zeros).
  cbn [find]. change (48 + 10) with 58.
  destruct ((48 <=? n) && (n <? 58)); [reflexivity | ].
  rewrite find_run_above; [reflexivity | ].
  apply (forallb_above n 1631); [lia | ].
  vm_compute. reflexivity.
Qed.

Lemma space_outside n :
  32 < n < 133 -> Str.is_space n = false.
Proof.
  intros Hn. unfold Str.is_space, Str.space_points. cbn [existsb].
  repeat match goal with
  | |- context [n =? ?k] =>
      replace (n =? k) with false by (symmetry; apply Z.eqb_neq; lia);
      cbn [orb]
  end.
  reflexivity.
Qed.

Lemma digit_code c :
  Str.is_digit c = true ->
  48 <= code c <= 57 /\ Str.digit_value c = code c - 48.
Proof.
  unfold Str.is_digit, Str.digit_value, code. cbv zeta. intros H.
  apply andb_true_iff in H as [H1 H2].
  apply Nat.leb_le in H1. apply Nat.leb_le in H2. lia.
Qed.

Lemma digit_point c :
  Str.is_digit c = true ->
  Str.decimal (code c) = Some (Str.digit_value c)
  /\ Str.is_space (code c) = false
  /\ (code c =? Str.comma_point) = false
  /\ (code c =? Str.rupee_point) = false.
Proof.
  intros H. destruct (digit_code c H) as [Hr Hv].
  split; [ | split; [ | split]].
  - rewrite decimal_below by lia.
    replace ((48 <=? code c) && (code c <? 58)) with true
      by (symmetry; apply andb_true_iff; split;
          [apply Z.leb_le | apply Z.ltb_lt]; lia).
    now rewrite Hv.
  - apply space_outside. lia.
  - apply Z.eqb_neq. unfold Str.comma_point. lia.
  - apply Z.eqb_neq. unfold Str.rupee_point. lia.
Qed.

(** *** The decoder *)

Lemma decode_ascii (l : list ascii) (t : string) :
  Forall (fun c => ascii_byte c = true) l ->
  Str.decode (string_of_list_ascii l +:+ t) = map code l ++ Str.decode t.
Proof.
  induction 1 as [|c l Hc Hl IH]; [reflexivity | ].
  change (string_of_list_ascii (c :: l) +:+ t)%string
    with (String c (string_of_list_ascii l +:+ t)).
  unfold Str.decode in *. cbn [Str.decode_from Str.dec_step map].
  unfold Str.dec_first. fold (code c).
  unfold ascii_byte in Hc. apply Nat.ltb_lt in Hc.
  replace (code c <? 128) with true
    by (symmetry; apply Z.ltb_lt; unfold code; lia).
  cbn [app]. now rewrite IH.
Qed.

(** A text that starts with a whole character decodes by itself after
    any text. *)
Lemma decode_from_app st a c b :
  continuation (code c) = false ->
  Str.decode_from st (a +:+ String c b)
  = Str.decode_from st a ++ Str.decode (String c b).
Proof.
  intros Hc. revert st. induction a as [|x a IH]; intros st.
  - change ("" +:+ String c b)%string with (String c b).
    destruct st as [|k acc len]; [reflexivity | ].
    unfold Str.decode.
    cbn [Str.decode_from Str.dec_step]. fold (code c).
    unfold continuation in Hc. rewrite Hc.
    destruct (Str.dec_first (code c)) as [o st']. reflexivity.
  - change (String x a +:+ String c b)%string
      with (String x (a +:+ String c b)).
    cbn [Str.decode_from].
    destruct (Str.dec_step st (Z.of_nat (nat_of_ascii x))) as [o st'].
    now rewrite IH, app_assoc.
Qed.

Lemma decode_sign (t : string) :
  Str.decode (Str.rupee +:+ t) = Str.rupee_point :: Str.decode t.
Proof. reflexivity. Qed.

Lemma contains_tail needle c r :
  Str.contains needle (String c r) = false -> Str.contains needle r = false.
Proof.
  cbn [Str.contains]. destruct (String.prefix needle (String c r)); auto.
  discriminate.
Qed.

Lemma sign_after_pending r :
  Str.contains Str.rupee
    (String (ascii_of_nat 226)
       (String (ascii_of_nat 130) (String (ascii_of_nat 185) r))) = true.
Proof. destruct r; reflexivity. Qed.

Lemma code_inj c n :
  code c = Z.of_nat n -> c = ascii_of_nat n.
Proof.
  unfold code. intros H. apply Nat2Z.inj in H. rewrite <- H.
  symmetry. apply ascii_nat_embedding.
Qed.

Lemma contains_drop needle (a b : string) :
  Str.contains needle (a +:+ b) = false -> Str.contains needle b = false.
Proof.
  induction a as [|x a IH]; [auto | ].
  change (String x a +:+ b)%string with (String x (a +:+ b)).
  intros H. apply contains_tail in H. auto.
Qed.

Lemma code_range c : 0 <= code c < 256.
Proof. unfold code. pose proof (nat_ascii_bounded c). lia. Qed.

Lemma dec_first_sign c r o st' :
  Str.contains Str.rupee (String c r) = false ->
  Str.dec_first (code c) = (o, st') ->
  ~ In Str.rupee_point o /\ framed st'
  /\ Str.contains Str.rupee (pending st' +:+ r) = false.
Proof.
  intros Hc. pose proof (contains_tail _ _ _ Hc) as Hr.
  pose proof (code_range c) as Hb.
  unfold Str.dec_first, Str.rupee_point.
  repeat match goal with
  | |- context [if ?b then _ else _] => destruct b eqn:?
  end;
    intros H; injection H as <- <-; cbn [In framed pending];
    (split; [ | split]); try tauto; try (intros [? | []]; lia);
    try exact Hr; try (unfold Str.replacement; lia).
  cbn [Nat.eqb andb].
  destruct (code c - 224 =? 2) eqn:E; [ | exact Hr].
  apply Z.eqb_eq in E.
  assert (c = ascii_of_nat 226) as <- by (apply code_inj; lia).
  exact Hc.
Qed.

Lemma dec_step_sign st c r o st' :
  framed st ->
  Str.contains Str.rupee (pending st +:+ String c r) = false ->
  Str.dec_step st (code c) = (o, st') ->
  ~ In Str.rupee_point o /\ framed st'
  /\ Str.contains Str.rupee (pending st' +:+ r) = false.
Proof.
  intros Hf Hc. pose proof (contains_drop _ _ _ Hc) as Hcr.
  pose proof (contains_tail _ _ _ Hcr) as Hr.
  pose proof (code_range c) as Hb.
  destruct st as [|k acc len]; [apply dec_first_sign; exact Hc | ].
  cbn [Str.dec_step].
  destruct ((128 <=? code c) && (code c <? 192)) eqn:Econt.
  - apply andb_true_iff in Econt as [E1 E2].
    apply Z.leb_le in E1. apply Z.ltb_lt in E2.
    destruct k as [|[|k']].
    + intros H. injection H as <- <-. cbn [framed pending].
      split; [ | split; [exact I | exact Hr]].
      destruct len; cbn [framed] in Hf; [ | lia | ];
        unfold Str.in_range, Str.rupee_point, Str.replacement;
        intros [H | []];
        repeat match type of H with
        | context [if ?b then _ else _] => destruct b eqn:?
        end; lia.
    + intros H. injection H as <- <-. cbn [framed pending].
      split; [ | split; [exact I | exact Hr]].
      destruct len;
        unfold Str.in_range, Str.rupee_point, Str.replacement;
        intros [H | []];
        match type of H with
        | context [if ?b then _ else _] => destruct b eqn:Eb
        end; try lia.
      cbn [pending Nat.eqb andb] in Hc.
      assert (acc = 130 /\ code c = 185) as [-> Hc185] by lia.
      assert (c = ascii_of_nat 185) as -> by (apply code_inj; lia).
      change (Str.contains Str.rupee
                (String (ascii_of_nat 226)
                   (String (ascii_of_nat 130)
                      (String (ascii_of_nat 185) r))) = false) in Hc.
      rewrite sign_after_pending in Hc. discriminate Hc.
    + intros H. injection H as <- <-. split; [tauto | ].
      destruct len; cbn [framed pending] in *; try (split; [exact I | exact Hr]).
      assert (k' = 0%nat) as -> by lia.
      split; [now left | ].
      cbn [Nat.eqb andb] in *.
      destruct (64 * acc + (code c - 128) =? 130) eqn:E; [ | exact Hr].
      apply Z.eqb_eq in E.
      assert (acc = 2 /\ code c = 130) as [-> Hc130] by lia.
      assert (c = ascii_of_nat 130) as -> by (apply code_inj; lia).
      exact Hc.
  - destruct (Str.dec_first (code c)) as [o1 st1] eqn:E1.
    intros H. injection H as <- <-.
    destruct (dec_first_sign c r o1 st1 Hcr E1) as (Ho & Hf1 & Hc1).
    split; [ | split; assumption].
    intros [H | H]; [unfold Str.replacement, Str.rupee_point in H; lia | tauto].
Qed.

Lemma decode_without_sign s : forall st,
  framed st ->
  Str.contains Str.rupee (pending st +:+ s) = false ->
  ~ In Str.rupee_point (Str.decode_from st s).
Proof.
  induction s as [|c r IH]; intros st Hf Hc.
  - destruct st; cbn [Str.decode_from In];
      unfold Str.replacement, Str.rupee_point; [tauto | intros [? | []]; lia].
  - cbn [Str.decode_from]. fold (code c).
    destruct (Str.dec_step st (code c)) as [o st'] eqn:E.
    destruct (dec_step_sign st c r o st' Hf Hc E) as (Ho & Hf' & Hc').
    intros H. apply in_app_or in H as [H | H]; [tauto | ].
    exact (IH st' Hf' Hc' H).
Qed.

(** *** The scan over code points *)

Lemma restart_other cp : cp <> Str.rupee_point -> restart cp = Idle.
Proof.
  intros H. unfold restart.
  now replace (cp =? Str.rupee_point) with false
    by (symmetry; apply Z.eqb_neq; exact H).
Qed.

(** Outside a match, code points other than the rupee sign yield
    nothing. *)
Lemma scan_without_sign l :
  ~ In Str.rupee_point l -> scan Idle l = [].
Proof.
  induction l as [|cp r IH]; [reflexivity | ].
  cbn [In scan]. intros H.
  rewrite restart_other by (intros ->; tauto). apply IH. tauto.
Qed.

Lemma scan_to_sign l y :
  ~ In Str.rupee_point l ->
  scan Idle (l ++ Str.rupee_point :: y) = scan Skip y.
Proof.
  induction l as [|cp r IH]; [reflexivity | ].
  cbn [In scan app]. intros H.
  rewrite restart_other by (intros ->; tauto). apply IH. tauto.
Qed.

Lemma scan_digit st c r :
  Str.is_digit c = true ->
  scan st (code c :: r)
  = scan (match st with
          | Idle => Idle
          | Skip => Num (Str.digit_value c) 1
          | Num v k | NumComma v k =>
              Num (10 * v + Str.digit_value c) (k + 1)
          end) r.
Proof.
  intros Hd. destruct (digit_point c Hd) as (Hv & Hs & Hc & Hr).
  destruct st; cbn [scan]; unfold restart; rewrite ?Hs, ?Hc, ?Hv, ?Hr;
    reflexivity.
Qed.

Lemma scan_comma v k r :
  scan (Num v k) (Str.comma_point :: r) = scan (NumComma v k) r.
Proof. reflexivity. Qed.

(** Reading a grouped numeral: the state after the sign and the grouped
    digits holds the number and the count of its digits. *)
Lemma scan_grouped r : forall k t,
  Forall (fun c => Str.is_digit c = true) r ->
  (k = 3%nat ->
   exists d t', t = code d :: t' /\ Str.is_digit d = true) ->
  scan Skip (map code (rev (group3 k r)) ++ t)
  = match r with
    | [] => scan Skip t
    | _ => scan (Num (digits_value r) (Z.of_nat (length r))) t
    end.
Proof.
  induction r as [|c r IH]; intros k t Hall Hk; [reflexivity|].
  inversion Hall as [|c' r' Hc Hr]; subst.
  assert (Hstep : forall k' t',
    scan Skip (map code (rev (group3 k' r)) ++ code c :: t')
    = scan (Num (digits_value (c :: r)) (Z.of_nat (length (c :: r)))) t').
  { intros k' t'. rewrite IH; [| assumption | intros _; eauto].
    destruct r as [|c2 r2]; rewrite scan_digit by auto.
    - f_equal. f_equal. unfold digits_value. cbn [fold_right]. lia.
    - f_equal. f_equal; [ | cbn [length]; lia].
      unfold digits_value. cbn [fold_right]. lia. }
  destruct (Nat.eq_dec k 3%nat) as [-> | Hne].
  - cbn [group3 rev]. rewrite map_app, map_app, <- !app_assoc.
    cbn [map app]. rewrite Hstep.
    destruct (Hk eq_refl) as (d & t' & -> & Hd).
    change (code ","%char) with Str.comma_point.
    rewrite scan_comma. now rewrite !scan_digit by exact Hd.
  - assert (group3 k (c :: r) = c :: group3 (S k) r) as ->.
    { destruct k as [|[|[|[|k]]]]; try reflexivity. congruence. }
    cbn [rev]. rewrite map_app, <- app_assoc. cbn [map app].
    apply Hstep.
Qed.

Lemma decode_ascii_cons c r :
  ascii_byte c = true -> Str.decode (String c r) = code c :: Str.decode r.
Proof.
  intros H.
  apply (decode_ascii [c] r). repeat constructor. exact H.
Qed.

Lemma plain_point c :
  ascii_byte c = true -> Str.is_digit c = false ->
  Str.decimal (code c) = None
  /\ (code c =? Str.comma_point) = Str.is_comma c.
Proof.
  unfold ascii_byte, Str.is_digit, Str.is_comma, Str.comma_point.
  cbv zeta. intros Ha Hd. apply Nat.ltb_lt in Ha.
  split.
  - rewrite decimal_below by (unfold code; lia).
    replace ((48 <=? code c) && (code c <? 58)) with false; [reflexivity | ].
    rewrite <- Hd. unfold code.
    destruct (Nat.leb_spec 48 (nat_of_ascii c)),
             (Nat.leb_spec (nat_of_ascii c) 57),
             (Z.leb_spec 48 (Z.of_nat (nat_of_ascii c))),
             (Z.ltb_spec (Z.of_nat (nat_of_ascii c)) 58);
      cbn [andb]; try reflexivity; lia.
  - unfold code.
    destruct (Nat.eqb_spec (nat_of_ascii c) 44),
             (Z.eqb_spec (Z.of_nat (nat_of_ascii c)) 44);
      try reflexivity; lia.
Qed.

Lemma scan_after_number a k t :
  clean_break t = true ->
  scan (Num a k) (Str.decode t) = mkCapture a k :: scan Idle (Str.decode t).
Proof.
  destruct t as [|c t']; [reflexivity|].
  cbn [clean_break]. intros H.
  apply andb_true_iff in H as [H H3]. apply andb_true_iff in H as [H1 H2].
  apply negb_true_iff in H2.
  destruct (plain_point c H1 H2) as [Hd Hc].
  rewrite decode_ascii_cons by exact H1.
  cbn [scan]. rewrite Hd, Hc.
  destruct (Str.is_comma c) eqn:Ec; [| reflexivity].
  cbn [negb orb] in H3.
  assert (restart (code c) = Idle) as ->.
  { apply restart_other. apply Z.eqb_eq in Hc. rewrite Hc. discriminate. }
  destruct t' as [|c' t'']; [reflexivity|].
  apply andb_true_iff in H3 as [H4 H5]. apply negb_true_iff in H5.
  destruct (plain_point c' H4 H5) as [Hd' _].
  rewrite decode_ascii_cons by exact H4.
  cbn [scan]. rewrite Hd'. reflexivity.
Qed.

Lemma group3_Forall (P : ascii -> Prop) r : forall k,
  P ","%char -> Forall P r -> Forall P (group3 k r).
Proof.
  induction r as [|c r IH]; intros k Hcomma Hall; [constructor|].
  inversion Hall; subst.
  destruct k as [|[|[|[|k]]]]; cbn [group3]; repeat constructor; auto.
Qed.

Lemma digit_is_ascii c : Str.is_digit c = true -> ascii_byte c = true.
Proof.
  intros H. destruct (digit_code c H) as [Hr _].
  unfold ascii_byte. apply Nat.ltb_lt. unfold code in Hr. lia.
Qed.

(** The grouped digits of an amount, as code points. *)
Lemma decode_grouped (m : N) t :
  Str.decode
    (string_of_list_ascii
       (rev (group3 0
               (rev (list_ascii_of_string
                       (NilEmpty.string_of_uint (N.to_uint m))))))
     +:+ t)
  = map code
      (rev (group3 0
              (rev (list_ascii_of_string
                      (NilEmpty.string_of_uint (N.to_uint m))))))
    ++ Str.decode t.
Proof.
  apply decode_ascii. apply Forall_rev, group3_Forall; [reflexivity | ].
  apply Forall_rev.
  eapply List.Forall_impl; [ | apply uint_chars_digits].
  intros c Hc. apply digit_is_ascii. exact Hc.
Qed.

Lemma format_commas_scan n t :
  0 <= n -> clean_break t = true ->
  scan Skip (Str.decode (format_commas n +:+ t))
  = mkCapture n (digit_count n) :: scan Idle (Str.decode t).
Proof.
  intros Hn Ht. unfold format_commas, digit_count. cbv zeta.
  destruct (Z.ltb_spec n 0) as [|_]; [lia|].
  change (("" +:+ ?s)%string) with s.
  rewrite decode_grouped.
  pose proof (decimal_digits_nonempty (Z.abs_N n)) as Hne.
  pose proof (decimal_digits_value (Z.abs_N n)) as Hv.
  pose proof (uint_chars_digits (N.to_uint (Z.abs_N n))) as Hd.
  set (ds := list_ascii_of_string _) in *.
  rewrite scan_grouped; [| now apply Forall_rev | discriminate].
  rewrite Hv, N2Z.inj_abs_N, Z.abs_eq by lia.
  rewrite length_rev.
  destruct (rev ds) as [|c0 r0] eqn:Er.
  { apply (f_equal (@rev ascii)) in Er. rewrite rev_involutive in Er.
    now destruct Hne. }
  apply scan_after_number. exact Ht.
Qed.

Lemma scan_idle_skip (l : list ascii) t :
  scan Idle (map code l ++ t) = scan Idle t.
Proof.
  induction l as [|c l IH]; [reflexivity|].
  cbn [map app scan]. rewrite restart_other; [exact IH | ].
  pose proof (code_range c). unfold Str.rupee_point. lia.
Qed.

Lemma format_commas_negative_scan n t :
  n < 0 ->
  scan Skip (Str.decode (format_commas n +:+ t)) = scan Idle (Str.decode t).
Proof.
  intros Hn. unfold format_commas. cbv zeta.
  destruct (Z.ltb_spec n 0) as [_|]; [|lia].
  change (("-" +:+ ?s) +:+ t)%string with (String "-"%char (s +:+ t)).
  rewrite decode_ascii_cons by reflexivity.
  rewrite decode_grouped.
  change (code "-"%char) with 45.
  cbn [scan].
  change (Str.is_space 45) with false.
  change (45 =? Str.comma_point) with false.
  change (Str.decimal 45) with (@None Z).
  cbn [orb]. change (restart 45) with Idle.
  apply scan_idle_skip.
Qed.

Lemma scan_nonneg l : forall st,
  state_nonneg st -> Forall (fun c => 0 <= cap_value c) (scan st l).
Proof.
  assert (Hre : forall cp, state_nonneg (restart cp)).
  { intros cp. unfold restart. now destruct (cp =? Str.rupee_point). }
  induction l as [|cp r IH]; intros st Hst.
  - destruct st; cbn; auto.
  - destruct st; cbn [scan];
      repeat match goal with
      | |- context [match Str.decimal cp with _ => _ end] =>
          destruct (Str.decimal cp) as [d | ] eqn:Ed;
          [apply decimal_range in Ed | ]
      | |- context [if ?b then _ else _] => destruct b eqn:?
      end;
      first
        [ constructor; [exact Hst | apply IH; apply Hre]
        | apply IH;
          first
            [ apply Hre | exact I | exact Hst
            | cbn [state_nonneg] in *; lia ] ].
Qed.

(** The prices of a text that holds an amount in the thousands format. *)
Lemma scan_offer_text pre n suf :
  Str.contains Str.rupee pre = false ->
  clean_break suf = true ->
  price_captures (pre +:+ Str.rupee +:+ format_commas n +:+ suf)
  = if n <? 0 then price_captures suf
    else mkCapture n (digit_count n) :: price_captures suf.
Proof.
  intros Hpre Hsuf. unfold price_captures.
  change (Str.rupee +:+ format_commas n +:+ suf)%string
    with (String (ascii_of_nat 226)
            (String (ascii_of_nat 130)
               (String (ascii_of_nat 185) (format_commas n +:+ suf)))).
  unfold Str.decode at 1. rewrite decode_from_app by reflexivity.
  change (String (ascii_of_nat 226)
            (String (ascii_of_nat 130)
               (String (ascii_of_nat 185) (format_commas n +:+ suf))))
    with (Str.rupee +:+ (format_commas n +:+ suf))%string.
  rewrite decode_sign.
  rewrite scan_to_sign
    by (apply decode_without_sign; [exact I | exact Hpre]).
  destruct (Z.ltb_spec n 0) as [Hn | Hn].
  - apply format_commas_negative_scan. exact Hn.
  - apply format_commas_scan; assumption.
Qed.

(** X4: the thousands format and the price pattern are inverse to each
    other on the amounts that [int] reads back.  In a text made of a part
    without rupee sign, the sign, an amount written with thousands
    separators, and a rest at which the number ends, the price pattern
    finds the amount followed by the prices of the rest; a negative
    amount, written with a minus sign after the rupee sign, is not found
    at all, and an amount of more than 4300 digits, which [int] refuses,
    is passed over. *)
Theorem offer_text_round_trip pre n suf :
  Str.contains Str.rupee pre = false ->
  clean_break suf = true ->
  findall_prices (pre +:+ Str.rupee +:+ format_commas n +:+ suf)%string
  = if (n <? 0) || (4300 <? digit_count n) then findall_prices suf
    else n :: findall_prices suf.
Proof.
  intros Hpre Hsuf. unfold findall_prices.
  rewrite scan_offer_text by assumption.
  destruct (n <? 0); [reflexivity | ].
  cbn [orb flat_map]. unfold py_int at 1. cbn [cap_digits cap_value].
  destruct (4300 <? digit_count n); reflexivity.
Qed.

Lemma offer_text_round_trip_witness :
  findall_prices
    ("I can stretch to " +:+ Str.rupee +:+ format_commas 1234567
     +:+ ", that is all.")%string
  = [1234567].
Proof.
  exact (offer_text_round_trip "I can stretch to " 1234567 ", that is all."
           eq_refl eq_refl).
Defined.

Lemma findall_prices_nonneg s :
  Forall (fun p => 0 <= p) (findall_prices s).
Proof.
  unfold findall_prices, price_captures.
  pose proof (scan_nonneg (Str.decode s) Idle I) as H.
  induction H as [|c l Hc Hl IH]; [constructor | ].
  cbn [flat_map]. unfold py_int at 1.
  destruct (4300 <? cap_digits c); cbn [app]; [exact IH | ].
  constructor; assumption.
Qed.

(** X5: every price the pattern finds in a text is a non-negative integer,
    and a text in which it finds a price contains the rupee sign.  The
    pattern is read as Python reads it: on the characters of the text,
    with every white space and every decimal digit of Unicode. *)
Theorem extracted_prices_sound s :
  Forall (fun p => 0 <= p) (findall_prices s)
  /\ (findall_prices s = [] \/ Str.contains Str.rupee s = true).
Proof.
  split; [apply findall_prices_nonneg | ].
  destruct (Str.contains Str.rupee s) eqn:E; [now right | left].
  unfold findall_prices, price_captures.
  rewrite scan_without_sign; [reflexivity | ].
  apply decode_without_sign; [exact I | exact E].
Qed.

(** The pattern on texts outside ASCII: Devanagari digits, a no-break
    space (C2 A0) after the sign, and [lower] on the Kelvin sign
    (E2 84 AA). *)
Example devanagari_price : findall_prices "₹५०००" = [5000].
Proof. vm_compute. reflexivity. Qed.

Example price_after_no_break_space :
  findall_prices
    (Str.rupee +:+ String (ascii_of_nat 194) (String (ascii_of_nat 160) "9,000"))
  = [9000].
Proof. vm_compute. reflexivity. Qed.

Example kelvin_sign_lowers_to_k :
  Str.lower
    ("SPEA" +:+ String (ascii_of_nat 226)
                  (String (ascii_of_nat 132) (String (ascii_of_nat 170) "")))
  = "speak".
Proof. vm_compute. reflexivity. Qed.

(* ===================================================================== *)
(** ** The offer statement *)

Lemma choice_In {A} (l : list A) g x g' :
  choice l g = (Ok x, g') -> In x l.
Proof.
  unfold choice. destruct l as [|d l]; [discriminate|].
  destruct g as [|k g0]; intros H.
  - left. congruence.
  - assert (x = nth (k mod length (d :: l)) (d :: l) d) as -> by congruence.
    apply nth_In. apply Nat.mod_upper_bound. discriminate.
Qed.

(** A text that quotes one amount: the pattern finds that amount. *)
Lemma offer_text_price pre n suf :
  Str.contains Str.rupee pre = false ->
  clean_break suf = true ->
  findall_prices suf = [] ->
  0 <= n -> digit_count n <= 4300 ->
  findall_prices (pre +:+ Str.rupee +:+ format_commas n +:+ suf)%string
  = [n].
Proof.
  intros Hpre Hsuf Hnone Hn Hd. unfold findall_prices in *.
  rewrite scan_offer_text by assumption.
  destruct (Z.ltb_spec n 0); [lia | ].
  cbn [flat_map]. rewrite Hnone. unfold py_int. cbn [cap_digits cap_value].
  destruct (Z.ltb_spec 4300 (digit_count n)); [lia | reflexivity].
Qed.

Ltac split_at_sign lit n suf :=
  let pre :=
    eval vm_compute in
      (string_of_list_ascii
         (rev (skipn 3 (rev (list_ascii_of_string lit))))) in
  change (findall_prices (pre +:+ Str.rupee +:+ format_commas n +:+ suf)%string
          = [n]).

Ltac read_offer Hn Hd :=
  match goal with
  | |- findall_prices
         (?lit +:+ (format_commas ?n +:+ (?suf +:+ "")))%string = _ =>
      split_at_sign lit n suf
  | |- findall_prices (?lit +:+ format_commas ?n +:+ ?suf)%string = _ =>
      split_at_sign lit n suf
  end;
  apply offer_text_price;
  [vm_compute; reflexivity | vm_compute; reflexivity
  | vm_compute; reflexivity | exact Hn | exact Hd].

Lemma format_offer_reads_back offer tactics strategy g text g' :
  0 <= offer -> digit_count offer <= 4300 ->
  _format_offer_with_tactic offer tactics strategy g = (Ok text, g') ->
  findall_prices text = [offer].
Proof.
  intros Hn Hd. unfold _format_offer_with_tactic. cbv zeta.
  destruct (hd ANCHORING tactics);
    repeat match goal with
    | |- context [if ?b then _ else _] => destruct b
    end;
    unfold gbind, gret, glift;
    try (intros H; injection H as <- _; read_offer Hn Hd);
    match goal with
    | |- context [choice ?l g] =>
        destruct (choice l g) as [[tpl | e] g1] eqn:Ec; [| discriminate];
        apply choice_In in Ec; cbn [tactic_templates In] in Ec;
        destruct Ec as [<- | [<- | []]];
        cbn [format_template rbind];
        intros H; try discriminate H; injection H as <- _; read_offer Hn Hd
    end.
Qed.

Lemma make_decision_offer_amount sd sa ph product d :
  make_decision sd sa ph product = Ok d -> offer_amount d = None.
Proof.
  unfold make_decision. cbv zeta.
  destruct (_ <=? default 0 (sd_target_price sd)).
  { intros H. injection H as <-. reflexivity. }
  destruct (_ <=? default 0 (sd_max_budget sd)).
  - destruct (F64.gtb (get_flexibility sa) F64.c0_6).
    + destruct (_calculate_counter_offer _ _ sa ph); [ | discriminate].
      cbn [rbind]. intros H. injection H as <-. reflexivity.
    + destruct (F64.int_mul _ F64.c0_95); [ | discriminate].
      cbn [rbind]. destruct (F64.Z_ltb _ _);
        intros H; injection H as <-; reflexivity.
  - destruct (F64.gtb (get_flexibility sa) F64.c0_7).
    + destruct (F64.int_mul _ F64.c1_1) as [x | ]; [ | discriminate].
      cbn [rbind]. destruct (F64.to_int x); [ | discriminate].
      cbn [rbind]. intros H. injection H as <-. reflexivity.
    + intros H. injection H as <-. reflexivity.
Qed.

Lemma append_assoc3 (a b c : string) :
  ((a +:+ b) +:+ c = a +:+ (b +:+ c))%string.
Proof.
  induction a as [|x a IH]; [reflexivity | ].
  change (String x ((a +:+ b) +:+ c) = String x (a +:+ (b +:+ c)))%string.
  now rewrite IH.
Qed.

Lemma append_empty_r (a : string) : (a +:+ "")%string = a.
Proof.
  induction a as [|x a IH]; [reflexivity | ].
  change (String x (a +:+ "") = String x a)%string. now rewrite IH.
Qed.

Lemma prefix_append (x q : string) : String.prefix x (x +:+ q) = true.
Proof.
  induction x as [|c x IH].
  - change ("" +:+ q)%string with q. now destruct q.
  - change (String.prefix (String c x) (String c (x +:+ q)) = true).
    cbn [String.prefix].
    destruct (ascii_dec c c); [exact IH | congruence].
Qed.

Lemma contains_middle (p x q : string) :
  Str.contains x (p +:+ x +:+ q) = true.
Proof.
  induction p as [|c p IH].
  - change ("" +:+ x +:+ q)%string with (x +:+ q)%string.
    destruct (x +:+ q)%string eqn:E; cbn [Str.contains];
      rewrite <- E, prefix_append; reflexivity.
  - change (String c p +:+ x +:+ q)%string
      with (String c (p +:+ x +:+ q)%string).
    cbn [Str.contains]. rewrite IH.
    now destruct (String.prefix x _).
Qed.

Lemma join_middle sep (a : list string) x b :
  exists p q, Str.join sep (a ++ x :: b) = (p +:+ x +:+ q)%string.
Proof.
  induction a as [|z a IH].
  - exists EmptyString. destruct b as [|y b].
    + exists EmptyString.
      change (x = ("" +:+ x +:+ "")%string).
      change ("" +:+ x +:+ "")%string with (x +:+ "")%string.
      now rewrite append_empty_r.
    + exists (sep +:+ Str.join sep (y :: b))%string. reflexivity.
  - destruct IH as (p & q & E).
    exists (z +:+ sep +:+ p)%string, q.
    assert (Str.join sep ((z :: a) ++ x :: b)
            = (z +:+ sep +:+ Str.join sep (a ++ x :: b))%string) as ->.
    { cbn [app]. destruct (a ++ x :: b) eqn:Ea; [| reflexivity].
      now destruct a. }
    rewrite E, !append_assoc3. reflexivity.
Qed.

(** X6: the offer text never quotes the offer that was decided.  The
    decision of the engine carries its amount under the key [offer], the
    text is composed from the key [offer_amount], which no decision has:
    the response to a counter offer or final offer contains an offer
    statement composed for the amount 0, and the only price in that
    statement is 0. *)
Theorem tactical_response_quotes_zero
    sd sa ph product d tactics sa' sd' g text g' :
  make_decision sd sa ph product = Ok d ->
  _generate_enhanced_tactical_response d tactics sa' sd' g = (Ok text, g') ->
  offer_amount d = None
  /\ exists statement g1 g2,
       _format_offer_with_tactic 0 tactics (sd_strategy sd') g1
       = (Ok statement, g2)
       /\ Str.contains statement text = true
       /\ findall_prices statement = [0].
Proof.
  intros Hd H. pose proof (make_decision_offer_amount _ _ _ _ _ Hd) as Hoa.
  split; [exact Hoa | ].
  unfold _generate_enhanced_tactical_response in H.
  rewrite Hoa in H. cbv zeta in H. cbn [default from_option id] in H.
  unfold gbind in H.
  repeat match type of H with
  | context [match ?c ?g0 with _ => _ end] =>
      destruct (c g0) as [[? | ?] ?] eqn:?; try discriminate H
  end.
  match type of H with
  | gret ?t _ = _ => assert (text = t) as -> by (unfold gret in H; congruence)
  end.
  match goal with
  | E : _format_offer_with_tactic 0 tactics _ ?g1 = (Ok ?s, ?g2) |- _ =>
      exists s, g1, g2; split; [exact E | split];
        [ | exact (format_offer_reads_back 0 _ _ _ _ _ ltac:(lia)
                 ltac:(vm_compute; discriminate) E)]
  end.
  match goal with
  | |- Str.contains ?s (Str.join " " ([?p1] ++ ?p2 ++ ?p3 ++ [?s] ++ ?p5))
       = true =>
      destruct (join_middle " " ([p1] ++ p2 ++ p3) s p5) as (p & q & E');
      replace ([p1] ++ p2 ++ p3 ++ [s] ++ p5)
        with (([p1] ++ p2 ++ p3) ++ s :: p5)
        by (rewrite <- !app_assoc; reflexivity);
      rewrite E'; apply contains_middle
  end.
Qed.

Lemma tactical_response_quotes_zero_witness :
  offer (mkDecision "counter_offer" (Some 8000) None (Some F64.c0_7)
           (Some "Seller shows flexibility, room for negotiation"))
  = Some 8000
  /\ exists statement g1 g2,
       _format_offer_with_tactic 0 [] (sd_strategy (demo_session 8000 10000))
         g1
       = (Ok statement, g2)
       /\ Str.contains statement
            "I appreciate you considering my interest. Considering all factors, I can offer ₹0."
          = true
       /\ findall_prices statement = [0].
Proof.
  split; [reflexivity | ].
  assert (H1 : make_decision (demo_session 8000 10000)
                 (analysis_with (Some F64.c0_7) (Some 9000)) EXPLORATION
                 demo_product
               = Ok (mkDecision "counter_offer" (Some 8000) None
                       (Some F64.c0_7)
                       (Some "Seller shows flexibility, room for negotiation")))
    by (vm_compute; reflexivity).
  assert (H2 : _generate_enhanced_tactical_response
                 (mkDecision "counter_offer" (Some 8000) None (Some F64.c0_7)
                    (Some "Seller shows flexibility, room for negotiation"))
                 [] (analysis_with (Some F64.c0_7) (Some 9000))
                 (demo_session 8000 10000) []
               = (Ok "I appreciate you considering my interest. Considering all factors, I can offer ₹0.",
                  []))
    by (vm_compute; reflexivity).
  exact (proj2 (tactical_response_quotes_zero _ _ _ _ _ _ _ _ _ _ _ H1 H2)).
Defined.

(* ===================================================================== *)
(** ** Price movement as the manager runs the engine *)

Lemma seller_messages_snoc hist m :
  sender m = "seller" ->
  seller_messages (hist ++ [m]) = seller_messages hist ++ [m].
Proof.
  intros Hs. unfold seller_messages. rewrite filter_app. f_equal.
  rewrite filter_cons, Hs. reflexivity.
Qed.

Lemma py_int_short c :
  short_capture c = true -> py_int c = Ok (cap_value c).
Proof.
  unfold short_capture, py_int. intros H. apply Z.leb_le in H.
  destruct (Z.ltb_spec 4300 (cap_digits c)); [lia | reflexivity].
Qed.

Lemma py_int_long c :
  short_capture c = false -> exists text, py_int c = Raise (ValueError text).
Proof.
  unfold short_capture, py_int. intros H. apply Z.leb_gt in H.
  destruct (Z.ltb_spec 4300 (cap_digits c)); [eauto | lia].
Qed.

Lemma int_all_short l :
  forallb short_capture l = true -> int_all l = Ok (map cap_value l).
Proof.
  induction l as [|c l IH]; [reflexivity | ].
  cbn [forallb int_all map]. intros H. apply andb_true_iff in H as [H1 H2].
  rewrite (py_int_short c H1), (IH H2). reflexivity.
Qed.

Lemma int_all_long l :
  forallb short_capture l = false ->
  exists text, int_all l = Raise (ValueError text).
Proof.
  induction l as [|c l IH]; [discriminate | ].
  cbn [forallb int_all]. intros H.
  destruct (short_capture c) eqn:Ec.
  - rewrite (py_int_short c Ec). cbn [rbind].
    destruct (IH H) as [text ->]. eauto.
  - destruct (py_int_long c Ec) as [text ->]. eauto.
Qed.

Lemma findall_prices_short s :
  short_prices s = true ->
  findall_prices s = map cap_value (price_captures s).
Proof.
  unfold short_prices, findall_prices.
  induction (price_captures s) as [|c l IH]; [reflexivity | ].
  cbn [forallb flat_map map]. intros H. apply andb_true_iff in H as [H1 H2].
  rewrite (py_int_short c H1), (IH H2). reflexivity.
Qed.

Lemma seller_prices_short sellers :
  all_short sellers = true ->
  seller_prices sellers
  = Ok (flat_map (fun msg => findall_prices (content msg)) sellers).
Proof.
  induction sellers as [|msg r IH]; [reflexivity | ].
  unfold all_short. cbn [forallb seller_prices flat_map].
  intros H. apply andb_true_iff in H as [H1 H2].
  rewrite (int_all_short _ H1), (IH H2), (findall_prices_short _ H1).
  reflexivity.
Qed.

Lemma seller_prices_long sellers :
  all_short sellers = false ->
  exists text, seller_prices sellers = Raise (ValueError text).
Proof.
  induction sellers as [|msg r IH]; [discriminate | ].
  unfold all_short. cbn [forallb seller_prices]. intros H.
  destruct (short_prices (content msg)) eqn:Em.
  - rewrite (int_all_short _ Em). cbn [rbind].
    destruct (IH H) as [text ->]. eauto.
  - destruct (int_all_long _ Em) as [text ->]. eauto.
Qed.

Lemma last_map_value (l : list Capture) :
  last (map cap_value l) = cap_value <$> last l.
Proof.
  induction l as [|c [|c' l] IH]; [reflexivity | reflexivity | exact IH].
Qed.

Lemma last_short (l : list Capture) c :
  forallb short_capture l = true -> last l = Some c ->
  short_capture c = true.
Proof.
  intros H Hl. rewrite forallb_forall in H. apply H.
  destruct l as [|x l] using rev_ind; [discriminate | ].
  rewrite last_snoc in Hl. injection Hl as ->.
  apply in_or_app. right. now left.
Qed.

(** X7: the manager appends the seller's message to the history before it
    runs the engine on that history, so the price analysis compares the
    price of the message with itself.  Where the message quotes a price
    and a text of the seller, this message included, holds a price of
    more than 4300 digits, [int] refuses it and the analysis raises
    ValueError; in every other case the analysis returns, and whatever the
    earlier prices were, the trend is "stable" and the concession is 0. *)
Theorem own_message_hides_price_movement message hist m :
  sender m = "seller" ->
  content m = message ->
  let r := _analyze_price_movement message (hist ++ [m]) in
  if match price_captures message with
     | [] => false
     | _ :: _ => negb (all_short (seller_messages (hist ++ [m])))
     end
  then exists text, r = Raise (ValueError text)
  else exists pa,
         r = Ok pa
         /\ current_price pa = last (findall_prices message)
         /\ trend pa = "stable"
         /\ concession_amount pa = 0.
Proof.
  intros Hs Hc. cbv zeta. unfold _analyze_price_movement.
  destruct (last (price_captures message)) as [c | ] eqn:El.
  2:{ destruct (price_captures message) as [|c0 l0] eqn:Ep.
      - eexists. split; [reflexivity | ].
        unfold findall_prices. rewrite Ep. repeat split.
      - apply last_None in El. discriminate El. }
  destruct (price_captures message) as [|c0 l0] eqn:Ep; [discriminate | ].
  rewrite <- Ep in El.
  destruct (all_short (seller_messages (hist ++ [m]))) eqn:Ea; cbn [negb].
  - rewrite (seller_prices_short _ Ea).
    rewrite seller_messages_snoc in * by exact Hs.
    unfold all_short in Ea. rewrite forallb_app in Ea.
    apply andb_true_iff in Ea as [_ Ea]. cbn [forallb] in Ea.
    rewrite Hc, andb_true_r in Ea.
    rewrite (py_int_short c (last_short _ _ Ea El)). cbn [rbind].
    eexists. split; [reflexivity | ].
    cbn [current_price trend concession_amount].
    rewrite flat_map_app. cbn [flat_map]. rewrite app_nil_r, Hc.
    rewrite (findall_prices_short _ Ea), last_app, last_map_value, El.
    cbn [fmap option_fmap option_map].
    rewrite Z.ltb_irrefl. repeat split. lia.
  - destruct (short_capture c) eqn:Ec.
    + rewrite (py_int_short c Ec). cbn [rbind].
      destruct (seller_prices_long _ Ea) as [text ->]. eauto.
    + destruct (py_int_long c Ec) as [text ->]. eauto.
Qed.

Lemma own_message_hides_price_movement_witness :
  exists pa,
    _analyze_price_movement "ok, ₹9,000 then"
      ([seller_says "I want ₹12,000"] ++ [seller_says "ok, ₹9,000 then"])
    = Ok pa
    /\ current_price pa = Some 9000
    /\ trend pa = "stable"
    /\ concession_amount pa = 0.
Proof.
  exact (own_message_hides_price_movement "ok, ₹9,000 then"
           [seller_says "I want ₹12,000"] (seller_says "ok, ₹9,000 then")
           eq_refl eq_refl).
Defined.

(** A price of 4301 digits: [int] refuses it, the analysis raises. *)
Example long_price_raises :
  _analyze_price_movement
    (Str.rupee +:+ string_of_list_ascii (repeat "1"%char 4301)) []
  = Raise
      (ValueError
         "Exceeds the limit (4300 digits) for integer string conversion: value has 4301 digits; use sys.set_int_max_str_digits() to increase the limit").
Proof. vm_compute. reflexivity. Qed.

Example long_price_passed_over :
  findall_prices
    (Str.rupee +:+ string_of_list_ascii (repeat "1"%char 4301)
     +:+ " or ₹9,000")
  = [9000].
Proof. vm_compute. reflexivity. Qed.

(* ===================================================================== *)
(** ** Starting a negotiation *)

Lemma analysis_of_silence sd :
  analyze_seller_message "" [] sd = Ok silence_analysis.
Proof. vm_compute. reflexivity. Qed.

Lemma opening_turn_effect sd product g :
  sd_target_price sd = None ->
  sd_max_budget sd = None ->
  process_negotiation_turn sd "" [] product g
  = (Ok (if 0 <? price product
         then mkTurnResult (_generate_walkaway_response sd)
                walk_away_decision [ANCHORING] silence_analysis "opening"
                F64.c0_8
         else fallback_turn), g).
Proof.
  intros Ht Hb.
  unfold process_negotiation_turn, turn_body, analyze_and_decide, gbind,
    glift.
  rewrite analysis_of_silence. cbn [rbind].
  change (_determine_negotiation_phase [] silence_analysis) with OPENING.
  unfold make_decision. cbv zeta.
  change (effective_price silence_analysis product) with (price product).
  rewrite Ht, Hb. cbn [default from_option id].
  destruct (Z.ltb_spec 0 (price product)) as [Hp | Hp];
    destruct (Z.leb_spec (price product) 0) as [Hq | Hq]; try lia.
  - change (F64.gtb (get_flexibility silence_analysis) F64.c0_7) with false.
    reflexivity.
  - reflexivity.
Qed.

(** X8: [start_negotiation] on a registered session marks it active,
    stamps the start time, appends one agent message and saves the
    session.  The engine composes that message against a target and a
    budget of 0: for a product with a positive price the opening message
    is the walk-away text, otherwise the fallback text of a failed turn. *)
Theorem start_negotiation_opening mg sid sd :
  active_sessions mg !! sid = Some sd ->
  let priced := 0 <? price (product sd) in
  let text :=
    if priced then _generate_walkaway_response (engine_view sd)
    else tr_response fallback_turn in
  exists r mg' sd' m,
    start_negotiation sid mg = (Ok r, mg')
    /\ op_opening_message r = text
    /\ op_strategy_used r = (if priced then ["anchoring"] else [])
    /\ op_phase r = PhaseStr (if priced then "opening" else "exploration")
    /\ active_sessions mg' !! sid = Some sd'
    /\ status (session sd') = status_value ACTIVE
    /\ start_time sd' = Some (clock mg (clock_reads mg))
    /\ messages (session sd') = messages (session sd) ++ [m]
    /\ sender m = "ai" /\ content m = text
    /\ messages_sent (performance_metrics sd')
       = messages_sent (performance_metrics sd) + 1
    /\ db_sessions mg' !! session_id (session sd) = Some (session sd').
Proof.
  intros Hl. cbv zeta.
  destruct mg as [act db ld ai clk cr uu ur rg dc].
  cbn [active_sessions db_sessions clock clock_reads] in *.
  unfold start_negotiation. cbn [active_sessions]. rewrite Hl.
  munfold. msimpl Hl. unfold opening_turn.
  rewrite opening_turn_effect by reflexivity.
  cbn [product with_session set_start_time engine_view strategy].
  msimpl Hl.
  destruct (0 <? price (product sd));
    do 4 eexists; (split; [reflexivity | ]);
    cbn [op_opening_message op_strategy_used op_phase active_sessions
         db_sessions of_turn nr_response nr_tactics_used nr_phase
         tr_response tr_tactics_used tr_phase default from_option id map];
    (split; [reflexivity | ]); (split; [reflexivity | ]);
    (split; [reflexivity | ]);
    (split; [msimpl Hl; reflexivity | ]);
    cbn [session with_session with_metrics set_start_time append_message
         set_status status messages start_time session_id
         performance_metrics bump_messages_sent messages_sent];
    repeat (split; [reflexivity | ]);
    apply lookup_insert_eq.
Qed.

Lemma start_negotiation_opening_witness :
  exists r mg',
    start_negotiation "s1" (demo_manager None []) = (Ok r, mg')
    /\ op_opening_message r
       = "I understand your position, but ₹0 is really the maximum I can go. If you change your mind, please let me know. Otherwise, I'll have to consider other options. Thank you for your time.".
Proof.
  assert (H : active_sessions (demo_manager None []) !! "s1"
              = Some (demo_negotiation []))
    by (vm_compute; reflexivity).
  destruct (start_negotiation_opening (demo_manager None []) "s1"
              (demo_negotiation []) H)
    as (r & mg' & sd' & m & Hrun & Htext & _).
  exists r, mg'. split; [exact Hrun | exact Htext].
Defined.

(* ===================================================================== *)
(** ** Triples of the manager monad *)

Lemma triple_bind {A B} (P : Manager -> Prop) (c : M A)
    (Q1 : A -> Manager -> Prop) (k : A -> M B) Q E :
  triple P c Q1 E ->
  (forall a, triple (Q1 a) (k a) Q E) ->
  triple P (mbind' c k) Q E.
Proof.
  unfold triple, mbind'. intros Hc Hk mg HP. specialize (Hc mg HP).
  destruct (c mg) as [[a | e] mg1]; [apply Hk; exact Hc | exact Hc].
Qed.

Lemma triple_weaken {A} (P : Manager -> Prop) (c : M A)
    (Q Q' : A -> Manager -> Prop) (E E' : Manager -> Prop) :
  triple P c Q E ->
  (forall a mg, Q a mg -> Q' a mg) ->
  (forall mg, E mg -> E' mg) ->
  triple P c Q' E'.
Proof.
  unfold triple. intros Hc HQ HE mg HP. specialize (Hc mg HP).
  destruct (c mg) as [[a | e] mg1]; auto.
Qed.

Lemma triple_any {A} (P : Manager -> Prop) (c : M A) :
  triple P c (fun _ _ => True) (fun _ => True).
Proof. intros mg _. destruct (c mg) as [[a | e] mg1]; exact I. Qed.

(** A fact that does not depend on the state survives any computation. *)
Lemma triple_pure {A} (phi : Prop) (c : M A) :
  triple (fun _ => phi) c (fun _ _ => phi) (fun _ => True).
Proof. intros mg H. destruct (c mg) as [[a | e] mg1]; [exact H | exact I]. Qed.

Lemma triple_ret {A} (P : Manager -> Prop) (a : A)
    (Q : A -> Manager -> Prop) E :
  (forall mg, P mg -> Q a mg) -> triple P (mret a) Q E.
Proof. intros H mg HP. apply H. exact HP. Qed.

Section Registered.

Variables sid id : string.
Variable base : list ChatMessage.

Local Abbreviation Reg := (registered sid id base).

(** [keeps c]: the session stays registered, however [c] ends. *)
Local Abbreviation keeps c := (triple Reg c (fun _ => Reg) Reg).

(** [safe c]: if [c] raises, the session is still registered. *)
Local Abbreviation safe c := (triple Reg c (fun _ _ => True) Reg).

Lemma keeps_safe {A} (c : M A) : keeps c -> safe c.
Proof. intros H. eapply triple_weaken; [exact H | auto | auto]. Qed.

Lemma keeps_bind {A B} (c : M A) (k : A -> M B) Q :
  keeps c -> (forall a, triple Reg (k a) Q Reg) ->
  triple Reg (mbind' c k) Q Reg.
Proof. intros Hc Hk. eapply triple_bind; [exact Hc | exact Hk]. Qed.

Lemma keeps_frame {A} (c : M A) :
  (forall mg, active_sessions (snd (c mg)) = active_sessions mg) ->
  keeps c.
Proof.
  intros H mg HR. specialize (H mg).
  destruct (c mg) as [[a | e] mg1]; cbn [snd] in H;
    unfold registered in *; rewrite H; exact HR.
Qed.

Lemma keeps_mret {A} (a : A) : keeps (mret a).
Proof. apply keeps_frame. reflexivity. Qed.

Lemma keeps_mraise {A} e : keeps (@mraise A e).
Proof. apply keeps_frame. reflexivity. Qed.

Lemma keeps_mlift {A} (r : Res A) : keeps (mlift r).
Proof. apply keeps_frame. reflexivity. Qed.

Lemma keeps_now : keeps now.
Proof. apply keeps_frame. reflexivity. Qed.

Lemma keeps_uuid4 : keeps uuid4.
Proof. apply keeps_frame. reflexivity. Qed.

Lemma keeps_get s : keeps (get_session_data s).
Proof.
  apply keeps_frame. intros mg. unfold get_session_data.
  destruct (active_sessions mg !! s); reflexivity.
Qed.

Lemma keeps_save s : keeps (save_session s).
Proof.
  apply keeps_frame. intros mg. unfold save_session.
  destruct (active_sessions mg !! s); reflexivity.
Qed.

Lemma keeps_learn sd o : keeps (update_from_session sd o).
Proof. apply keeps_frame. reflexivity. Qed.

Lemma keeps_engine sd msg : keeps (engine_turn sd msg).
Proof.
  apply keeps_frame. intros mg. unfold engine_turn.
  destruct (process_negotiation_turn _ _ _ _ _) as [[t | e] g'];
    reflexivity.
Qed.

Lemma keeps_ai svc sd msg : keeps (ai_turn svc sd msg).
Proof.
  apply keeps_frame. intros mg. unfold ai_turn.
  destruct (svc _ _ _ _); reflexivity.
Qed.

Lemma keeps_update (f : SessionData -> SessionData) :
  (forall sd, session_id (session (f sd)) = session_id (session sd)) ->
  (forall sd, messages (session sd) `prefix_of` messages (session (f sd))) ->
  keeps (update_session_data sid f).
Proof.
  intros Hf Hm mg (sd & Hl & Hid & Hpre). unfold update_session_data.
  exists (f sd). cbn [set_active active_sessions].
  rewrite lookup_alter_eq, Hl. split; [reflexivity | ].
  rewrite Hf. split; [exact Hid | ].
  etransitivity; [exact Hpre | apply Hm].
Qed.

Lemma keeps_decide sd msg :
  keeps (fun mg1 =>
           match enhanced_ai_service mg1 with
           | Some svc => ai_turn svc sd msg mg1
           | None => engine_turn sd msg mg1
           end).
Proof.
  intros mg HR. destruct (enhanced_ai_service mg) as [svc | ].
  - exact (keeps_ai svc sd msg mg HR).
  - exact (keeps_engine sd msg mg HR).
Qed.

Lemma safe_then_ret {A B} (c : M A) (f : A -> B) :
  safe c -> safe (mbind' c (fun r => mret (f r))).
Proof.
  intros Hc mg HR. specialize (Hc mg HR). unfold mbind', mret.
  destruct (c mg) as [[a | e] mg1]; [exact I | exact Hc].
Qed.

Ltac keep_prim :=
  first
    [ apply keeps_mret | apply keeps_mraise | apply keeps_mlift
    | apply keeps_now | apply keeps_uuid4 | apply keeps_get
    | apply keeps_save | apply keeps_learn | apply keeps_decide
    | apply keeps_update;
      [ intros; reflexivity
      | intros; cbn [session with_session with_metrics add_intervention
                     set_phase messages append_message set_status
                     set_outcome set_ended_at set_final_price];
        first [reflexivity | apply prefix_app_r; reflexivity] ] ].

Ltac keep_walk extra :=
  repeat first
    [ keep_prim
    | extra
    | apply keeps_safe; first [keep_prim | extra]
    | apply keeps_bind; [ | intros ?]
    | match goal with
      | |- triple _ (match ?x with _ => _ end) _ _ => destruct x
      | |- triple _ (if ?x then _ else _) _ _ => destruct x
      end ].

Lemma keeps_handoff t : keeps (_trigger_human_handoff sid t).
Proof. unfold _trigger_human_handoff. cbv zeta. keep_walk fail. Qed.

Lemma keeps_metrics nr : keeps (_update_performance_metrics sid nr).
Proof. unfold _update_performance_metrics. cbv zeta. keep_walk fail. Qed.

Lemma safe_complete o : safe (_complete_session sid o).
Proof.
  unfold _complete_session.
  repeat (apply keeps_bind; [solve [keep_walk fail] | intros ?]).
  intros mg _. exact I.
Qed.

Lemma safe_body msg : safe (seller_response_body sid msg).
Proof.
  intros mg HR. unfold seller_response_body.
  destruct (active_sessions mg !! sid) as [sd0 | ]; [ | exact HR].
  refine ((_ : safe _) mg HR).
  keep_walk ltac:(first [ apply keeps_handoff | apply keeps_metrics
                        | apply safe_then_ret; apply safe_complete ]).
Qed.

(** The three ways a turn ends: each saves the session first. *)
Lemma save_then_get_saves {B} (f : SessionData -> B) :
  triple Reg
    (mbind' (save_session sid)
       (fun _ => mbind' (get_session_data sid) (fun sd => mret (f sd))))
    (fun _ => saved id base) Reg.
Proof.
  intros mg (sd & Hl & Hid & Hpre).
  destruct mg as [act db ld ai clk cr uu ur rg dc].
  cbn [active_sessions] in Hl.
  unfold mbind', save_session, get_session_data, mret.
  cbn [active_sessions]. rewrite Hl. cbn [active_sessions]. rewrite Hl.
  exists (session sd). cbn [db_sessions]. rewrite Hid.
  split; [apply lookup_insert_eq | exact Hpre].
Qed.

Lemma save_then_delete_saves {B} (b : B) :
  triple Reg
    (mbind' (save_session sid)
       (fun _ =>
          mbind' (fun mg => (Ok tt, set_active (delete sid) mg))
            (fun _ => mret b)))
    (fun _ => saved id base) Reg.
Proof.
  intros mg (sd & Hl & Hid & Hpre).
  destruct mg as [act db ld ai clk cr uu ur rg dc].
  cbn [active_sessions] in Hl.
  unfold mbind', save_session, mret, set_active.
  cbn [active_sessions]. rewrite Hl.
  exists (session sd). cbn [db_sessions]. rewrite Hid.
  split; [apply lookup_insert_eq | exact Hpre].
Qed.

Lemma save_then_ret_saves {B} (b : B) :
  triple Reg (mbind' (save_session sid) (fun _ => mret b))
    (fun _ => saved id base) Reg.
Proof.
  intros mg (sd & Hl & Hid & Hpre).
  destruct mg as [act db ld ai clk cr uu ur rg dc].
  cbn [active_sessions] in Hl.
  unfold mbind', save_session, mret.
  cbn [active_sessions]. rewrite Hl.
  exists (session sd). cbn [db_sessions]. rewrite Hid.
  split; [apply lookup_insert_eq | exact Hpre].
Qed.

Lemma saved_then_ret {A B} (c : M A) (f : A -> B) :
  triple Reg c (fun _ => saved id base) Reg ->
  triple Reg (mbind' c (fun r => mret (f r))) (fun _ => saved id base) Reg.
Proof.
  intros Hc mg HR. specialize (Hc mg HR). unfold mbind', mret.
  destruct (c mg) as [[a | e] mg1]; exact Hc.
Qed.

Ltac walk_to_save extra :=
  repeat lazymatch goal with
  | |- triple _ (mbind' (save_session _) _) _ _ => fail
  | |- triple _ (mbind' _ _) _ _ =>
      apply keeps_bind; [solve [keep_walk extra] | intros ?]
  end.

Lemma handoff_saves t :
  triple Reg (_trigger_human_handoff sid t) (fun _ => saved id base) Reg.
Proof.
  unfold _trigger_human_handoff. cbv zeta. walk_to_save fail.
  apply save_then_get_saves.
Qed.

Lemma complete_saves o :
  triple Reg (_complete_session sid o) (fun _ => saved id base) Reg.
Proof.
  unfold _complete_session. walk_to_save fail.
  apply save_then_delete_saves.
Qed.

Lemma body_saves msg :
  triple Reg (seller_response_body sid msg) (fun _ => saved id base) Reg.
Proof.
  intros mg HR. unfold seller_response_body.
  destruct (active_sessions mg !! sid) as [sd0 | ]; [ | exact HR].
  refine ((_ : triple Reg _ (fun _ => saved id base) Reg) mg HR).
  walk_to_save fail.
  destruct (_check_intervention_triggers _ msg) as [t | ].
  { apply saved_then_ret, handoff_saves. }
  walk_to_save ltac:(apply keeps_metrics).
  destruct (_check_completion_conditions _ _) as [o | ].
  - apply saved_then_ret, complete_saves.
  - apply save_then_ret_saves.
Qed.

End Registered.

(* ===================================================================== *)
(** ** Failure of a seller turn *)

Lemma handler_effect mg sid e sd :
  active_sessions mg !! sid = Some sd ->
  exists mg' sd',
    _handle_session_error sid (exn_text e) mg = (Ok tt, mg')
    /\ active_sessions mg' !! sid = Some sd'
    /\ failed_session e sid sd'
    /\ db_sessions mg' !! session_id (session sd) = Some (session sd')
    /\ messages (session sd) `prefix_of` messages (session sd').
Proof.
  intros Hl. destruct mg as [act db ld ai clk cr uu ur rg dc].
  cbn [active_sessions] in Hl.
  unfold _handle_session_error. cbn [active_sessions]. rewrite Hl.
  cbn [mbind' update_session_data now uuid4 set_active mret
       active_sessions db_sessions learning_data enhanced_ai_service
       clock clock_reads uuid uuid_reads rng decisions_computed].
  unfold save_session, set_active. msimpl Hl.
  do 2 eexists. split; [reflexivity | ].
  cbn [active_sessions db_sessions].
  split; [msimpl Hl; reflexivity | ].
  unfold failed_session.
  cbn [session with_session append_message set_status set_outcome
       set_ended_at status outcome ended_at messages session_id].
  split; [ | split; [apply lookup_insert_eq | apply prefix_app_r; reflexivity]].
  split; [reflexivity | ]. split; [reflexivity | ].
  split; [discriminate | ].
  eexists. split; [apply last_snoc | ].
  cbn [sender content sender_type].
  split; [reflexivity | ]. split; reflexivity.
Qed.

(** X9: a seller turn that raises leaves a failed session behind.  For a
    session that is not registered the error is the [ValueError] that says
    so and the manager is untouched.  For a registered session, wherever
    the turn raised, the session is still registered afterwards, with
    status "failed", outcome "technical_error", an end time, a final
    system message "Session error: " followed by the text of the error,
    [str(e)], and the database holds this state. *)
Theorem seller_response_failure mg sid msg e mg' :
  process_seller_response sid msg mg = (Raise e, mg') ->
  match active_sessions mg !! sid with
  | None => e = ValueError ("Session " +:+ sid +:+ " not found") /\ mg' = mg
  | Some sd =>
      exists sd',
        active_sessions mg' !! sid = Some sd'
        /\ failed_session e sid sd'
        /\ db_sessions mg' !! session_id (session sd) = Some (session sd')
  end.
Proof.
  intros H. unfold process_seller_response in H.
  destruct (seller_response_body sid msg mg) as [[r | e0] mg1] eqn:Eb;
    [discriminate H | ].
  destruct (active_sessions mg !! sid) as [sd | ] eqn:El.
  - pose proof (safe_body sid (session_id (session sd)) [] msg mg
                  (ex_intro _ sd (conj El (conj eq_refl (prefix_nil _)))))
      as Hs.
    rewrite Eb in Hs. destruct Hs as (sd1 & Hl1 & Hid1 & _).
    destruct (handler_effect mg1 sid e0 sd1 Hl1)
      as (mg2 & sd' & Hh & Hl2 & Hf & Hdb & _).
    rewrite Hh in H. injection H as <- <-.
    exists sd'. rewrite <- Hid1. auto.
  - unfold seller_response_body in Eb. rewrite El in Eb.
    injection Eb as <- <-.
    unfold _handle_session_error in H. rewrite El in H.
    injection H as <- <-. split; reflexivity.
Qed.

Lemma seller_response_failure_witness :
  exists sd',
    active_sessions
      (snd (process_seller_response "s1" "hello" unstarted_manager))
      !! "s1" = Some sd'
    /\ failed_session (KeyError "'start_time'") "s1" sd'
    /\ db_sessions
         (snd (process_seller_response "s1" "hello" unstarted_manager))
         !! "s1" = Some (session sd').
Proof.
  assert (H : process_seller_response "s1" "hello" unstarted_manager
              = (Raise (KeyError "'start_time'"),
                 snd (process_seller_response "s1" "hello"
                        unstarted_manager)))
    by (vm_compute; reflexivity).
  exact (seller_response_failure unstarted_manager "s1" "hello"
           (KeyError "'start_time'") _ H).
Defined.

(** X13: a seller turn on a registered session never loses history and
    always ends persisted.  Whether the turn replies, hands off, completes
    the session or raises, the database afterwards holds the session under
    its identifier with a message history that extends the history before
    the turn. *)
Theorem seller_turn_persists_history mg sid msg sd :
  active_sessions mg !! sid = Some sd ->
  exists s',
    db_sessions (snd (process_seller_response sid msg mg))
      !! session_id (session sd) = Some s'
    /\ messages (session sd) `prefix_of` messages s'.
Proof.
  intros Hl.
  pose proof (body_saves sid (session_id (session sd))
                (messages (session sd)) msg mg
                (ex_intro _ sd (conj Hl (conj eq_refl (reflexivity _)))))
    as Hb.
  unfold process_seller_response.
  destruct (seller_response_body sid msg mg) as [[out | e] mg1].
  - exact Hb.
  - destruct Hb as (sd1 & Hl1 & Hid1 & Hpre1).
    destruct (handler_effect mg1 sid e sd1 Hl1)
      as (mg2 & sd' & Hh & _ & _ & Hdb & Hpre2).
    rewrite Hh. cbn [snd]. exists (session sd').
    rewrite <- Hid1. split; [exact Hdb | ].
    etransitivity; [exact Hpre1 | exact Hpre2].
Qed.

Lemma seller_turn_persists_history_witness :
  exists s',
    db_sessions
      (snd (process_seller_response "s1" "hello"
              (demo_manager None offer_on_record)))
      !! "s1" = Some s'
    /\ offer_on_record `prefix_of` messages s'.
Proof.
  exact (seller_turn_persists_history (demo_manager None offer_on_record)
           "s1" "hello" (demo_negotiation offer_on_record) eq_refl).
Defined.

(* ===================================================================== *)
(** ** What a seller turn answers without the AI service *)

Lemma manager_decision_cases sd sa ph product :
  make_decision (engine_view sd) sa ph product
  = Ok (if effective_price sa product <=? 0 then accept_decision
        else if F64.gtb (get_flexibility sa) F64.c0_7
             then final_offer_decision 0
             else walk_away_decision).
Proof.
  unfold make_decision, engine_view.
  cbn [sd_target_price sd_max_budget default from_option id]. cbv zeta.
  destruct (effective_price sa product <=? 0); [reflexivity | ].
  destruct (F64.gtb (get_flexibility sa) F64.c0_7); reflexivity.
Qed.

Lemma manager_turn_decision sd msg hist product g :
  exists r g',
    process_negotiation_turn (engine_view sd) msg hist product g = (Ok r, g')
    /\ manager_decision (of_turn r).
Proof.
  unfold process_negotiation_turn, turn_body, gbind, glift, manager_decision.
  destruct (analyze_and_decide (engine_view sd) msg hist product)
    as [[[sa ph] d] | e] eqn:Ead;
    [ | do 2 eexists; split; [reflexivity | right; right; reflexivity]].
  destruct (generate_strategic_response d
              (select_tactics d sa ph (engine_view sd)) sa (engine_view sd)
              product g) as [[resp | e] g'] eqn:Eg;
    [ | do 2 eexists; split; [reflexivity | right; right; reflexivity]].
  do 2 eexists. split; [reflexivity | ].
  cbn [of_turn nr_decision tr_decision].
  unfold analyze_and_decide in Ead.
  destruct (analyze_seller_message msg hist (engine_view sd)) as [sa' | ];
    [ | discriminate Ead].
  cbn [rbind] in Ead. rewrite manager_decision_cases in Ead.
  cbn [rbind] in Ead. injection Ead as -> _ <-.
  destruct (effective_price sa product <=? 0).
  - pose proof (accept_text_raises accept_decision
                  (select_tactics accept_decision sa ph (engine_view sd))
                  sa (engine_view sd) product g eq_refl) as Hr.
    rewrite Eg in Hr. discriminate Hr.
  - destruct (F64.gtb (get_flexibility sa) F64.c0_7); auto.
Qed.

Lemma engine_turn_decision sd msg :
  triple (fun _ => True) (engine_turn sd msg)
    (fun nr _ => manager_decision nr) (fun _ => True).
Proof.
  intros mg _. unfold engine_turn.
  destruct (manager_turn_decision sd msg (messages (session sd)) (product sd)
              (rng mg)) as (r & g' & -> & Hd).
  exact Hd.
Qed.

Lemma decide_without_service sd msg :
  triple (fun mg => enhanced_ai_service mg = None)
    (fun mg1 =>
       match enhanced_ai_service mg1 with
       | Some svc => ai_turn svc sd msg mg1
       | None => engine_turn sd msg mg1
       end)
    (fun nr _ => manager_decision nr) (fun _ => True).
Proof.
  intros mg H. rewrite H. exact (engine_turn_decision sd msg mg I).
Qed.

Lemma service_frame {A} (c : M A) :
  (forall mg, enhanced_ai_service (snd (c mg)) = enhanced_ai_service mg) ->
  triple (fun mg => enhanced_ai_service mg = None) c
    (fun _ mg => enhanced_ai_service mg = None) (fun _ => True).
Proof.
  intros H mg Hs. specialize (H mg).
  destruct (c mg) as [[a | e] mg1]; [ | exact I].
  cbn [snd] in H. congruence.
Qed.

Lemma triple_assume {A} (phi : Prop) (c : M A) Q E :
  (phi -> triple (fun _ => True) c Q E) -> triple (fun _ => phi) c Q E.
Proof. intros H mg Hp. exact (H Hp mg I). Qed.

Lemma complete_session_outcome sid o :
  triple (fun _ => True) (_complete_session sid o)
    (fun r _ => cr_outcome r = outcome_value o) (fun _ => True).
Proof.
  unfold _complete_session.
  repeat (eapply triple_bind; [apply triple_any | intros ?]).
  apply triple_ret. reflexivity.
Qed.

Lemma scan_of_manager_decision sd nr :
  manager_decision nr ->
  match _check_completion_conditions sd nr with
  | Some o => o = FAILED_PRICE \/ o = SELLER_UNRESPONSIVE
  | None =>
      nr_decision nr = Some (final_offer_decision 0)
      \/ nr_decision nr = Some pause_decision
  end.
Proof.
  unfold manager_decision, _check_completion_conditions, decision_action,
    decision_confidence.
  intros [H | [H | H]]; rewrite H; cbn;
    repeat match goal with
    | |- context [if ?b then _ else _] => destruct b
    end; auto.
Qed.

Ltac service_step :=
  eapply triple_bind;
  [ apply service_frame; intros mg0;
    unfold get_session_data, save_session;
    try destruct (active_sessions mg0 !! _); reflexivity
  | intros ? ].

Ltac pure_step := eapply triple_bind; [apply triple_pure | intros ?].

Lemma body_answers sid msg :
  triple (fun mg => enhanced_ai_service mg = None)
    (seller_response_body sid msg)
    (fun out _ => engine_answer out) (fun _ => True).
Proof.
  intros mg Hs. unfold seller_response_body.
  destruct (active_sessions mg !! sid) as [sd0 | ]; [ | exact I].
  refine ((_ : triple (fun mg => enhanced_ai_service mg = None) _
                 (fun out _ => engine_answer out) (fun _ => True)) mg Hs).
  eapply triple_bind.
  { destruct (time_to_first_response (performance_metrics sd0)).
    - apply service_frame. reflexivity.
    - eapply triple_bind; [apply service_frame; reflexivity | intros t].
      destruct (start_time sd0); apply service_frame; reflexivity. }
  intros ?. do 4 service_step.
  destruct (_check_intervention_triggers _ msg) as [t | ].
  { eapply triple_bind; [apply triple_any | intros r].
    apply triple_ret. intros; exact I. }
  eapply triple_bind; [apply decide_without_service | intros nr].
  do 6 pure_step.
  eapply triple_bind; [apply triple_pure | intros sd'].
  apply (triple_assume (manager_decision nr)). intros Hd.
  pose proof (scan_of_manager_decision sd' nr Hd) as Hscan.
  destruct (_check_completion_conditions sd' nr) as [o | ].
  - eapply triple_bind; [apply complete_session_outcome | intros r].
    apply triple_ret. intros mg1 Ho. cbn [engine_answer].
    rewrite Ho. destruct Hscan as [-> | ->]; auto.
  - eapply triple_bind; [apply triple_any | intros ?].
    apply triple_ret. intros mg1 _. exact Hscan.
Qed.

(** X10: without the AI service the manager never bargains.  When a seller
    turn returns, it is a handoff, or the session was completed with
    outcome "failed_price" or "seller_unresponsive", or the reply carries
    the decision "final_offer" with offer 0 or the fallback "pause": never
    a counter offer, an acceptance or a successful completion. *)
Theorem engine_answers_without_service mg sid msg :
  enhanced_ai_service mg = None ->
  match fst (process_seller_response sid msg mg) with
  | Ok out => engine_answer out
  | Raise _ => True
  end.
Proof.
  intros Hs. pose proof (body_answers sid msg mg Hs) as H.
  unfold process_seller_response.
  destruct (seller_response_body sid msg mg) as [[out | e] mg1].
  - exact H.
  - destruct (_handle_session_error sid (exn_text e) mg1) as [[u | e'] mg2]; exact I.
Qed.

Lemma engine_answers_without_service_witness :
  match fst (process_seller_response "s1" "hello" (demo_manager None [])) with
  | Ok out => engine_answer out
  | Raise _ => True
  end.
Proof.
  exact (engine_answers_without_service (demo_manager None []) "s1" "hello"
           eq_refl).
Defined.

(* ===================================================================== *)
(** ** The effectiveness filter *)

Lemma effective_spec p t :
  effective p t = if String.eqb p "firm" then spared t else true.
Proof.
  unfold effective, effectiveness.
  destruct t; cbn [tactic_effectiveness default from_option id dict_get];
    destruct (String.eqb p "flexible") eqn:E1;
    destruct (String.eqb p "firm") eqn:E2;
    destruct (String.eqb p "eager") eqn:E3;
    try reflexivity;
    apply String.eqb_eq in E1; apply String.eqb_eq in E2; congruence.
Qed.

Lemma filter_bool_ext {A} (f g : A -> bool) (l : list A) :
  (forall x, f x = g x) ->
  filter (fun x => Is_true (f x)) l = filter (fun x => Is_true (g x)) l.
Proof.
  intros H. induction l as [|x l IH]; [reflexivity | ].
  rewrite !filter_cons, IH, H. reflexivity.
Qed.

Lemma filter_bool_true {A} (l : list A) :
  filter (fun _ : A => Is_true true) l = l.
Proof.
  induction l as [|x l IH]; [reflexivity | ].
  rewrite filter_cons, IH. reflexivity.
Qed.

Lemma candidate_tactics_short sa ph :
  (length (candidate_tactics sa ph) <= 2)%nat.
Proof.
  unfold candidate_tactics.
  destruct ph;
    repeat match goal with
    | |- context [if ?b then _ else _] => destruct b
    end; cbn; lia.
Qed.

(** X11: the effectiveness filter only bites for a firm seller.  For every
    other personality the selector returns the candidates of the phase
    unchanged; for a firm seller it drops anchoring, scarcity and urgency
    and keeps the rest.  No phase has more than two candidates, so the cap
    of three never cuts. *)
Theorem tactic_filter_only_bites_firm d sa ph sd :
  select_tactics d sa ph sd
  = (if String.eqb (default "flexible" (personality sa)) "firm"
     then filter (fun t => Is_true (spared t)) (candidate_tactics sa ph)
     else candidate_tactics sa ph)
  /\ (length (select_tactics d sa ph sd) <= 2)%nat.
Proof.
  assert (Hsel : select_tactics d sa ph sd
                 = if String.eqb (default "flexible" (personality sa)) "firm"
                   then filter (fun t => Is_true (spared t))
                          (candidate_tactics sa ph)
                   else candidate_tactics sa ph).
  { unfold select_tactics. cbv zeta.
    pose proof (candidate_tactics_short sa ph) as Hlen.
    set (p := default "flexible" (personality sa)).
    rewrite firstn_all2.
    - change (filter (effective p) (candidate_tactics sa ph))
        with (filter (fun t => Is_true (effective p t))
                (candidate_tactics sa ph)).
      destruct (String.eqb p "firm") eqn:E.
      + apply filter_bool_ext. intros t. rewrite effective_spec, E.
        reflexivity.
      + rewrite (filter_bool_ext _ (fun _ => true));
          [apply filter_bool_true | ].
        intros t. rewrite effective_spec, E. reflexivity.
    - pose proof (length_filter (effective p) (candidate_tactics sa ph)).
      lia. }
  split; [exact Hsel | ].
  rewrite Hsel. pose proof (candidate_tactics_short sa ph) as Hlen.
  destruct (String.eqb _ "firm"); [ | exact Hlen].
  pose proof (length_filter (fun t => Is_true (spared t))
                (candidate_tactics sa ph)).
  lia.
Qed.

(* ===================================================================== *)
(** ** The final metrics *)

Lemma complete_session_metrics mg sid sd o :
  active_sessions mg !! sid = Some sd ->
  final_price (session sd) = None ->
  exists r mg',
    _complete_session sid o mg = (Ok r, mg')
    /\ cr_metrics r
       = mkFinalMetrics (Z.of_nat (length (messages (session sd))))
           (count_sender "ai" (messages (session sd)))
           (count_sender "seller" (messages (session sd)))
           None None None
           (negotiation_effectiveness (performance_metrics sd))
    /\ cr_final_price r
       = (if outcome_eqb o SUCCESS
          then _extract_final_agreed_price (messages (session sd))
          else None).
Proof.
  intros Hl Hp. destruct mg as [act db ld ai clk cr uu ur rg dc].
  cbn [active_sessions] in Hl.
  unfold _complete_session. munfold. msimpl Hl.
  unfold calculate_final_metrics.
  cbn [session with_session set_ended_at set_outcome set_status final_price
       messages performance_metrics product].
  rewrite Hp. cbn [truthy_price].
  destruct (outcome_eqb o SUCCESS); msimpl Hl.
  - do 2 eexists. split; [reflexivity | ].
    cbn [cr_metrics cr_final_price session with_session set_final_price
         set_ended_at set_outcome set_status final_price messages].
    split; reflexivity.
  - do 2 eexists. split; [reflexivity | ].
    cbn [cr_metrics cr_final_price session with_session set_final_price
         set_ended_at set_outcome set_status final_price messages].
    split; [reflexivity | exact Hp].
Qed.

(** X12: [_complete_session] computes the final metrics before it stores
    the final price.  For a session that carries no price yet, the metrics
    of the completion hold the message counts and the effectiveness but no
    price savings, savings percentage or target achievement, also when the
    outcome is SUCCESS and the completion reports a final price. *)
Theorem metrics_precede_final_price mg sid sd o :
  active_sessions mg !! sid = Some sd ->
  final_price (session sd) = None ->
  exists r mg',
    _complete_session sid o mg = (Ok r, mg')
    /\ fm_price_savings (cr_metrics r) = None
    /\ fm_savings_percentage (cr_metrics r) = None
    /\ fm_target_achievement_percentage (cr_metrics r) = None
    /\ fm_message_count (cr_metrics r)
       = Z.of_nat (length (messages (session sd)))
    /\ cr_final_price r
       = (if outcome_eqb o SUCCESS
          then _extract_final_agreed_price (messages (session sd))
          else None).
Proof.
  intros Hl Hp.
  destruct (complete_session_metrics mg sid sd o Hl Hp)
    as (r & mg' & Hrun & Hm & Hf).
  exists r, mg'. rewrite Hm.
  cbn [fm_price_savings fm_savings_percentage
       fm_target_achievement_percentage fm_message_count].
  repeat (split; [first [exact Hrun | reflexivity] | ]). exact Hf.
Qed.

Lemma metrics_precede_final_price_witness :
  exists r mg',
    _complete_session "s1" SUCCESS
      (demo_manager None
         [agent_says "₹8,500 and we have a deal. I'll bring cash."])
    = (Ok r, mg')
    /\ fm_price_savings (cr_metrics r) = None
    /\ cr_final_price r = Some 8500.
Proof.
  destruct (metrics_precede_final_price
              (demo_manager None
                 [agent_says "₹8,500 and we have a deal. I'll bring cash."])
              "s1"
              (demo_negotiation
                 [agent_says "₹8,500 and we have a deal. I'll bring cash."])
              SUCCESS eq_refl eq_refl)
    as (r & mg' & Hrun & Hs & _ & _ & _ & Hf).
  exists r, mg'. split; [exact Hrun | ]. split; [exact Hs | ].
  rewrite Hf. vm_compute. reflexivity.
Defined.
